(** * Streaming core of the AI SDK: frame protocol, provider-delta extractor,
      callback transformer and function/tool-call continuation controller.

    Shallow embedding of
      - [packages/core/shared/utils.ts]       (getStreamString, createChunkDecoder),
      - [packages/core/streams/ai-stream.ts]   (AIStream and its transformers),
      - [packages/core/streams/openai-stream.ts] (chunkToText, OpenAIStream,
        createFunctionCallTransformer).

    Conventions of the embedding.
      - A JavaScript string is a [string] of bytes: ASCII code units are
        themselves, other code units stand for their UTF-8 bytes.  With this
        reading [TextEncoder.encode] and the streaming [TextDecoder.decode]
        of whole encoded messages are the identity.
      - A stream is the list of chunks a consumer reads from it, followed by
        the way it ends: closed, errored, or never settling.
      - Hooks ([onStart], [onToken], ...) are user closures called for their
        effect: a callback set records which hooks are present, and every
        call is logged in a trace.  Hooks are taken to return normally.
      - Where two revisions of a function are present in the sources, the
        later one (the one the other files import) is embedded. *)

From Stdlib Require Import String Ascii List Bool Arith ZArith Lia.
Import ListNotations.
Local Open Scope list_scope.
Local Open Scope string_scope.

(** ** Characters and strings *)

Module Str.

Definition dq : ascii := "034"%char.       (* the double quote *)
Definition bsl : ascii := "\"%char.        (* the backslash *)
Definition nl : ascii := "010"%char.
Definition cr : ascii := "013"%char.
Definition tab : ascii := "009"%char.
Definition ff : ascii := "012"%char.
Definition bs : ascii := "008"%char.

Definition DQ : string := String dq "".
Definition NL : string := String nl "".

(** [q s] is [s] between double quotes, as in the source's string templates. *)
Definition q (s : string) : string := DQ ++ s ++ DQ.

Definition code (c : ascii) : nat := nat_of_ascii c.

Definition is_control (c : ascii) : bool := (code c <? 32)%nat.

Definition is_empty (s : string) : bool :=
  match s with EmptyString => true | _ => false end.

(** [String.prototype.startsWith]. *)
Fixpoint startsWith (s p : string) : bool :=
  match p with
  | EmptyString => true
  | String c p' =>
      match s with
      | EmptyString => false
      | String d s' => Ascii.eqb c d && startsWith s' p'
      end
  end.

(** [s.split('\n')]: the segments between newlines; one more segment than
    there are newlines. *)
Fixpoint split_nl (s : string) : list string :=
  match s with
  | EmptyString => [""]
  | String c r =>
      if Ascii.eqb c nl then "" :: split_nl r
      else match split_nl r with
           | [] => [String c ""]
           | seg :: segs => String c seg :: segs
           end
  end.

(** [s.replace(/c/g, by)] for a one-character pattern. *)
Fixpoint replace_all (c : ascii) (by_ : string) (s : string) : string :=
  match s with
  | EmptyString => EmptyString
  | String d r =>
      if Ascii.eqb d c then by_ ++ replace_all c by_ r
      else String d (replace_all c by_ r)
  end.

Fixpoint contains (c : ascii) (s : string) : bool :=
  match s with
  | EmptyString => false
  | String d r => Ascii.eqb d c || contains c r
  end.

(** ASCII white space and line terminators removed by [trimStart]. *)
Definition is_js_space (c : ascii) : bool :=
  let n := code c in
  ((n =? 9) || (n =? 10) || (n =? 11) || (n =? 12) || (n =? 13) || (n =? 32))%nat.

(** [String.prototype.trimStart].  The white space of ECMAScript outside
    ASCII is matched on its UTF-8 bytes: U+00A0, U+1680, U+2000..U+200A,
    U+2028, U+2029, U+202F, U+205F, U+3000 and U+FEFF. *)
Definition wide_space3 (a b c : ascii) : bool :=
  let x := code a in let y := code b in let z := code c in
  (((x =? 225) && (y =? 154) && (z =? 128)) ||
  ((x =? 226) && (y =? 128) && ((128 <=? z) && (z <=? 138))) ||
  ((x =? 226) && (y =? 128) && ((z =? 168) || (z =? 169) || (z =? 175))) ||
  ((x =? 226) && (y =? 129) && (z =? 159)) ||
  ((x =? 227) && (y =? 128) && (z =? 128)) ||
  ((x =? 239) && (y =? 187) && (z =? 191)))%nat.

Fixpoint trimStart (s : string) : string :=
  match s with
  | EmptyString => EmptyString
  | String a r =>
      if is_js_space a then trimStart r
      else match r with
           | String b r' =>
               if ((code a =? 194) && (code b =? 160))%nat then trimStart r'
               else match r' with
                    | String c r'' =>
                        if wide_space3 a b c then trimStart r'' else s
                    | EmptyString => s
                    end
           | EmptyString => s
           end
  end.

Definition concat (l : list string) : string :=
  fold_right append "" l.

(** [Array.prototype.join(sep)]. *)
Fixpoint join (sep : string) (l : list string) : string :=
  match l with
  | [] => ""
  | [x] => x
  | x :: r => x ++ sep ++ join sep r
  end.

End Str.

(** ** JSON values, [JSON.parse] and [JSON.stringify] (ECMA-404) *)

Module JSON.
Import Str.

Set Warnings "-register-all".

(** A number is kept as its JSON lexeme: the IEEE double it denotes is not
    computed.  An object is the list of its members in source order. *)
Inductive JSONValue : Type :=
| JNull
| JBool (b : bool)
| JNumber (lexeme : string)
| JString (s : string)
| JArray (elements : list JSONValue)
| JObject (members : list (string * JSONValue)).

Definition is_ws (c : ascii) : bool :=
  let n := code c in ((n =? 32) || (n =? 9) || (n =? 10) || (n =? 13))%nat.

Fixpoint skip_ws (s : string) : string :=
  match s with
  | String c r => if is_ws c then skip_ws r else s
  | EmptyString => s
  end.

Definition is_digit (c : ascii) : bool := ((48 <=? code c) && (code c <=? 57))%nat.

Definition hex_val (c : ascii) : option nat :=
  let n := code c in
  if ((48 <=? n) && (n <=? 57))%nat then Some (n - 48)
  else if ((65 <=? n) && (n <=? 70))%nat then Some (n - 55)
  else if ((97 <=? n) && (n <=? 102))%nat then Some (n - 87)
  else None.

Definition hex4 (a b c d : ascii) : option nat :=
  match hex_val a, hex_val b, hex_val c, hex_val d with
  | Some w, Some x, Some y, Some z => Some (((w * 16 + x) * 16 + y) * 16 + z)
  | _, _, _, _ => None
  end.

(** The bytes standing for the code unit [n] (below 65536). *)
Definition utf8 (n : nat) : string :=
  if (n <? 128)%nat then String (ascii_of_nat n) ""
  else if (n <? 2048)%nat then
    String (ascii_of_nat (192 + n / 64)) (String (ascii_of_nat (128 + n mod 64)) "")
  else
    String (ascii_of_nat (224 + n / 4096))
      (String (ascii_of_nat (128 + (n / 64) mod 64))
         (String (ascii_of_nat (128 + n mod 64)) "")).

Definition simple_escape (e : ascii) : option ascii :=
  if Ascii.eqb e dq then Some dq
  else if Ascii.eqb e bsl then Some bsl
  else if Ascii.eqb e "/" then Some "/"%char
  else if Ascii.eqb e "b" then Some bs
  else if Ascii.eqb e "f" then Some ff
  else if Ascii.eqb e "n" then Some nl
  else if Ascii.eqb e "r" then Some cr
  else if Ascii.eqb e "t" then Some tab
  else None.

Definition prepend (p : string) (r : option (string * string))
  : option (string * string) :=
  match r with
  | Some (v, rest) => Some (p ++ v, rest)
  | None => None
  end.

(** The characters of a string literal after its opening quote, up to and
    including the closing quote: the string denoted and the rest of the
    text.  A raw control character (below U+0020) is a syntax error. *)
Fixpoint parse_chars (s : string) : option (string * string) :=
  match s with
  | EmptyString => None
  | String c r =>
      if Ascii.eqb c dq then Some ("", r)
      else if Ascii.eqb c bsl then
        match r with
        | EmptyString => None
        | String e r' =>
            match simple_escape e with
            | Some x => prepend (String x "") (parse_chars r')
            | None =>
                if Ascii.eqb e "u" then
                  match r' with
                  | String h1 (String h2 (String h3 (String h4 r''))) =>
                      match hex4 h1 h2 h3 h4 with
                      | Some n => prepend (utf8 n) (parse_chars r'')
                      | None => None
                      end
                  | _ => None
                  end
                else None
            end
        end
      else if is_control c then None
      else prepend (String c "") (parse_chars r)
  end.

Fixpoint take_digits (s : string) : string * string :=
  match s with
  | String c r =>
      if is_digit c then let '(ds, rest) := take_digits r in (String c ds, rest)
      else ("", s)
  | EmptyString => ("", s)
  end.

Definition parse_int (s : string) : option (string * string) :=
  match s with
  | String c r =>
      if Ascii.eqb c "0" then Some ("0", r)
      else if is_digit c then
        let '(ds, rest) := take_digits r in Some (String c ds, rest)
      else None
  | EmptyString => None
  end.

Definition parse_frac (s : string) : option (string * string) :=
  match s with
  | String c r =>
      if Ascii.eqb c "." then
        match take_digits r with
        | (EmptyString, _) => None
        | (ds, rest) => Some (String c ds, rest)
        end
      else Some ("", s)
  | EmptyString => Some ("", s)
  end.

Definition parse_exp (s : string) : option (string * string) :=
  match s with
  | String c r =>
      if Ascii.eqb c "e" || Ascii.eqb c "E" then
        let '(sign, r1) :=
          match r with
          | String d r' =>
              if Ascii.eqb d "+" || Ascii.eqb d "-" then (String d "", r')
              else ("", r)
          | EmptyString => ("", r)
          end in
        match take_digits r1 with
        | (EmptyString, _) => None
        | (ds, rest) => Some (String c (sign ++ ds), rest)
        end
      else Some ("", s)
  | EmptyString => Some ("", s)
  end.

Definition parse_number (s : string) : option (string * string) :=
  let '(sign, s1) :=
    match s with
    | String c r => if Ascii.eqb c "-" then ("-", r) else ("", s)
    | EmptyString => ("", s)
    end in
  match parse_int s1 with
  | None => None
  | Some (i, s2) =>
      match parse_frac s2 with
      | None => None
      | Some (f, s3) =>
          match parse_exp s3 with
          | None => None
          | Some (e, s4) => Some (sign ++ i ++ f ++ e, s4)
          end
      end
  end.

(** [strip p s]: the rest of [s] after the prefix [p]. *)
Fixpoint strip (p s : string) : option string :=
  match p with
  | EmptyString => Some s
  | String c p' =>
      match s with
      | String d s' => if Ascii.eqb c d then strip p' s' else None
      | EmptyString => None
      end
  end.

Section Aggregates.
Variable pv : string -> option (JSONValue * string).

(** Elements of an array after the first has been found to exist, up to
    and including the closing bracket. *)
Fixpoint parse_elements (n : nat) (s : string)
  : option (list JSONValue * string) :=
  match n with
  | 0 => None
  | S n' =>
      match pv s with
      | None => None
      | Some (v, r) =>
          match skip_ws r with
          | String c r' =>
              if Ascii.eqb c "," then
                match parse_elements n' r' with
                | Some (vs, rest) => Some (v :: vs, rest)
                | None => None
                end
              else if Ascii.eqb c "]" then Some ([v], r')
              else None
          | EmptyString => None
          end
      end
  end.

(** Members of an object, up to and including the closing brace. *)
Fixpoint parse_members (n : nat) (s : string)
  : option (list (string * JSONValue) * string) :=
  match n with
  | 0 => None
  | S n' =>
      match skip_ws s with
      | String c0 r0 =>
          if Ascii.eqb c0 dq then
            match parse_chars r0 with
            | None => None
            | Some (k, r1) =>
                match skip_ws r1 with
                | String c1 r2 =>
                    if Ascii.eqb c1 ":" then
                      match pv r2 with
                      | None => None
                      | Some (v, r3) =>
                          match skip_ws r3 with
                          | String c r' =>
                              if Ascii.eqb c "," then
                                match parse_members n' r' with
                                | Some (ms, rest) => Some ((k, v) :: ms, rest)
                                | None => None
                                end
                              else if Ascii.eqb c "}" then Some ([(k, v)], r')
                              else None
                          | EmptyString => None
                          end
                      end
                    else None
                | EmptyString => None
                end
            end
          else None
      | EmptyString => None
      end
  end.
End Aggregates.

(** One JSON value, after optional white space.  The fuel bounds the depth
    of nesting and the number of elements of an aggregate; [parse] gives
    more than the text can use. *)
Fixpoint parse_value (fuel : nat) (s : string) : option (JSONValue * string) :=
  match fuel with
  | 0 => None
  | S f =>
      match skip_ws s with
      | EmptyString => None
      | String c r =>
          if Ascii.eqb c "{" then
            match skip_ws r with
            | String c' r' =>
                if Ascii.eqb c' "}" then Some (JObject [], r')
                else
                  match parse_members (parse_value f) f r with
                  | Some (ms, rest) => Some (JObject ms, rest)
                  | None => None
                  end
            | EmptyString => None
            end
          else if Ascii.eqb c "[" then
            match skip_ws r with
            | String c' r' =>
                if Ascii.eqb c' "]" then Some (JArray [], r')
                else
                  match parse_elements (parse_value f) f r with
                  | Some (vs, rest) => Some (JArray vs, rest)
                  | None => None
                  end
            | EmptyString => None
            end
          else if Ascii.eqb c dq then
            match parse_chars r with
            | Some (v, rest) => Some (JString v, rest)
            | None => None
            end
          else if Ascii.eqb c "t" then
            option_map (fun rest => (JBool true, rest)) (strip "rue" r)
          else if Ascii.eqb c "f" then
            option_map (fun rest => (JBool false, rest)) (strip "alse" r)
          else if Ascii.eqb c "n" then
            option_map (fun rest => (JNull, rest)) (strip "ull" r)
          else
            match parse_number (String c r) with
            | Some (lx, rest) => Some (JNumber lx, rest)
            | None => None
            end
      end
  end.

(** [JSON.parse]: [None] is the [SyntaxError]. *)
Definition parse (s : string) : option JSONValue :=
  match parse_value (S (String.length s)) s with
  | Some (v, rest) => if is_empty (skip_ws rest) then Some v else None
  | None => None
  end.

Definition hex_digit (n : nat) : ascii :=
  if (n <? 10)%nat then ascii_of_nat (48 + n) else ascii_of_nat (87 + n).

(** The escaping [JSON.stringify] applies inside a string literal. *)
Fixpoint escape (s : string) : string :=
  match s with
  | EmptyString => EmptyString
  | String c r =>
      (if Ascii.eqb c dq then String bsl (String dq "")
       else if Ascii.eqb c bsl then String bsl (String bsl "")
       else if Ascii.eqb c bs then "\b"
       else if Ascii.eqb c ff then "\f"
       else if Ascii.eqb c nl then "\n"
       else if Ascii.eqb c cr then "\r"
       else if Ascii.eqb c tab then "\t"
       else if is_control c then
         "\u00" ++ String (hex_digit (code c / 16)) (String (hex_digit (code c mod 16)) "")
       else String c "") ++ escape r
  end.

Definition quote (s : string) : string := DQ ++ escape s ++ DQ.

(** [JSON.stringify] of a JSON value, without indentation. *)
Fixpoint stringify (v : JSONValue) : string :=
  match v with
  | JNull => "null"
  | JBool true => "true"
  | JBool false => "false"
  | JNumber lx => lx
  | JString s => quote s
  | JArray vs => "[" ++ join "," (map stringify vs) ++ "]"
  | JObject ms =>
      "{" ++ join "," (map (fun kv => quote (fst kv) ++ ":" ++ stringify (snd kv)) ms) ++ "}"
  end.

(** Property read [o.k]: [None] is [undefined]; of several members with one
    key the last is the object's. *)
Fixpoint lookup (k : string) (ms : list (string * JSONValue)) : option JSONValue :=
  match ms with
  | [] => None
  | (k', v) :: r =>
      match lookup k r with
      | Some v' => Some v'
      | None => if String.eqb k k' then Some v else None
      end
  end.

End JSON.

(** ** The frame protocol ([shared/utils.ts]) *)

Module Frames.
Import Str JSON.

(** The keys of [StreamStringPrefixes]. *)
Inductive StreamStringType : Type := text | function_call | data.

Definition StreamStringPrefixes (t : StreamStringType) : string :=
  match t with
  | text => "0"
  | function_call => "1"
  | data => "2"
  end.

(** [getStreamString]: prefix, colon, the value itself when it is a string
    and its JSON text otherwise, newline. *)
Definition getStreamString (type : StreamStringType) (value : JSONValue) : string :=
  StreamStringPrefixes type ++ ":" ++
  (match value with
   | JString s => s
   | _ => stringify value
   end) ++ NL.

Definition isStreamStringEqualToType (type : StreamStringType) (value : string) : bool :=
  startsWith value (StreamStringPrefixes type ++ ":") &&
  match value with
  | EmptyString => false
  | _ => Ascii.eqb (match get (String.length value - 1) value with
                    | Some c => c
                    | None => "000"%char
                    end) nl
  end.

(** One decoded frame, [{type, value}]. *)
Record StreamPartType : Type := mkPart { part_type : StreamStringType; part_value : JSONValue }.

(** Modelled from the spec: [parseStreamPart] of [shared/stream-parts] is not
    among the sources.  Section 4.3: match the leading [<digit>:] prefix to a
    kind and return [{type, value}]; a line that matches no known prefix is
    dropped.  Section 6: the payload is the literal string for text, else the
    JSON serialization of a structured value, and an unparseable line is
    discarded.  [None] is the dropped line. *)
Definition parseStreamPart (line : string) : option StreamPartType :=
  match line with
  | String d (String c payload) =>
      if Ascii.eqb c ":" then
        if Ascii.eqb d "0" then Some (mkPart text (JString payload))
        else if Ascii.eqb d "1" then option_map (mkPart function_call) (parse payload)
        else if Ascii.eqb d "2" then option_map (mkPart data) (parse payload)
        else None
      else None
  | _ => None
  end.

Fixpoint filter_some {A : Type} (l : list (option A)) : list A :=
  match l with
  | [] => []
  | Some x :: r => x :: filter_some r
  | None :: r => filter_some r
  end.

(** [createChunkDecoder()] and [createChunkDecoder(false)]: the simple
    decoder, on one whole chunk ([None] is [undefined]). *)
Definition createChunkDecoder_simple (chunk : option string) : string :=
  match chunk with
  | None => ""
  | Some c => c
  end.

(** [createChunkDecoder(true)]: split on newlines, drop the empty segments,
    parse each line and keep the parsed ones. *)
Definition createChunkDecoder_complex (chunk : string) : list StreamPartType :=
  filter_some (map parseStreamPart (filter (fun line => negb (is_empty line)) (split_nl chunk))).

End Frames.

(** ** Provider chunks and the delta extractor ([openai-stream.ts]) *)

Module Provider.
Import Str JSON.

(** The interfaces of the OpenAI chunks, with the fields the streaming code
    reads.  [None] is an absent (or [null]) property. *)
Record FunctionCall : Type := mkFunctionCall {
  fc_name : option string;
  fc_arguments : option string }.

Record ToolCallFunction : Type := mkToolCallFunction {
  tcf_arguments : option string;
  tcf_name : option string }.

Record DeltaToolCall : Type := mkDeltaToolCall {
  tc_index : Z;
  tc_id : option string;
  tc_function : option ToolCallFunction }.

Inductive FinishReason : Type :=
| fr_stop | fr_length | fr_tool_calls | fr_content_filter | fr_function_call.

Record ChoiceDelta : Type := mkChoiceDelta {
  d_content : option string;
  d_function_call : option FunctionCall;
  d_tool_calls : option (list DeltaToolCall) }.

Record ChatCompletionChunkChoice : Type := mkChoice {
  delta : ChoiceDelta;
  finish_reason : option FinishReason }.

Record ChatCompletionChunk : Type := mkChatChunk {
  choices : list ChatCompletionChunkChoice }.

Record CompletionChoice : Type := mkCompletionChoice {
  cc_text : string }.

Record Completion : Type := mkCompletion {
  c_choices : list CompletionChoice }.

(** [AzureChatCompletions] ([azure-openai-types]), read by [streamable]. *)
Record AzureToolCall : Type := mkAzureToolCall {
  az_id : option string;
  az_function : option ToolCallFunction }.

Record AzureDelta : Type := mkAzureDelta {
  az_content : option string;
  az_functionCall : option FunctionCall;
  az_toolCalls : option (list AzureToolCall) }.

Record AzureChoice : Type := mkAzureChoice {
  az_delta : option AzureDelta;
  az_finishReason : option FinishReason }.

Record AzureChatCompletions : Type := mkAzure {
  az_choices : list AzureChoice }.

Inductive OpenAIStreamReturnTypes : Type :=
| Chat (c : ChatCompletionChunk)
| Legacy (c : Completion)
| Azure (c : AzureChatCompletions).

(** What the extractor yields: a string, or [{isText: false, content}]. *)
Inductive Message : Type :=
| Text (s : string)
| NotText (content : string).

Definition content_of (m : Message) : string :=
  match m with
  | Text s => s
  | NotText c => c
  end.

(** JavaScript truthiness of a message and of an optional string. *)
Definition truthy_message (m : Message) : bool :=
  match m with
  | Text s => negb (is_empty s)
  | NotText _ => true
  end.

Definition truthy (o : option string) : bool :=
  match o with
  | Some s => negb (is_empty s)
  | None => false
  end.

(** A template hole [${x}] for an optional string. *)
Definition interpolate (o : option string) : string :=
  match o with
  | Some s => s
  | None => "undefined"
  end.

(** [trimStartOfStreamHelper]: the closure's flag [isStreamStart] is the
    state. *)
Definition trimStartOfStream (isStreamStart : bool) (text : string) : string * bool :=
  if isStreamStart then
    let text' := trimStart text in
    (text', if is_empty text' then true else false)
  else (text, isStreamStart).

(** [cleanupArguments]: seven replacements, in the order of the source. *)
Definition cleanupArguments (argumentChunk : string) : string :=
  replace_all ff "\f"
    (replace_all tab "\t"
       (replace_all cr "\r"
          (replace_all nl "\n"
             (replace_all dq (String bsl DQ)
                (replace_all "/" "\/"
                   (replace_all bsl "\\" argumentChunk)))))).

(** The two flags captured by the closure [chunkToText] returns. *)
Record ExtractState : Type := mkExtract {
  isStreamStart : bool;
  isFunctionStreamingIn : bool }.

Definition initialExtract : ExtractState := mkExtract true false.

(** [isChatCompletionChunk], with [json.choices[0]] as the code goes on to
    read it.  An Azure chunk that was not converted has a [delta] too, but
    of its properties only [content] has the name the code reads. *)
Definition isChatCompletionChunk (json : OpenAIStreamReturnTypes)
  : option ChatCompletionChunkChoice :=
  match json with
  | Chat c => match choices c with ch :: _ => Some ch | [] => None end
  | Azure c =>
      match az_choices c with
      | ch :: _ =>
          match az_delta ch with
          | Some d => Some (mkChoice (mkChoiceDelta (az_content d) None None) None)
          | None => None
          end
      | [] => None
      end
  | Legacy _ => None
  end.

Definition isCompletion (json : OpenAIStreamReturnTypes) : option CompletionChoice :=
  match json with
  | Legacy c => match c_choices c with ch :: _ => Some ch | [] => None end
  | _ => None
  end.

(** [delta.tool_calls?.[0]]. *)
Definition first_tool_call (d : ChoiceDelta) : option DeltaToolCall :=
  match d_tool_calls d with
  | Some (t :: _) => Some t
  | _ => None
  end.

Definition tool_name (t : option DeltaToolCall) : option string :=
  match t with
  | Some t' => match tc_function t' with Some f => tcf_name f | None => None end
  | None => None
  end.

Definition tool_arguments (t : option DeltaToolCall) : option string :=
  match t with
  | Some t' => match tc_function t' with Some f => tcf_arguments f | None => None end
  | None => None
  end.

Definition function_name (d : ChoiceDelta) : option string :=
  match d_function_call d with Some f => fc_name f | None => None end.

Definition function_arguments (d : ChoiceDelta) : option string :=
  match d_function_call d with Some f => fc_arguments f | None => None end.

Definition is_reason (r : FinishReason) (o : option FinishReason) : bool :=
  match o, r with
  | Some fr_stop, fr_stop | Some fr_length, fr_length
  | Some fr_tool_calls, fr_tool_calls
  | Some fr_content_filter, fr_content_filter
  | Some fr_function_call, fr_function_call => true
  | _, _ => false
  end.

(** The text branch at the end of [chunkToText]. *)
Definition plainText (st : ExtractState) (json : OpenAIStreamReturnTypes)
  : Message * ExtractState :=
  let raw :=
    match isChatCompletionChunk json with
    | Some ch =>
        if truthy (d_content (delta ch)) then interpolate (d_content (delta ch))
        else match isCompletion json with Some c => cc_text c | None => "" end
    | None => match isCompletion json with Some c => cc_text c | None => "" end
    end in
  let '(t, start') := trimStartOfStream (isStreamStart st) raw in
  (Text t, mkExtract start' (isFunctionStreamingIn st)).

(** The function [chunkToText()] returns, with its state made explicit. *)
Definition chunkToText (st : ExtractState) (json : OpenAIStreamReturnTypes)
  : Message * ExtractState :=
  match isChatCompletionChunk json with
  | Some ch =>
      let d := delta ch in
      if truthy (function_name d) then
        (NotText ("{" ++ q "function_call" ++ ": {" ++ q "name" ++ ": " ++
                  q (interpolate (function_name d)) ++ ", " ++ q "arguments" ++ ": " ++ DQ),
         mkExtract (isStreamStart st) true)
      else if truthy (tool_name (first_tool_call d)) then
        match first_tool_call d with
        | Some toolCall =>
            if (tc_index toolCall =? 0)%Z then
              (NotText ("{" ++ q "tool_calls" ++ ":[ {" ++ q "id" ++ ": " ++
                        q (interpolate (tc_id toolCall)) ++ ", " ++ q "type" ++ ": " ++
                        q "function" ++ ", " ++ q "function" ++ ": {" ++ q "name" ++ ": " ++
                        q (interpolate (tool_name (Some toolCall))) ++ ", " ++
                        q "arguments" ++ ": " ++ DQ),
               mkExtract (isStreamStart st) true)
            else
              (NotText (DQ ++ "}}, {" ++ q "id" ++ ": " ++
                        q (interpolate (tc_id toolCall)) ++ ", " ++ q "type" ++ ": " ++
                        q "function" ++ ", " ++ q "function" ++ ": {" ++ q "name" ++ ": " ++
                        q (interpolate (tool_name (Some toolCall))) ++ ", " ++
                        q "arguments" ++ ": " ++ DQ),
               mkExtract (isStreamStart st) true)
        | None => plainText st json
        end
      else if truthy (function_arguments d) then
        (NotText (cleanupArguments (interpolate (function_arguments d))), st)
      else if truthy (tool_arguments (first_tool_call d)) then
        (NotText (cleanupArguments (interpolate (tool_arguments (first_tool_call d)))), st)
      else if isFunctionStreamingIn st &&
              (is_reason fr_function_call (finish_reason ch) ||
               is_reason fr_stop (finish_reason ch)) then
        (NotText (DQ ++ "}}"), mkExtract (isStreamStart st) false)
      else if isFunctionStreamingIn st && is_reason fr_tool_calls (finish_reason ch) then
        (NotText (DQ ++ "}}]}"), mkExtract (isStreamStart st) false)
      else plainText st json
  | None => plainText st json
  end.

(** The conversion of an Azure chunk in [streamable]: camelCase to
    snake_case, and the tool calls numbered by their position. *)
Fixpoint number_from (i : Z) (l : list AzureToolCall) : list DeltaToolCall :=
  match l with
  | [] => []
  | t :: r => mkDeltaToolCall i (az_id t) (az_function t) :: number_from (i + 1) r
  end.

Definition convertAzure (c : AzureChatCompletions) : ChatCompletionChunk :=
  mkChatChunk
    (map (fun choice =>
            mkChoice
              (mkChoiceDelta
                 (match az_delta choice with Some d => az_content d | None => None end)
                 (match az_delta choice with Some d => az_functionCall d | None => None end)
                 (match az_delta choice with
                  | Some d =>
                      match az_toolCalls d with
                      | Some (t :: r) => Some (number_from 0 (t :: r))
                      | _ => None
                      end
                  | None => None
                  end))
              (az_finishReason choice))
         (az_choices c)).

(** [streamable]: the messages the generator yields for the chunks of an
    async iterable; a falsy extraction yields nothing. *)
Fixpoint streamable_from (st : ExtractState) (stream : list OpenAIStreamReturnTypes)
  : list Message :=
  match stream with
  | [] => []
  | chunk :: rest =>
      let chunk' := match chunk with Azure c => Chat (convertAzure c) | _ => chunk end in
      let '(m, st') := chunkToText st chunk' in
      if truthy_message m then m :: streamable_from st' rest
      else streamable_from st' rest
  end.

Definition streamable (stream : list OpenAIStreamReturnTypes) : list Message :=
  streamable_from initialExtract stream.

End Provider.

(** ** Streams, hooks and handlers *)

Module Streams.
Import Str JSON Provider.

(** What a stream was errored with. *)
Inductive Thrown : Type :=
| ResponseError (message : string)   (* [new Error(`Response error: ...`)] *)
| SyntaxError                        (* [JSON.parse] *)
| TypeError                          (* a property of [undefined] or [null], a non-iterable,
                                        [enqueue] on a terminated controller *)
| HandlerError (e : string)          (* thrown by user code *)
| ParserError.                       (* thrown by a custom parser *)

(** How a stream ends for its reader: [Pending] never closes nor errors. *)
Inductive Ending : Type :=
| Closed
| Errored (e : Thrown)
| Pending.

Record Stream (A : Type) : Type := mkStream {
  chunks : list A;
  ending : Ending }.
Arguments mkStream {A} _ _.
Arguments chunks {A} _.
Arguments ending {A} _.

(** A [Response]: [ok] and the chunks of its body ([None]: no body). *)
Record Response : Type := mkResponse {
  ok : bool;
  body : option (list string) }.

(** The first argument of [OpenAIStream]. *)
Inductive OpenAIStreamInput : Type :=
| FromResponse (r : Response)
| FromAsyncIterable (stream : list OpenAIStreamReturnTypes).

(** What the event-source parser reports to its callback. *)
Inductive SSEEvent : Type :=
| ParsedEvent (event : option string) (data : string)
| ReconnectInterval.

Definition CreateMessage : Type := JSONValue.

Record FunctionCallPayload : Type := mkFunctionCallPayload {
  fp_name : option JSONValue;
  fp_arguments : JSONValue }.

Record Tool : Type := mkTool {
  tool_id : option JSONValue;
  func_name : option JSONValue;
  func_arguments : option JSONValue }.

Record ToolCallPayload : Type := mkToolCallPayload { tools : list Tool }.

Record ToolCallResult : Type := mkToolCallResult {
  tool_call_id : string;
  function_name_ : string;
  tool_call_result : JSONValue }.

(** What a handler resolves to. *)
Inductive HandlerReturn : Type :=
| RetUndefined
| RetString (s : string)
| RetStreamable (res : OpenAIStreamInput).

Inductive HandlerResult : Type :=
| Returns (r : HandlerReturn)
| Throws (e : string).

(** One run of a handler, as the transformer observes it: the arguments of
    its calls to the message closure, in order, and how it ends. *)
Record HandlerRun (A : Type) : Type := mkHandlerRun {
  closure_calls : list A;
  result : HandlerResult }.
Arguments mkHandlerRun {A} _ _.
Arguments closure_calls {A} _.
Arguments result {A} _.

(** A handler is a user closure: it is given the payload, and through the
    message closure it can see the messages accumulated so far. *)
Definition FunctionCallHandler : Type :=
  FunctionCallPayload -> list CreateMessage -> HandlerRun JSONValue.
Definition ToolCallHandler : Type :=
  ToolCallPayload -> list CreateMessage -> HandlerRun (option ToolCallResult).

(** A property of the callback object that the code also tests with [in]. *)
Inductive Slot (A : Type) : Type :=
| Absent
| Undefined
| Present (a : A).
Arguments Absent {A}.
Arguments Undefined {A}.
Arguments Present {A} _.

Definition slot_in {A} (s : Slot A) : bool :=
  match s with Absent => false | _ => true end.

Definition slot_value {A} (s : Slot A) : option A :=
  match s with Present a => Some a | _ => None end.

(** [OpenAIStreamCallbacks]: a hook is [true] when it is set; an absent
    callback object is the record with nothing set. *)
Record OpenAIStreamCallbacks : Type := mkCallbacks {
  onStart : bool;
  onCompletion : bool;
  onFinal : bool;
  onToken : bool;
  onText : bool;
  experimental_streamData : bool;
  experimental_onFunctionCall : Slot FunctionCallHandler;
  experimental_onToolCall : option ToolCallHandler;
  openAIFnMessages : option (list CreateMessage) }.  (* [__internal__OpenAIFnMessagesSymbol] *)

(** The side effects of a pipeline, in the order they happen. *)
Inductive Event : Type :=
| OnStart
| OnToken (token : string)
| OnText (text : string)
| OnCompletion (completion : string)
| OnFinal (completion : string)
| OnFunctionCall (payload : FunctionCallPayload)
| OnToolCall (payload : ToolCallPayload)
| ConsoleWarn (message : string)
| ConsoleError (message : string)
| Recurse (functionResponse : OpenAIStreamInput).   (* [OpenAIStream(functionResponse, ...)] *)

(** The kinds [createFunctionCallTransformer] passes to [formatStreamPart]. *)
Inductive StreamPartKind : Type := part_text | part_function_call | part_tool_calls.

(** What one call of [OpenAIStream] amounts to.  [completion] is
    bookkeeping for the statements: the value of
    [aggregatedFinalCompletionResponse] when the [finally] block of the leg
    that does not recurse is reached, if it is reached. *)
Record Run : Type := mkRun {
  trace : list Event;
  out : Stream string;
  completion : option string }.

Definition when (b : bool) (e : Event) : list Event := if b then [e] else [].

End Streams.

(** ** The pipeline ([ai-stream.ts], [openai-stream.ts]) *)

Module Pipeline.
Import Str JSON Provider Streams.

(** JavaScript [ToString] and truthiness of a JSON value. *)
Definition element_to_string (to_string : JSONValue -> string) (v : JSONValue) : string :=
  match v with
  | JNull => ""
  | _ => to_string v
  end.

Fixpoint to_string (v : JSONValue) : string :=
  match v with
  | JNull => "null"
  | JBool true => "true"
  | JBool false => "false"
  | JNumber lx => lx
  | JString s => s
  | JArray vs => join "," (map (element_to_string to_string) vs)
  | JObject _ => "[object Object]"
  end.

Fixpoint zero_mantissa (lx : string) : bool :=
  match lx with
  | EmptyString => true
  | String c r =>
      if Ascii.eqb c "e" || Ascii.eqb c "E" then true
      else if Ascii.eqb c "0" || Ascii.eqb c "-" || Ascii.eqb c "." then zero_mantissa r
      else false
  end.

Definition js_truthy (o : option JSONValue) : bool :=
  match o with
  | None | Some JNull | Some (JBool false) => false
  | Some (JNumber lx) => negb (zero_mantissa lx)
  | Some (JString s) => negb (is_empty s)
  | Some _ => true
  end.

(** Property read [v.k]: the outer [None] is the [TypeError] of reading a
    property of [undefined] or [null]; the inner one is [undefined]. *)
Definition prop (k : string) (o : option JSONValue) : option (option JSONValue) :=
  match o with
  | None | Some JNull => None
  | Some (JObject ms) => Some (lookup k ms)
  | Some _ => Some None
  end.

(** [JSON.parse(x)] of any value: the text parsed is [ToString(x)]. *)
Definition parse_any (o : option JSONValue) : option JSONValue :=
  match o with
  | None => parse "undefined"
  | Some v => parse (to_string v)
  end.

(** *** createEventStreamTransformer *)

(** A custom parser with the state its closure captures: [None] is a
    throw, [Some (None, _)] is a [void] return. *)
Definition AIStreamParser (S : Type) : Type :=
  S -> string -> option string -> option (option Message * S).

Definition is_done (event : option string) (data : string) : bool :=
  String.eqb data "[DONE]" ||
  match event with Some e => String.eqb e "done" | None => false end.

Definition push {A} (x : A) (s : Stream A) : Stream A :=
  mkStream (x :: chunks s) (ending s).

Fixpoint pushes {A} (xs : list A) (s : Stream A) : Stream A :=
  match xs with
  | [] => s
  | x :: rest => push x (pushes rest s)
  end.

(** How one call of [transform] ends: [eventSourceParser.feed] runs the
    callback on each event it reports for the chunk, in order, and returns,
    unless the callback throws.  [terminated] tells whether
    [controller.terminate()] has been called, which does not end the call:
    the events that follow in the same chunk still reach the callback. *)
Inductive Fed (S : Type) : Type :=
| Returned (st : S) (terminated : bool)
| Threw (e : Thrown) (terminated : bool).
Arguments Returned {S} _ _.
Arguments Threw {S} _ _.

(** [controller.enqueue(m)], which throws once the controller is
    terminated. *)
Definition enqueue {S : Type} (m : Message) (terminated : bool)
    (next : list Message * Fed S) : list Message * Fed S :=
  if terminated then ([], Threw TypeError true)
  else (m :: fst next, snd next).

(** The callback on the events of one chunk: the messages enqueued, in
    order, and how the call ends. *)
Fixpoint feed {S : Type} (customParser : option (AIStreamParser S)) (st : S)
    (terminated : bool) (events : list SSEEvent) : list Message * Fed S :=
  match events with
  | [] => ([], Returned st terminated)
  | ReconnectInterval :: rest => feed customParser st terminated rest
  | ParsedEvent event data :: rest =>
      if is_done event data
      then feed customParser st true rest   (* [controller.terminate(); return] *)
      else
        match customParser with
        | None =>
            if is_empty data then feed customParser st terminated rest
            else enqueue (Text data) terminated (feed customParser st terminated rest)
        | Some parser =>
            match parser st data event with
            | None => ([], Threw ParserError terminated)
            | Some (Some m, st') =>
                if truthy_message m
                then enqueue m terminated (feed customParser st' terminated rest)
                else feed customParser st' terminated rest
            | Some (None, st') => feed customParser st' terminated rest
            end
        end
  end.

(** The stream the reader of the transformer gets, from the events
    reported for each chunk of the body.  The readable side has a
    high-water mark of 0, so [transform] is called for a chunk only when
    the reader is waiting and nothing is queued: of the messages enqueued
    during one call, the first is handed to the reader at once and the
    others are queued.  A call that returns leaves the queue to the reader;
    after [terminate] the stream closes behind it and no further chunk is
    transformed.  A call that throws errors the stream, and what is queued
    is dropped; unless [terminate] had found the queue empty, in which case
    the stream was closed already and stays so. *)
Fixpoint createEventStreamTransformer {S : Type}
    (customParser : option (AIStreamParser S)) (st : S) (fed : list (list SSEEvent))
  : Stream Message :=
  match fed with
  | [] => mkStream [] Closed
  | events :: rest =>
      match feed customParser st false events with
      | (enqueued, Returned st' false) =>
          pushes enqueued (createEventStreamTransformer customParser st' rest)
      | (enqueued, Returned _ true) => mkStream enqueued Closed
      | (enqueued, Threw e terminated) =>
          match enqueued with
          | first :: _ :: _ => mkStream [first] (Errored e)
          | _ => mkStream enqueued (if terminated then Closed else Errored e)
          end
      end
  end.

(** *** createCallbacksTransformer *)

(** [transform], message by message, with [aggregatedResponse] as state. *)
Fixpoint callbacks_transform (cb : OpenAIStreamCallbacks) (aggregatedResponse : string)
    (messages : list Message) : list Event * list string * string :=
  match messages with
  | [] => ([], [], aggregatedResponse)
  | message :: rest =>
      let content := content_of message in
      let '(evs, outs, agg) :=
        callbacks_transform cb (aggregatedResponse ++ content) rest in
      ((when (onToken cb) (OnToken content) ++
        match message with
        | Text s => when (onText cb) (OnText s)
        | NotText _ => []
        end ++ evs)%list,
       content :: outs, agg)
  end.

Definition isOfTypeOpenAIStreamCallbacks (cb : OpenAIStreamCallbacks) : bool :=
  slot_in (experimental_onFunctionCall cb).

Definition callbacks_flush (cb : OpenAIStreamCallbacks) (aggregatedResponse : string)
  : list Event :=
  (when (onCompletion cb) (OnCompletion aggregatedResponse) ++
   when (onFinal cb && negb (isOfTypeOpenAIStreamCallbacks cb)) (OnFinal aggregatedResponse))%list.

(** The source piped through the transformer: [start] runs first, [flush]
    only when the source closes. *)
Definition createCallbacksTransformer (cb : OpenAIStreamCallbacks) (src : Stream Message)
  : list Event * Stream string :=
  let '(evs, outs, agg) := callbacks_transform cb "" (chunks src) in
  ((when (onStart cb) OnStart ++ evs ++
    match ending src with
    | Closed => callbacks_flush cb agg
    | _ => []
    end)%list,
   mkStream outs (ending src)).

(** *** AIStream *)

(** The parts of the platform and of the repository that the sources use
    but do not contain are parameters: the event-source parser fed with the
    chunks of a body, as the events it reports to its callback during each
    call of [feed], one list for each chunk; the unchecked cast of a parsed
    event to a chunk;
    [formatStreamPart] of [shared/stream-parts] and
    [createStreamDataTransformer] of [streams/stream-data]. *)
Section Environment.
Variable eventsource_parser : list string -> list (list SSEEvent).
Variable as_OpenAIStreamReturnTypes : JSONValue -> OpenAIStreamReturnTypes.
Variable formatStreamPart : StreamPartKind -> JSONValue -> string.
Variable createStreamDataTransformer : bool -> Stream string -> Stream string.

Definition createEmptyReadableStream : list string := [].

(** The later revision: a response that is not ok is turned into a stream
    whose [start] reads the body once. *)
Definition AIStream {S : Type} (response : Response)
    (customParser : option (AIStreamParser S)) (st : S) (callbacks : OpenAIStreamCallbacks)
  : list Event * Stream string :=
  if negb (ok response) then
    match body response with
    | Some bodyChunks =>
        match bodyChunks with
        | value :: _ => ([], mkStream [] (Errored (ResponseError ("Response error: " ++ value))))
        | [] => ([], mkStream [] Pending)     (* [done]: neither [error] nor [close] *)
        end
    | None => ([], mkStream [] (Errored (ResponseError "Response error: No response body")))
    end
  else
    let responseBodyStream :=
      match body response with
      | Some b => b
      | None => createEmptyReadableStream
      end in
    createCallbacksTransformer callbacks
      (createEventStreamTransformer customParser st (eventsource_parser responseBodyStream)).

(** *** parseOpenAIStream *)

Definition parseOpenAIStream : AIStreamParser ExtractState :=
  fun st data _ =>
    match parse data with
    | None => None
    | Some json =>
        let '(m, st') := chunkToText st (as_OpenAIStreamReturnTypes json) in
        Some (Some m, st')
    end.

(** *** createFunctionCallTransformer *)

(** The variables the transformer's closures share. *)
Record TransformerState : Type := mkTransformer {
  isFirstChunk : bool;
  aggregatedResponse : string;
  aggregatedFinalCompletionResponse : string;
  isFunctionStreamingIn' : bool }.

Definition initialTransformer : TransformerState := mkTransformer true "" "" false.

Definition transform (callbacks : OpenAIStreamCallbacks) (st : TransformerState)
    (chunk : string) : TransformerState * list string :=
  let message := Frames.createChunkDecoder_simple (Some chunk) in
  let final := aggregatedFinalCompletionResponse st ++ message in
  let shouldHandleAsFunction :=
    isFirstChunk st &&
    (startsWith message ("{" ++ q "function_call" ++ ":") ||
     startsWith message ("{" ++ q "tool_calls" ++ ":")) in
  if shouldHandleAsFunction then
    (mkTransformer false (aggregatedResponse st ++ message) final true, [])
  else if negb (isFunctionStreamingIn' st) then
    (mkTransformer (isFirstChunk st) (aggregatedResponse st) final (isFunctionStreamingIn' st),
     [if experimental_streamData callbacks
      then formatStreamPart part_text (JString message)
      else chunk])
  else
    (mkTransformer (isFirstChunk st) (aggregatedResponse st ++ message) final
       (isFunctionStreamingIn' st), []).

Fixpoint transform_all (callbacks : OpenAIStreamCallbacks) (st : TransformerState)
    (src : list string) : TransformerState * list string :=
  match src with
  | [] => (st, [])
  | chunk :: rest =>
      let '(st1, o1) := transform callbacks st chunk in
      let '(st2, o2) := transform_all callbacks st1 rest in
      (st2, (o1 ++ o2)%list)
  end.

(** [payload.k] for the parsed payload. *)
Definition get (k : string) (payload : JSONValue) : option JSONValue :=
  match prop k (Some payload) with
  | Some o => o
  | None => None
  end.

Definition field (k : string) (o : option JSONValue) : list (string * JSONValue) :=
  match o with
  | Some v => [(k, v)]
  | None => []
  end.

(** The closure given to [experimental_onFunctionCall]. *)
Definition createFunctionCallMessages (function_call : option JSONValue)
    (functionCallMessages : list CreateMessage) (result : JSONValue)
  : list CreateMessage :=
  (functionCallMessages ++
   [JObject ([("role", JString "assistant"); ("content", JString "")] ++
             field "function_call" function_call);
    JObject ([("role", JString "function")] ++
             field "name" (match prop "name" function_call with
                           | Some n => n
                           | None => None
                           end) ++
             [("content", JString (stringify result))])])%list.

(** The outcome of the part of [flush] that calls the handlers: a throw,
    or [functionResponse] and [newFunctionCallMessages]. *)
Definition Handled : Type := Thrown + (HandlerReturn * list CreateMessage).

Definition callFunctionHandler (handler : FunctionCallHandler) (payload : JSONValue)
    (functionCallMessages : list CreateMessage) : list Event * Handled :=
  let function_call := get "function_call" payload in
  let warned :=
    match function_call with
    | None => [ConsoleWarn "experimental_onFunctionCall should not be defined when using tools"]
    | Some _ => []
    end in
  match prop "arguments" function_call with
  | None => (warned, inl TypeError)
  | Some arguments =>
      match parse_any arguments with
      | None => (warned, inl SyntaxError)
      | Some argumentsPayload =>
          let functionCallPayload :=
            mkFunctionCallPayload
              (match prop "name" function_call with Some n => n | None => None end)
              argumentsPayload in
          let run := handler functionCallPayload functionCallMessages in
          let newFunctionCallMessages :=
            fold_left (fun _ r => createFunctionCallMessages function_call functionCallMessages r)
              (closure_calls run) functionCallMessages in
          ((warned ++ [OnFunctionCall functionCallPayload])%list,
           match result run with
           | Throws e => inl (HandlerError e)
           | Returns functionResponse => inr (functionResponse, newFunctionCallMessages)
           end)
      end
  end.

(** One round of [for (const tool of payload.tool_calls)]. *)
Definition tool_of (tool : JSONValue) : option Tool :=
  match prop "id" (Some tool), prop "function" (Some tool) with
  | Some id, Some function =>
      match prop "name" function, prop "arguments" function with
      | Some name, Some arguments => Some (mkTool id name arguments)
      | _, _ => None
      end
  | _, _ => None
  end.

Fixpoint tools_of (l : list JSONValue) : option (list Tool) :=
  match l with
  | [] => Some []
  | tool :: rest =>
      match tool_of tool, tools_of rest with
      | Some t, Some ts => Some (t :: ts)
      | _, _ => None
      end
  end.

(** [None] is the [TypeError] of the loop: a value that cannot be
    iterated, or a tool without [function].  The characters of a string
    are iterated, and have no [function]. *)
Definition toolCallsOf (payload : JSONValue) : option (list Tool) :=
  match get "tool_calls" payload with
  | Some (JArray l) => tools_of l
  | Some (JString EmptyString) => Some []
  | _ => None
  end.

Definition assistantToolCalls (ts : list Tool) : CreateMessage :=
  JObject [("role", JString "assistant"); ("content", JString "");
           ("tool_calls",
            JArray (map (fun tc =>
                           JObject (field "id" (tool_id tc) ++
                                    [("type", JString "function");
                                     ("function",
                                      JObject (field "name" (func_name tc) ++
                                               field "arguments"
                                                 (option_map (fun a => JString (stringify a))
                                                    (func_arguments tc))))])%list)
                       ts))].

(** The closure given to [experimental_onToolCall], on
    [newFunctionCallMessages] and [responseIndex]. *)
Definition appendToolCallMessage (ts : list Tool) (st : list CreateMessage * nat)
    (result : option ToolCallResult) : list CreateMessage * nat :=
  match result with
  | None => st
  | Some r =>
      ((fst st ++
        (if (snd st =? 0)%nat then [assistantToolCalls ts] else []) ++
        [JObject [("role", JString "tool");
                  ("tool_call_id", JString (tool_call_id r));
                  ("name", JString (function_name_ r));
                  ("content", JString (stringify (tool_call_result r)))]])%list,
       S (snd st))
  end.

Definition is_some {A} (o : option A) : bool :=
  match o with Some _ => true | None => false end.

Definition tool_call_error : Event :=
  ConsoleError "Error calling experimental_onToolCall:".

Definition callToolHandler (handler : ToolCallHandler) (payload : JSONValue)
    (functionResponse : HandlerReturn) (newFunctionCallMessages : list CreateMessage)
  : list Event * Handled :=
  match toolCallsOf payload with
  | None => ([], inl TypeError)
  | Some ts =>
      let toolCalls := mkToolCallPayload ts in
      let run := handler toolCalls newFunctionCallMessages in
      (* [payload.tool_calls.map] of a string throws inside the closure *)
      let closureThrows :=
        match get "tool_calls" payload with
        | Some (JArray _) => false
        | _ => existsb is_some (closure_calls run)
        end in
      if closureThrows then
        ([OnToolCall toolCalls; tool_call_error], inr (functionResponse, newFunctionCallMessages))
      else
        let messages :=
          fst (fold_left (appendToolCallMessage ts) (closure_calls run)
                 (newFunctionCallMessages, 0)) in
        match result run with
        | Throws _ =>
            ([OnToolCall toolCalls; tool_call_error], inr (functionResponse, messages))
        | Returns r => ([OnToolCall toolCalls], inr (r, messages))
        end
  end.

(** The [finally] block; [onFinal_now] is [callbacks.onFinal] at that
    time. *)
Definition finally_ (onFinal_now : bool) (final : string) : list Event :=
  when (onFinal_now && negb (is_empty final)) (OnFinal final).

(** The chunk for a call that no handler answered. *)
Definition callFrame (callbacks : OpenAIStreamCallbacks) (payload : JSONValue)
    (aggregated : string) : string :=
  if experimental_streamData callbacks then
    formatStreamPart
      (if js_truthy (get "function_call" payload) then part_function_call else part_tool_calls)
      payload
  else aggregated.

(** [{...callbacks, onStart: undefined}] with the messages for the nested
    call: every other hook is kept, [onFinal] among them. *)
Definition filteredCallbacks (callbacks : OpenAIStreamCallbacks)
    (newFunctionCallMessages : list CreateMessage) : OpenAIStreamCallbacks :=
  mkCallbacks false (onCompletion callbacks) (onFinal callbacks)
    (onToken callbacks) (onText callbacks)
    (experimental_streamData callbacks)
    (experimental_onFunctionCall callbacks)
    (experimental_onToolCall callbacks)
    (Some newFunctionCallMessages).

Section Flush.
(** The recursive call [OpenAIStream(functionResponse, ...)]. *)
Variable recur : OpenAIStreamInput -> OpenAIStreamCallbacks -> option Run.

Definition flush (callbacks : OpenAIStreamCallbacks) (st : TransformerState)
  : option Run :=
  let functionCallMessages :=
    match openAIFnMessages callbacks with Some m => m | None => [] end in
  let onFunctionCall := slot_value (experimental_onFunctionCall callbacks) in
  let onToolCall := experimental_onToolCall callbacks in
  let final := aggregatedFinalCompletionResponse st in
  let thrown (evs : list Event) (e : Thrown) :=
    Some (mkRun (evs ++ finally_ (onFinal callbacks) final)%list
            (mkStream [] (Errored e)) (Some final)) in
  if negb (isFirstChunk st) && isFunctionStreamingIn' st &&
     (is_some onFunctionCall || is_some onToolCall) then
    match parse (aggregatedResponse st) with
    | None => thrown [] SyntaxError
    | Some payload =>
        let '(ev1, r1) :=
          match onFunctionCall with
          | Some h => callFunctionHandler h payload functionCallMessages
          | None => ([], inr (RetUndefined, functionCallMessages))
          end in
        match r1 with
        | inl e => thrown ev1 e
        | inr (response1, messages1) =>
            let '(ev2, r2) :=
              match onToolCall with
              | Some h => callToolHandler h payload response1 messages1
              | None => ([], inr (response1, messages1))
              end in
            let evs := (ev1 ++ ev2)%list in
            match r2 with
            | inl e => thrown evs e
            | inr (functionResponse, newFunctionCallMessages) =>
                match functionResponse with
                | RetUndefined | RetString EmptyString =>
                    Some (mkRun (evs ++ finally_ (onFinal callbacks) final)%list
                            (mkStream [callFrame callbacks payload (aggregatedResponse st)]
                               Closed)
                            (Some final))
                | RetString s =>
                    Some (mkRun (evs ++ finally_ (onFinal callbacks) s)%list
                            (mkStream
                               [if experimental_streamData callbacks
                                then formatStreamPart part_text (JString s) else s]
                               Closed)
                            (Some s))
                | RetStreamable res =>
                    (* [callbacks.onFinal = undefined]: nothing for [finally] to call *)
                    match recur res (filteredCallbacks callbacks newFunctionCallMessages) with
                    | None => None
                    | Some inner =>
                        Some (mkRun
                                (evs ++ [Recurse res] ++ trace inner ++
                                 match ending (out inner) with
                                 | Pending => []
                                 | _ => finally_ false final
                                 end)%list
                                (out inner) (completion inner))
                    end
                end
            end
        end
    end
  else
    Some (mkRun (finally_ (onFinal callbacks) final) (mkStream [] Closed) (Some final)).

(** The source piped through the transformer; [flush] runs only when
    the source closes. *)
Definition createFunctionCallTransformer (callbacks : OpenAIStreamCallbacks)
    (src : Stream string) : option Run :=
  let '(st, outs) := transform_all callbacks initialTransformer (chunks src) in
  match ending src with
  | Closed =>
      match flush callbacks st with
      | Some r =>
          Some (mkRun (trace r)
                  (mkStream (outs ++ chunks (out r))%list (ending (out r)))
                  (completion r))
      | None => None
      end
  | e => Some (mkRun [] (mkStream outs e) None)
  end.
End Flush.

(** *** OpenAIStream *)

Definition hasHandler (cb : OpenAIStreamCallbacks) : bool :=
  is_some (slot_value (experimental_onFunctionCall cb)) ||
  is_some (experimental_onToolCall cb).

(** [{...cb, onFinal: undefined}]. *)
Definition withoutOnFinal (cb : OpenAIStreamCallbacks) : OpenAIStreamCallbacks :=
  mkCallbacks (onStart cb) (onCompletion cb) false (onToken cb) (onText cb)
    (experimental_streamData cb) (experimental_onFunctionCall cb)
    (experimental_onToolCall cb) (openAIFnMessages cb).

(** The first two stages, common to both branches. *)
Definition source (res : OpenAIStreamInput) (cb : OpenAIStreamCallbacks)
  : list Event * Stream string :=
  let cb1 := if hasHandler cb then withoutOnFinal cb else cb in
  match res with
  | FromAsyncIterable stream =>
      createCallbacksTransformer cb1 (mkStream (streamable stream) Closed)
  | FromResponse r => AIStream r (Some parseOpenAIStream) initialExtract cb1
  end.

(** [OpenAIStream]; the fuel bounds the number of nested calls, and
    [None] is its exhaustion. *)
Fixpoint OpenAIStream (fuel : nat) (res : OpenAIStreamInput) (cb : OpenAIStreamCallbacks)
  : option Run :=
  match fuel with
  | 0 => None
  | S fuel' =>
      let '(evs, stream) := source res cb in
      if hasHandler cb then
        match createFunctionCallTransformer (OpenAIStream fuel') cb stream with
        | Some r => Some (mkRun (evs ++ trace r)%list (out r) (completion r))
        | None => None
        end
      else
        Some (mkRun evs
                (createStreamDataTransformer (experimental_streamData cb) stream) None)
  end.

End Environment.

End Pipeline.

(** ** Vocabulary of the statements *)

Module Vocabulary.
Import Str JSON Provider Streams Pipeline.

Fixpoint all_chars (p : ascii -> bool) (s : string) : bool :=
  match s with
  | EmptyString => true
  | String c r => p c && all_chars p r
  end.

(** A character that stands for itself inside a JSON string literal. *)
Definition plain_char (c : ascii) : bool :=
  negb (Ascii.eqb c dq) && negb (Ascii.eqb c bsl) && negb (is_control c).

(** A character [cleanupArguments] leaves in a state that a JSON string
    literal accepts: not a control character, or one of the four it turns
    into a two-character escape. *)
Definition escapable (c : ascii) : bool :=
  negb (is_control c) || Ascii.eqb c nl || Ascii.eqb c cr || Ascii.eqb c tab || Ascii.eqb c ff.

Definition plain (s : string) : bool := all_chars plain_char s.
Definition escapable_text (s : string) : bool := all_chars escapable s.

(** The hooks of a trace. *)
Fixpoint starts (t : list Event) : nat :=
  match t with
  | [] => 0
  | OnStart :: r => S (starts r)
  | _ :: r => starts r
  end.

Fixpoint finals (t : list Event) : list string :=
  match t with
  | [] => []
  | OnFinal s :: r => s :: finals r
  | _ :: r => finals r
  end.

Fixpoint completions (t : list Event) : list string :=
  match t with
  | [] => []
  | OnCompletion s :: r => s :: completions r
  | _ :: r => completions r
  end.

Fixpoint tokens (t : list Event) : list string :=
  match t with
  | [] => []
  | OnToken s :: r => s :: tokens r
  | _ :: r => tokens r
  end.

Fixpoint texts (t : list Event) : list string :=
  match t with
  | [] => []
  | OnText s :: r => s :: texts r
  | _ :: r => texts r
  end.

(** The responses the nested calls of [OpenAIStream] were given, outermost
    first: one per continuation. *)
Fixpoint continuations (t : list Event) : list OpenAIStreamInput :=
  match t with
  | [] => []
  | Recurse res :: r => res :: continuations r
  | _ :: r => continuations r
  end.

Definition nonempty (a : string) : bool := negb (is_empty a).

Definition text_messages (ms : list Message) : list string :=
  flat_map (fun m => match m with Text s => [s] | NotText _ => [] end) ms.

Definition is_closed (e : Ending) : bool :=
  match e with Closed => true | _ => false end.

Definition noCallbacks : OpenAIStreamCallbacks :=
  mkCallbacks false false false false false false Absent None None.

Section Legs.
Variable eventsource_parser : list string -> list (list SSEEvent).
Variable as_OpenAIStreamReturnTypes : JSONValue -> OpenAIStreamReturnTypes.

(** One leg: the stream that the first two stages make of a response. *)
Definition leg (res : OpenAIStreamInput) : Stream string :=
  snd (source eventsource_parser as_OpenAIStreamReturnTypes res noCallbacks).

(** The text a leg aggregates. *)
Definition leg_text (res : OpenAIStreamInput) : string :=
  Str.concat (chunks (leg res)).

Definition leg_closes (res : OpenAIStreamInput) : bool :=
  is_closed (ending (leg res)).
End Legs.

(** Whether a response reaches the callback stage at all. *)
Definition delivered (res : OpenAIStreamInput) : bool :=
  match res with
  | FromAsyncIterable _ => true
  | FromResponse r => ok r
  end.

(** A handler result that [!functionResponse] takes for no result. *)
Definition falsy (r : HandlerReturn) : bool :=
  match r with
  | RetUndefined | RetString EmptyString => true
  | _ => false
  end.

Definition messagesOf (cb : OpenAIStreamCallbacks) : list CreateMessage :=
  match openAIFnMessages cb with Some m => m | None => [] end.

(** The handler for the kind of the call is the one configured, it is
    given the call, and it leaves the call unanswered: a function handler
    by returning no result, a tool handler by returning no result or by
    throwing. *)
Inductive Declined (cb : OpenAIStreamCallbacks) (payload : JSONValue)
  : StreamPartKind -> Prop :=
| Declined_function (h : FunctionCallHandler)
    (function_call : JSONValue) (arguments : option JSONValue)
    (argumentsPayload : JSONValue) (r : HandlerReturn) :
    experimental_onFunctionCall cb = Present h ->
    experimental_onToolCall cb = None ->
    get "function_call" payload = Some function_call ->
    prop "arguments" (Some function_call) = Some arguments ->
    parse_any arguments = Some argumentsPayload ->
    result (h (mkFunctionCallPayload
                 (match prop "name" (Some function_call) with Some n => n | None => None end)
                 argumentsPayload)
              (messagesOf cb)) = Returns r ->
    falsy r = true ->
    Declined cb payload part_function_call
| Declined_tool (h : ToolCallHandler) (ts : list Tool) :
    slot_value (experimental_onFunctionCall cb) = None ->
    experimental_onToolCall cb = Some h ->
    get "function_call" payload = None ->
    toolCallsOf payload = Some ts ->
    (forall r, result (h (mkToolCallPayload ts) (messagesOf cb)) = Returns r -> falsy r = true) ->
    Declined cb payload part_tool_calls.

(** A number lexeme that [JSON.parse] reads whole. *)
Definition valid_number (lx : string) : bool :=
  match parse_number lx with
  | Some (l, EmptyString) => String.eqb l lx
  | _ => false
  end.

(** A JSON value whose numbers are valid lexemes. *)
Fixpoint wf (v : JSONValue) : bool :=
  match v with
  | JNumber lx => valid_number lx
  | JArray vs => forallb wf vs
  | JObject ms => forallb (fun kv => wf (snd kv)) ms
  | _ => true
  end.

Fixpoint size (v : JSONValue) : nat :=
  match v with
  | JArray vs => S (list_sum (map size vs))
  | JObject ms => S (list_sum (map (fun kv => size (snd kv)) ms))
  | _ => 1
  end.

(** What can follow a value: nothing, or one of [,], []] and [}]. *)
Definition delimited (rest : string) : bool :=
  match rest with
  | EmptyString => true
  | String c _ => Ascii.eqb c "," || Ascii.eqb c "]" || Ascii.eqb c "}"
  end.

(** The text of [v] is read back as [v], with fuel for its size. *)
Definition reads_back (v : JSONValue) : Prop :=
  wf v = true ->
  forall fuel rest, size v <= fuel -> delimited rest = true ->
  parse_value fuel (stringify v ++ rest) = Some (v, rest).

Definition member_text (kv : string * JSONValue) : string :=
  quote (fst kv) ++ ":" ++ stringify (snd kv).

(** The payload [getStreamString] puts on the wire for a value. *)
Definition serialization (v : JSONValue) : string :=
  match v with
  | JString s => s
  | _ => stringify v
  end.

(** The values that fit a kind of frame: strings for text frames,
    structured values for the others. *)
Definition fits (kind : Frames.StreamStringType) (v : JSONValue) : bool :=
  match kind, v with
  | Frames.text, JString _ => true
  | Frames.text, _ => false
  | _, JString _ => false
  | _, _ => true
  end.

(** Events that are none of [onStart], [onFinal], [onCompletion] and a
    nested call. *)
Definition quiet (evs : list Event) : Prop :=
  starts evs = 0 /\ finals evs = [] /\ completions evs = [] /\ continuations evs = [].

(** A chunk as [transform] forwards it outside a call. *)
Definition forwarded (formatStreamPart : StreamPartKind -> JSONValue -> string)
    (callbacks : OpenAIStreamCallbacks) (chunk : string) : string :=
  if experimental_streamData callbacks
  then formatStreamPart part_text (JString chunk)
  else chunk.

(** A chunk that makes the transformer open a call. *)
Definition opensCall (chunk : string) : bool :=
  startsWith chunk ("{" ++ q "function_call" ++ ":") ||
  startsWith chunk ("{" ++ q "tool_calls" ++ ":").

(** A tool call as it is parsed back from the aggregated text. *)
Definition toolCallObject (id name arguments : string) : JSONValue :=
  JObject [("id", JString id); ("type", JString "function");
           ("function", JObject [("name", JString name); ("arguments", JString arguments)])].

End Vocabulary.

(** ** Sample inputs *)

Module Samples.
Import Str JSON Provider Streams Pipeline Vocabulary.

Definition chatChunk (d : ChoiceDelta) (fr : option FinishReason) : OpenAIStreamReturnTypes :=
  Chat (mkChatChunk [mkChoice d fr]).

(** [{delta: {function_call: {name, arguments}}}]. *)
Definition functionCallDelta (name arguments : option string) : OpenAIStreamReturnTypes :=
  chatChunk (mkChoiceDelta None (Some (mkFunctionCall name arguments)) None) None.

(** [{delta: {tool_calls: [{index, id, function: {name, arguments}}]}}]. *)
Definition toolCallDelta (index : Z) (id name arguments : option string)
  : OpenAIStreamReturnTypes :=
  chatChunk (mkChoiceDelta None None
               (Some [mkDeltaToolCall index id (Some (mkToolCallFunction arguments name))]))
    None.

Definition contentDelta (content : string) : OpenAIStreamReturnTypes :=
  chatChunk (mkChoiceDelta (Some content) None None) None.

Definition finish (fr : FinishReason) : OpenAIStreamReturnTypes :=
  chatChunk (mkChoiceDelta None None None) (Some fr).

(** The deltas of the fragment-aggregation property: name [f], the argument
    increments [{"a":1] and [}], then [finish_reason: "function_call"]. *)
Definition callOfF : list OpenAIStreamReturnTypes :=
  [functionCallDelta (Some "f") None;
   functionCallDelta None (Some ("{" ++ q "a" ++ ":1"));
   functionCallDelta None (Some "}");
   finish fr_function_call].

(** [{"function_call":{"name":"f","arguments":"{\"a\":1}"}}], parsed. *)
Definition callOfF_json : JSONValue :=
  JObject [("function_call",
            JObject [("name", JString "f");
                     ("arguments", JString ("{" ++ q "a" ++ ":1}"))])].

(** A round of two tool calls: each is opened by a delta with its index, id
    and name, and followed by its argument increments. *)
Definition toolRound (id0 name0 : string) (args0 : list string)
    (index1 : Z) (id1 name1 : string) (args1 : list string)
  : list OpenAIStreamReturnTypes :=
  (toolCallDelta 0 (Some id0) (Some name0) None ::
   map (fun a => toolCallDelta 0 None None (Some a)) args0 ++
   toolCallDelta index1 (Some id1) (Some name1) None ::
   map (fun a => toolCallDelta index1 None None (Some a)) args1 ++
   [finish fr_tool_calls])%list.

Definition twoTools : list OpenAIStreamReturnTypes :=
  toolRound "call_0" "f" ["{}"] 1 "call_1" "g" ["{" ++ q "b"; ":2}"].







(** An environment for the samples, which run without
    [experimental_streamData] and from async iterables, so that nothing in
    them depends on it: no event reaches the cast, the data transformer
    passes its input on, and a part is rendered by [getStreamString], a
    text part with the text prefix and a call of either kind with the call
    prefix. *)
Definition no_events (_ : list string) : list (list SSEEvent) := [].
Definition no_cast (_ : JSONValue) : OpenAIStreamReturnTypes := Legacy (mkCompletion []).
Definition pass_on (_ : bool) (s : Stream string) : Stream string := s.
Definition render (k : StreamPartKind) (v : JSONValue) : string :=
  match k with
  | part_text => Frames.getStreamString Frames.text v
  | _ => Frames.getStreamString Frames.function_call v
  end.

Definition runOpenAIStream : nat -> OpenAIStreamInput -> OpenAIStreamCallbacks -> option Run :=
  OpenAIStream no_events no_cast render pass_on.

(** Handlers. *)
Definition declines : FunctionCallHandler :=
  fun _ _ => mkHandlerRun [] (Returns RetUndefined).
Definition throws : FunctionCallHandler :=
  fun _ _ => mkHandlerRun [] (Throws "boom").
Definition toolDeclines : ToolCallHandler :=
  fun _ _ => mkHandlerRun [] (Returns RetUndefined).
Definition toolThrows : ToolCallHandler :=
  fun _ _ => mkHandlerRun [] (Throws "boom").

(** A handler that asks for another completion twice: the model calls [f]
    again on the first continuation and answers in text on the second. *)
Definition continues : FunctionCallHandler :=
  fun _ messages =>
    mkHandlerRun [JString "sunny"]
      (Returns (RetStreamable
                  (FromAsyncIterable
                     (match messages with
                      | [] => callOfF
                      | _ => [contentDelta " It is"; contentDelta " sunny."]
                      end)))).

(** The response of leg [k] in a run of [n] continuations: the model calls
    [f] on the first [n] legs and answers in text on the last. *)
Definition legOf (n k : nat) : OpenAIStreamInput :=
  FromAsyncIterable (if (k <? n)%nat then callOfF else [contentDelta "Done."]).

(** A handler that asks for another completion [n] times: it counts the
    continuations made so far on the messages, two for each. *)
Definition continuesFor (n : nat) : FunctionCallHandler :=
  fun _ messages =>
    mkHandlerRun [JString "sunny"]
      (Returns (RetStreamable (legOf n (S (List.length messages / 2))))).

(** Every hook set, with the given handlers. *)
Definition hooks (f : Slot FunctionCallHandler) (t : option ToolCallHandler)
  : OpenAIStreamCallbacks :=
  mkCallbacks true true true true true false f t None.

(** The run of the sample call under [continues]: two continuations. *)
Definition continuedRun : Run :=
  match runOpenAIStream 3 (FromAsyncIterable callOfF) (hooks (Present continues) None) with
  | Some r => r
  | None => mkRun [] (mkStream [] Pending) None
  end.

(** The chunks the function-call stage is given for the sample call: the
    fragment that opens the call, and the three that follow. *)
Definition callOfF_opening : string :=
  "{" ++ q "function_call" ++ ": {" ++ q "name" ++ ": " ++ q "f" ++ ", " ++
  q "arguments" ++ ": " ++ DQ.
Definition callOfF_rest : list string :=
  ["{\" ++ DQ ++ "a\" ++ DQ ++ ":1"; "}"; DQ ++ "}}"].
Definition callOfF_chunks : list string := callOfF_opening :: callOfF_rest.

(** A response that is not ok and whose body closes without a chunk, and
    one whose body comes in two chunks. *)
Definition emptyErrorResponse : Response := mkResponse false (Some []).
Definition longErrorResponse : Response :=
  mkResponse false (Some ["Rate limit"; " exceeded"]).

(** A handler that continues with a response that is not ok. *)
Definition continuesNotOk : FunctionCallHandler :=
  fun _ _ =>
    mkHandlerRun [JString "sunny"]
      (Returns (RetStreamable (FromResponse longErrorResponse))).

End Samples.

(** ** More of the vocabulary, and further sample inputs *)

Module Scenarios.
Import Str JSON Provider Streams Pipeline Vocabulary Samples.

(** *** Frames *)

Section AnyParser.
Variable parseStreamPart : string -> option Frames.StreamPartType.

(** [createChunkDecoder(true)] of [shared/utils.ts], whatever the
    [parseStreamPart] it imports from [shared/stream-parts]. *)
Definition createChunkDecoder_complex_over (chunk : string) : list Frames.StreamPartType :=
  Frames.filter_some
    (map parseStreamPart (filter (fun line => negb (is_empty line)) (split_nl chunk))).
End AnyParser.

(** Two keys of [StreamStringPrefixes] are the same key. *)
Definition same_type (a b : Frames.StreamStringType) : bool :=
  match a, b with
  | Frames.text, Frames.text
  | Frames.function_call, Frames.function_call
  | Frames.data, Frames.data => true
  | _, _ => false
  end.

(** *** The extractor over a stream *)

(** The closure [trimStartOfStreamHelper()] returns, called on successive
    texts: the flag it captures goes from one call to the next. *)
Fixpoint trimStartOfStream_each (isStreamStart : bool) (texts : list string) : list string :=
  match texts with
  | [] => []
  | text :: rest =>
      let '(t, start') := trimStartOfStream isStreamStart text in
      t :: trimStartOfStream_each start' rest
  end.

(** A text that [trimStart] empties. *)
Definition blank (text : string) : bool := is_empty (trimStart text).

(** The texts [streamable] yields for the contents [texts] of successive
    deltas. *)
Definition yieldedTexts (texts : list string) : list string :=
  filter nonempty (trimStartOfStream_each true texts).

(** The flags of the extractor in [streamable] once it has been given the
    chunks of [stream]. *)
Fixpoint extractStateAfter (st : ExtractState) (stream : list OpenAIStreamReturnTypes)
  : ExtractState :=
  match stream with
  | [] => st
  | chunk :: rest =>
      let chunk' := match chunk with Azure c => Chat (convertAzure c) | _ => chunk end in
      extractStateAfter (snd (chunkToText st chunk')) rest
  end.

(** A chunk that [streamable] does not convert. *)
Definition notAzure (chunk : OpenAIStreamReturnTypes) : bool :=
  match chunk with Azure _ => false | _ => true end.

(** A chunk whose [choices] array is empty. *)
Definition noChoices (chunk : OpenAIStreamReturnTypes) : bool :=
  match chunk with
  | Chat c => match choices c with [] => true | _ => false end
  | Legacy c => match c_choices c with [] => true | _ => false end
  | Azure c => match az_choices c with [] => true | _ => false end
  end.

(** The finish reasons on which [chunkToText] closes a function call, and
    those on which it closes nothing. *)
Definition closesFunctionCall (fr : FinishReason) : bool :=
  match fr with fr_function_call | fr_stop => true | _ => false end.

Definition closesNothing (fr : FinishReason) : bool :=
  match fr with fr_length | fr_content_filter => true | _ => false end.

(** *** The fragments of a call *)

(** The fragment [chunkToText] makes of a delta that names a function, and
    the one that closes a function call. *)
Definition functionOpening (name : string) : string :=
  "{" ++ q "function_call" ++ ": {" ++ q "name" ++ ": " ++ q name ++ ", " ++
  q "arguments" ++ ": " ++ DQ.

Definition functionClosing : string := DQ ++ "}}".

(** The fragment [chunkToText] makes of a delta that names a tool at
    index 0, the one for a tool at another index, and the one that closes a
    round of tool calls. *)
Definition toolOpening (id name : string) : string :=
  "{" ++ q "tool_calls" ++ ":[ {" ++ q "id" ++ ": " ++ q id ++ ", " ++ q "type" ++ ": " ++
  q "function" ++ ", " ++ q "function" ++ ": {" ++ q "name" ++ ": " ++ q name ++ ", " ++
  q "arguments" ++ ": " ++ DQ.


Definition toolsClosing : string := DQ ++ "}}]}".

(** *** Sample chunks and streams *)

(** [{choices: [{text}]}], a chunk of the completions API. *)
Definition legacyChunk (text : string) : OpenAIStreamReturnTypes :=
  Legacy (mkCompletion [mkCompletionChoice text]).

(** The deltas of one function call: the delta with the name (and whatever
    it holds as arguments), one delta for each increment of the argument
    text, and the chunks that end the stream. *)
Definition functionCall (name : string) (arguments0 : option string)
    (increments : list string) (closing : list OpenAIStreamReturnTypes)
  : list OpenAIStreamReturnTypes :=
  (functionCallDelta (Some name) arguments0 ::
   map (fun a => functionCallDelta None (Some a)) increments ++ closing)%list.

(** Chunks of Azure: [{choices: [{delta, finishReason}]}], a delta with one
    tool call, and a closing chunk. *)
Definition azureChunk (d : AzureDelta) (fr : option FinishReason) : OpenAIStreamReturnTypes :=
  Azure (mkAzure [mkAzureChoice (Some d) fr]).

Definition azureToolDelta (id name arguments : option string) : OpenAIStreamReturnTypes :=
  azureChunk
    (mkAzureDelta None None
       (Some [mkAzureToolCall id (Some (mkToolCallFunction arguments name))]))
    None.

Definition azureFinish (fr : FinishReason) : OpenAIStreamReturnTypes :=
  azureChunk (mkAzureDelta None None None) (Some fr).

(** A round of two tool calls as Azure streams it: each tool call is the
    only one of the chunks that bring it. *)
Definition azureToolRound (id0 name0 : string) (args0 : list string)
    (id1 name1 : string) (args1 : list string) : list OpenAIStreamReturnTypes :=
  (azureToolDelta (Some id0) (Some name0) None ::
   map (fun a => azureToolDelta None None (Some a)) args0 ++
   azureToolDelta (Some id1) (Some name1) None ::
   map (fun a => azureToolDelta None None (Some a)) args1 ++
   [azureFinish fr_tool_calls])%list.

(** An environment for a sample response: every body is read as one
    chunk that holds the event with the data [{}] followed by the data
    [[DONE]], and every parsed event is taken for a chat chunk with the
    content [Hello]. *)
Definition oneEvent (_ : list string) : list (list SSEEvent) :=
  [[ParsedEvent None "{}"; ParsedEvent None "[DONE]"]].

(** An event that makes the transformer terminate. *)
Definition is_done_event (e : SSEEvent) : bool :=
  match e with
  | ParsedEvent event data => is_done event data
  | ReconnectInterval => false
  end.

(** The events of a body whose chunks hold events with data only. *)
Definition dataEvents (datas : list string) : list SSEEvent :=
  map (ParsedEvent None) datas.

(** Data that gives a message when there is no custom parser. *)
Definition is_message (data : string) : bool :=
  nonempty data && negb (String.eqb data "[DONE]").
Definition helloCast (_ : JSONValue) : OpenAIStreamReturnTypes := contentDelta "Hello".

(** *** Payloads, messages and handlers *)

(** [{"function_call":{"name":...,"arguments":...}}], parsed. *)
Definition callPayload (name arguments : string) : JSONValue :=
  JObject [("function_call",
            JObject [("name", JString name); ("arguments", JString arguments)])].

(** The payload of a round of tool calls, parsed, and the tools the tool
    handler is given for it: a tool call is its id, its name and the text
    of its arguments. *)
Definition toolsPayload (calls : list (string * string * string)) : JSONValue :=
  JObject [("tool_calls",
            JArray (map (fun c => toolCallObject (fst (fst c)) (snd (fst c)) (snd c)) calls))].

Definition toolsOf (calls : list (string * string * string)) : list Tool :=
  map (fun c => mkTool (Some (JString (fst (fst c)))) (Some (JString (snd (fst c))))
                  (Some (JString (snd c)))) calls.

(** The message [appendToolCallMessage] builds for one result. *)
Definition toolMessage (r : ToolCallResult) : CreateMessage :=
  JObject [("role", JString "tool");
           ("tool_call_id", JString (tool_call_id r));
           ("name", JString (function_name_ r));
           ("content", JString (stringify (tool_call_result r)))].

(** Handlers that answer every call with the same string. *)
Definition answers (s : string) : FunctionCallHandler :=
  fun _ _ => mkHandlerRun [] (Returns (RetString s)).


(** Callbacks with [onFinal] as their only hook, made with messages of an
    earlier call; and the run of the nested call of the sample handler
    [continues] under them. *)
Definition onFinalOnly (f : Slot FunctionCallHandler) : OpenAIStreamCallbacks :=
  mkCallbacks false false true false false false f None (Some [JString "earlier"]).
Definition sunnyRun : Run :=
  mkRun [OnFinal "It is sunny."] (mkStream ["It is"; " sunny."] Closed) (Some "It is sunny.").

(** *** The chunks of the function-call stage *)

(** The chunks before the first one that opens a call, and the chunks
    from that one on. *)
Fixpoint beforeCall (src : list string) : list string :=
  match src with
  | [] => []
  | chunk :: rest => if opensCall chunk then [] else chunk :: beforeCall rest
  end.

Fixpoint fromCall (src : list string) : list string :=
  match src with
  | [] => []
  | chunk :: rest => if opensCall chunk then src else fromCall rest
  end.

Definition is_nil {A : Type} (l : list A) : bool :=
  match l with [] => true | _ => false end.

(** *** Traces *)

(** The calls of the handlers in a trace. *)
Fixpoint handlerCalls (t : list Event) : list Event :=
  match t with
  | [] => []
  | OnFunctionCall p :: r => OnFunctionCall p :: handlerCalls r
  | OnToolCall p :: r => OnToolCall p :: handlerCalls r
  | _ :: r => handlerCalls r
  end.

End Scenarios.

(** ** Strings *)

Module StrFacts.
Import Str Vocabulary.

Lemma app_assoc (a b c : string) : (a ++ b) ++ c = a ++ b ++ c.
Proof. induction a as [|x a IH]; simpl; [reflexivity | now rewrite IH]. Qed.

Lemma app_nil_r (a : string) : a ++ "" = a.
Proof. induction a as [|x a IH]; simpl; [reflexivity | now rewrite IH]. Qed.

Lemma length_app (a b : string) :
  String.length (a ++ b) = String.length a + String.length b.
Proof. induction a as [|x a IH]; simpl; [reflexivity | now rewrite IH]. Qed.

Lemma concat_app (l1 l2 : list string) :
  concat (l1 ++ l2)%list = concat l1 ++ concat l2.
Proof.
  induction l1 as [|x l1 IH]; simpl; [reflexivity|].
  unfold concat in *. simpl. now rewrite IH, app_assoc.
Qed.

Lemma concat_cons (x : string) (l : list string) : concat (x :: l) = x ++ concat l.
Proof. reflexivity. Qed.

Lemma replace_all_app (c : ascii) (by_ a b : string) :
  replace_all c by_ (a ++ b) = replace_all c by_ a ++ replace_all c by_ b.
Proof.
  induction a as [|x a IH]; simpl; [reflexivity|].
  destruct (Ascii.eqb x c); rewrite IH; [now rewrite app_assoc | reflexivity].
Qed.

Lemma all_chars_app (p : ascii -> bool) (a b : string) :
  all_chars p (a ++ b) = all_chars p a && all_chars p b.
Proof.
  induction a as [|x a IH]; simpl; [reflexivity|].
  now rewrite IH, Bool.andb_assoc.
Qed.

Lemma is_empty_true (s : string) : is_empty s = true -> s = "".
Proof. destruct s; [reflexivity | discriminate]. Qed.

End StrFacts.

(** ** String literals of JSON and the escaping of [cleanupArguments] *)

Module LiteralFacts.
Import Str JSON Provider Vocabulary StrFacts.

Lemma cleanupArguments_app (a b : string) :
  cleanupArguments (a ++ b) = cleanupArguments a ++ cleanupArguments b.
Proof. unfold cleanupArguments. now rewrite !replace_all_app. Qed.

Lemma cleanupArguments_cons (c : ascii) (r : string) :
  cleanupArguments (String c r) = cleanupArguments (String c "") ++ cleanupArguments r.
Proof. exact (cleanupArguments_app (String c "") r). Qed.

Lemma cleanupArguments_concat (incs : list string) :
  concat (map cleanupArguments incs) = cleanupArguments (concat incs).
Proof.
  induction incs as [|x incs IH]; [reflexivity|].
  simpl map. rewrite !concat_cons, cleanupArguments_app. now rewrite IH.
Qed.

(** One escapable character, escaped, is read back as itself. *)
Lemma parse_chars_cleanup_char (c : ascii) (r : string) :
  escapable c = true ->
  parse_chars (cleanupArguments (String c "") ++ r) = prepend (String c "") (parse_chars r).
Proof.
  destruct c as [[] [] [] [] [] [] [] []]; intros H;
    try discriminate H; reflexivity.
Qed.

Lemma parse_chars_plain_char (c : ascii) (r : string) :
  plain_char c = true ->
  parse_chars (String c r) = prepend (String c "") (parse_chars r).
Proof.
  destruct c as [[] [] [] [] [] [] [] []]; intros H;
    try discriminate H; reflexivity.
Qed.

(** The escaped text of escapable increments, closed by a quote, is a
    string literal denoting the text. *)
Lemma parse_chars_cleanup (s rest : string) :
  escapable_text s = true ->
  parse_chars (cleanupArguments s ++ DQ ++ rest) = Some (s, rest).
Proof.
  induction s as [|c s IH]; intros H.
  - reflexivity.
  - simpl in H. apply Bool.andb_true_iff in H as [Hc Hs].
    rewrite cleanupArguments_cons, app_assoc, parse_chars_cleanup_char by exact Hc.
    rewrite (IH Hs). reflexivity.
Qed.

Lemma parse_chars_plain (s rest : string) :
  plain s = true ->
  parse_chars (s ++ DQ ++ rest) = Some (s, rest).
Proof.
  induction s as [|c s IH]; intros H.
  - reflexivity.
  - simpl in H. apply Bool.andb_true_iff in H as [Hc Hs].
    change (String c s ++ DQ ++ rest) with (String c (s ++ DQ ++ rest)).
    rewrite parse_chars_plain_char by exact Hc.
    rewrite (IH Hs). reflexivity.
Qed.

End LiteralFacts.

(** ** Steps of the parser *)

Module ParserFacts.
Import Str JSON Provider Vocabulary StrFacts LiteralFacts.

Lemma parse_value_string (f : nat) (r : string) :
  parse_value (S f) (String dq r) =
  match parse_chars r with
  | Some (v, rest) => Some (JString v, rest)
  | None => None
  end.
Proof. reflexivity. Qed.

Lemma parse_value_skip (f : nat) (s : string) :
  parse_value (S f) s = parse_value (S f) (skip_ws s).
Proof.
  assert (H : skip_ws (skip_ws s) = skip_ws s).
  { induction s as [|c s IH]; [reflexivity|]. simpl. destruct (is_ws c) eqn:E; [exact IH|].
    simpl. now rewrite E. }
  simpl. now rewrite H.
Qed.

Lemma parse_value_object (f : nat) (r r0 : string) :
  skip_ws r = String dq r0 ->
  parse_value (S f) (String "{" r) =
  match parse_members (parse_value f) f r with
  | Some (ms, rest) => Some (JObject ms, rest)
  | None => None
  end.
Proof. intros H. simpl. rewrite H. reflexivity. Qed.

Lemma parse_value_array (f : nat) (r : string) (c : ascii) (r0 : string) :
  skip_ws r = String c r0 -> Ascii.eqb c "]" = false ->
  parse_value (S f) (String "[" r) =
  match parse_elements (parse_value f) f r with
  | Some (vs, rest) => Some (JArray vs, rest)
  | None => None
  end.
Proof. intros H E. simpl. rewrite H, E. reflexivity. Qed.

Section Steps.
Variable pv : string -> option (JSONValue * string).

Lemma members_more (n : nat) (s r0 key r1 r2 : string) (v : JSONValue) (r3 r4 : string) :
  skip_ws s = String dq r0 ->
  parse_chars r0 = Some (key, r1) ->
  skip_ws r1 = String ":" r2 ->
  pv r2 = Some (v, r3) ->
  skip_ws r3 = String "," r4 ->
  parse_members pv (S n) s =
  match parse_members pv n r4 with
  | Some (ms, rest) => Some ((key, v) :: ms, rest)
  | None => None
  end.
Proof. intros H0 H1 H2 H3 H4. simpl. rewrite H0. simpl. rewrite H1, H2. simpl.
       rewrite H3, H4. reflexivity. Qed.

Lemma members_last (n : nat) (s r0 key r1 r2 : string) (v : JSONValue) (r3 r4 : string) :
  skip_ws s = String dq r0 ->
  parse_chars r0 = Some (key, r1) ->
  skip_ws r1 = String ":" r2 ->
  pv r2 = Some (v, r3) ->
  skip_ws r3 = String "}" r4 ->
  parse_members pv (S n) s = Some ([(key, v)], r4).
Proof. intros H0 H1 H2 H3 H4. simpl. rewrite H0. simpl. rewrite H1, H2. simpl.
       rewrite H3, H4. reflexivity. Qed.

Lemma elements_more (n : nat) (s : string) (v : JSONValue) (r r' : string) :
  pv s = Some (v, r) ->
  skip_ws r = String "," r' ->
  parse_elements pv (S n) s =
  match parse_elements pv n r' with
  | Some (vs, rest) => Some (v :: vs, rest)
  | None => None
  end.
Proof. intros H0 H1. simpl. rewrite H0, H1. reflexivity. Qed.

Lemma elements_last (n : nat) (s : string) (v : JSONValue) (r r' : string) :
  pv s = Some (v, r) ->
  skip_ws r = String "]" r' ->
  parse_elements pv (S n) s = Some ([v], r').
Proof. intros H0 H1. simpl. rewrite H0, H1. reflexivity. Qed.
End Steps.

End ParserFacts.

(** ** [JSON.parse] after [JSON.stringify], and the frames (C2) *)

Module RoundTripFacts.
Import Str JSON Frames Vocabulary StrFacts LiteralFacts ParserFacts.

Section JSONValue_induction.
Variable P : JSONValue -> Prop.
Hypothesis Hnull : P JNull.
Hypothesis Hbool : forall b, P (JBool b).
Hypothesis Hnumber : forall lx, P (JNumber lx).
Hypothesis Hstring : forall s, P (JString s).
Hypothesis Harray : forall vs, Forall P vs -> P (JArray vs).
Hypothesis Hobject : forall ms, Forall (fun kv => P (snd kv)) ms -> P (JObject ms).

Lemma JSONValue_induction : forall v, P v.
Proof.
  fix IH 1. intros [| b | lx | s | vs | ms].
  - exact Hnull.
  - apply Hbool.
  - apply Hnumber.
  - apply Hstring.
  - apply Harray. induction vs as [|v vs IHvs]; constructor; [apply IH | exact IHvs].
  - apply Hobject. induction ms as [|[k v] ms IHms]; constructor; [apply IH | exact IHms].
Qed.
End JSONValue_induction.

Lemma escape_cons (c : ascii) (s : string) :
  escape (String c s) = escape (String c "") ++ escape s.
Proof. cbn [escape]. now rewrite app_nil_r. Qed.

Lemma parse_chars_escape_char (c : ascii) (r : string) :
  parse_chars (escape (String c "") ++ r) = prepend (String c "") (parse_chars r).
Proof. destruct c as [[] [] [] [] [] [] [] []]; reflexivity. Qed.

Lemma parse_chars_escape (s rest : string) :
  parse_chars (escape s ++ DQ ++ rest) = Some (s, rest).
Proof.
  induction s as [|c s IH]; [reflexivity|].
  rewrite escape_cons, app_assoc, parse_chars_escape_char, IH. reflexivity.
Qed.

(** *** Numbers: a lexeme is read back whatever delimiter follows it *)

Lemma delimited_no_digit (c : ascii) (r : string) :
  delimited (String c r) = true ->
  is_digit c = false /\ Ascii.eqb c "." = false /\ Ascii.eqb c "e" = false /\
  Ascii.eqb c "E" = false /\ Ascii.eqb c "-" = false /\ Ascii.eqb c "0" = false /\
  is_ws c = false.
Proof.
  cbn. intros H. apply orb_true_iff in H as [H|H]; [apply orb_true_iff in H as [H|H]|];
    apply Ascii.eqb_eq in H; subst; repeat split; reflexivity.
Qed.

Lemma take_digits_stable (s ds r rest : string) :
  take_digits s = (ds, r) -> delimited rest = true ->
  take_digits (s ++ rest) = (ds, r ++ rest).
Proof.
  revert ds r. induction s as [|c s IH]; intros ds r H D.
  - cbn in H. inversion H; subst. cbn [append].
    destruct rest as [|d rest]; [reflexivity|].
    destruct (delimited_no_digit _ _ D) as (N & _). cbn. now rewrite N.
  - cbn in H |- *. destruct (is_digit c).
    + destruct (take_digits s) as [ds' r'] eqn:E. inversion H; subst.
      now rewrite (IH _ _ eq_refl D).
    + inversion H; subst. reflexivity.
Qed.

Lemma parse_int_stable (s x r rest : string) :
  parse_int s = Some (x, r) -> delimited rest = true ->
  parse_int (s ++ rest) = Some (x, r ++ rest).
Proof.
  destruct s as [|c s]; [discriminate|]. cbn. intros H D.
  destruct (Ascii.eqb c "0"); [inversion H; subst; reflexivity|].
  destruct (is_digit c); [|discriminate].
  destruct (take_digits s) as [ds r'] eqn:E. inversion H; subst.
  now rewrite (take_digits_stable _ _ _ _ E D).
Qed.

Lemma parse_frac_stable (s x r rest : string) :
  parse_frac s = Some (x, r) -> delimited rest = true ->
  parse_frac (s ++ rest) = Some (x, r ++ rest).
Proof.
  destruct s as [|c s]; cbn; intros H D.
  - inversion H; subst. destruct rest as [|d rest]; [reflexivity|].
    destruct (delimited_no_digit _ _ D) as (_ & N & _). cbn. now rewrite N.
  - destruct (Ascii.eqb c "."); [|inversion H; subst; reflexivity].
    destruct (take_digits s) as [ds r'] eqn:E.
    rewrite (take_digits_stable _ _ _ _ E D).
    destruct ds; [discriminate|]. inversion H; subst. reflexivity.
Qed.

Lemma parse_exp_stable (s x r rest : string) :
  parse_exp s = Some (x, r) -> delimited rest = true ->
  parse_exp (s ++ rest) = Some (x, r ++ rest).
Proof.
  destruct s as [|c s]; cbn; intros H D.
  - inversion H; subst. destruct rest as [|d rest]; [reflexivity|].
    destruct (delimited_no_digit _ _ D) as (_ & _ & N1 & N2 & _). cbn. now rewrite N1, N2.
  - destruct (Ascii.eqb c "e" || Ascii.eqb c "E"); [|inversion H; subst; reflexivity].
    destruct s as [|d s].
    + cbn in H. discriminate.
    + cbn [append]. destruct (Ascii.eqb d "+" || Ascii.eqb d "-").
      * destruct (take_digits s) as [ds r'] eqn:E.
        rewrite (take_digits_stable _ _ _ _ E D).
        destruct ds; [discriminate|]. inversion H; subst. reflexivity.
      * destruct (take_digits (String d s)) as [ds r'] eqn:E.
        change (String d (s ++ rest)) with (String d s ++ rest).
        rewrite (take_digits_stable _ _ _ _ E D).
        destruct ds; [discriminate|]. inversion H; subst. reflexivity.
Qed.

Lemma parse_number_stable (s x r rest : string) :
  parse_number s = Some (x, r) -> delimited rest = true ->
  parse_number (s ++ rest) = Some (x, r ++ rest).
Proof.
  unfold parse_number. intros H D.
  assert (G : forall sign s1,
             match parse_int s1 with
             | Some (i, s2) =>
                 match parse_frac s2 with
                 | Some (f, s3) =>
                     match parse_exp s3 with
                     | Some (e, s4) => Some (sign ++ i ++ f ++ e, s4)
                     | None => None
                     end
                 | None => None
                 end
             | None => None
             end = Some (x, r) ->
             match parse_int (s1 ++ rest) with
             | Some (i, s2) =>
                 match parse_frac s2 with
                 | Some (f, s3) =>
                     match parse_exp s3 with
                     | Some (e, s4) => Some (sign ++ i ++ f ++ e, s4)
                     | None => None
                     end
                 | None => None
                 end
             | None => None
             end = Some (x, r ++ rest)).
  { intros sign s1 G.
    destruct (parse_int s1) as [[i s2]|] eqn:E1; [|discriminate].
    destruct (parse_frac s2) as [[f s3]|] eqn:E2; [|discriminate].
    destruct (parse_exp s3) as [[e s4]|] eqn:E3; [|discriminate].
    rewrite (parse_int_stable _ _ _ _ E1 D), (parse_frac_stable _ _ _ _ E2 D),
      (parse_exp_stable _ _ _ _ E3 D).
    inversion G; subst. reflexivity. }
  destruct s as [|c s].
  - cbn in H. discriminate.
  - cbn [append]. destruct (Ascii.eqb c "-").
    + apply G. exact H.
    + change (String c (s ++ rest)) with (String c s ++ rest). apply G. exact H.
Qed.

Lemma valid_number_parse (lx rest : string) :
  valid_number lx = true -> delimited rest = true ->
  parse_number (lx ++ rest) = Some (lx, rest).
Proof.
  unfold valid_number. intros H D.
  destruct (parse_number lx) as [[l [|]]|] eqn:E; try discriminate.
  apply String.eqb_eq in H. subst l.
  exact (parse_number_stable _ _ _ _ E D).
Qed.

Lemma valid_number_head (lx : string) :
  valid_number lx = true ->
  exists c r, lx = String c r /\ (Ascii.eqb c "-" || is_digit c) = true.
Proof.
  unfold valid_number, parse_number. destruct lx as [|c r]; [discriminate|].
  intros H. exists c, r. split; [reflexivity|].
  destruct (Ascii.eqb c "-") eqn:E; [reflexivity|]. cbn [orb].
  cbn [parse_int] in H. destruct (Ascii.eqb c "0") eqn:E0.
  - apply Ascii.eqb_eq in E0. now subst.
  - destruct (is_digit c); [reflexivity | discriminate].
Qed.

Lemma parse_value_number (f : nat) (c : ascii) (r : string) :
  (Ascii.eqb c "-" || is_digit c) = true ->
  parse_value (S f) (String c r) =
  match parse_number (String c r) with
  | Some (lx, rest) => Some (JNumber lx, rest)
  | None => None
  end.
Proof.
  destruct c as [[] [] [] [] [] [] [] []]; intros H; try discriminate H; reflexivity.
Qed.

(** *** Values *)

Lemma size_pos (v : JSONValue) : 1 <= size v.
Proof. destruct v; cbn; lia. Qed.

Lemma length_le_sizes {A} (sz : A -> nat) (l : list A) :
  (forall x, 1 <= sz x) -> List.length l <= list_sum (map sz l).
Proof.
  intros H. induction l as [|x l IH]; [cbn; lia|].
  change (S (List.length l) <= sz x + list_sum (map sz l)). specialize (H x). lia.
Qed.

Lemma list_sum_cons (x : nat) (l : list nat) : list_sum (x :: l) = x + list_sum l.
Proof. reflexivity. Qed.

Lemma stringify_head (v : JSONValue) :
  wf v = true ->
  exists c r, stringify v = String c r /\ is_ws c = false /\ Ascii.eqb c "]" = false.
Proof.
  destruct v as [| [] | lx | s | vs | ms]; cbn [wf stringify]; intros H;
    try (eexists; eexists; split; [reflexivity | split; reflexivity]).
  destruct (valid_number_head lx H) as (c & r & -> & Hc).
  exists c, r. split; [reflexivity|].
  destruct c as [[] [] [] [] [] [] [] []]; try discriminate Hc; split; reflexivity.
Qed.

Lemma join_cons (sep x : string) (l : list string) :
  join sep (x :: l) = x ++ match l with [] => "" | _ => sep ++ join sep l end.
Proof. destruct l; cbn [join]; [now rewrite app_nil_r | reflexivity]. Qed.

Lemma parse_elements_stringify (v : JSONValue) (vs : list JSONValue) :
  Forall reads_back (v :: vs) -> forallb wf (v :: vs) = true ->
  forall f n rest,
    list_sum (map size (v :: vs)) <= f -> List.length (v :: vs) <= n ->
    parse_elements (parse_value f) n (join "," (map stringify (v :: vs)) ++ "]" ++ rest)
    = Some (v :: vs, rest).
Proof.
  revert v. induction vs as [|v2 vs IH]; intros v HF HW f n rest Hs Hn.
  - destruct n as [|n]; [cbn in Hn; lia|].
    inversion HF as [|? ? Hv _]; subst. cbn in HW. rewrite andb_true_r in HW.
    cbn [map join]. eapply elements_last.
    + apply (Hv HW); [cbn [map snd] in Hs; rewrite !list_sum_cons in Hs; lia | reflexivity].
    + reflexivity.
  - destruct n as [|n]; [cbn in Hn; lia|].
    inversion HF as [|? ? Hv HF']; subst.
    cbn [forallb] in HW. apply andb_true_iff in HW as [HWv HW'].
    change (join "," (map stringify (v :: v2 :: vs)))
      with (stringify v ++ "," ++ join "," (map stringify (v2 :: vs))).
    rewrite !app_assoc. erewrite elements_more.
    + rewrite (IH v2 HF' HW' f n rest); [reflexivity | | ].
      * cbn [map] in Hs |- *. rewrite !list_sum_cons in *. lia.
      * cbn [List.length] in Hn |- *. lia.
    + apply (Hv HWv); [cbn [map snd] in Hs; rewrite !list_sum_cons in Hs; lia | reflexivity].
    + reflexivity.
Qed.

Lemma parse_members_stringify (m : string * JSONValue) (ms : list (string * JSONValue)) :
  Forall (fun kv => reads_back (snd kv)) (m :: ms) ->
  forallb (fun kv => wf (snd kv)) (m :: ms) = true ->
  forall f n rest,
    list_sum (map (fun kv => size (snd kv)) (m :: ms)) <= f -> List.length (m :: ms) <= n ->
    parse_members (parse_value f) n (join "," (map member_text (m :: ms)) ++ "}" ++ rest)
    = Some (m :: ms, rest).
Proof.
  revert m. induction ms as [|m2 ms IH]; intros [k v] HF HW f n rest Hs Hn.
  - destruct n as [|n]; [cbn in Hn; lia|].
    inversion HF as [|? ? Hv _]; subst. cbn in HW, Hv. rewrite andb_true_r in HW.
    cbn [map join]. unfold member_text, quote. cbn [fst snd]. rewrite !app_assoc.
    eapply members_last.
    + reflexivity.
    + apply parse_chars_escape.
    + reflexivity.
    + apply (Hv HW); [cbn [map snd] in Hs; rewrite !list_sum_cons in Hs; lia | reflexivity].
    + reflexivity.
  - destruct n as [|n]; [cbn in Hn; lia|].
    inversion HF as [|? ? Hv HF']; subst. cbn [snd] in Hv.
    cbn [forallb snd] in HW. apply andb_true_iff in HW as [HWv HW'].
    change (join "," (map member_text ((k, v) :: m2 :: ms)))
      with (member_text (k, v) ++ "," ++ join "," (map member_text (m2 :: ms))).
    unfold member_text at 1, quote. cbn [fst snd]. rewrite !app_assoc.
    erewrite members_more.
    + rewrite (IH m2 HF' HW' f n rest); [reflexivity | | ].
      * cbn [map snd] in Hs |- *. rewrite !list_sum_cons in *. lia.
      * cbn [List.length] in Hn |- *. lia.
    + reflexivity.
    + apply parse_chars_escape.
    + reflexivity.
    + apply (Hv HWv); [cbn [map snd] in Hs; rewrite !list_sum_cons in Hs; lia | reflexivity].
    + reflexivity.
Qed.

(** The text of a well-formed value is read back as the value, whatever
    delimiter follows. *)
Lemma parse_value_stringify (v : JSONValue) : reads_back v.
Proof.
  induction v as [| b | lx | s | vs IH | ms IH] using JSONValue_induction;
    intros HW fuel rest Hs D; (destruct fuel as [|f]; [cbn in Hs; lia|]).
  - reflexivity.
  - destruct b; reflexivity.
  - cbn [wf stringify] in *.
    destruct (valid_number_head lx HW) as (c & r & E & Hc).
    pose proof (valid_number_parse lx rest HW D) as P. subst lx.
    change (String c r ++ rest) with (String c (r ++ rest)) in *.
    rewrite (parse_value_number f c _ Hc), P. reflexivity.
  - cbn [stringify]. unfold quote. rewrite !app_assoc.
    change (DQ ++ ?x) with (String dq x).
    rewrite parse_value_string, parse_chars_escape. reflexivity.
  - destruct vs as [|v vs]; [reflexivity|].
    cbn [wf] in HW. cbn [size] in Hs. cbn [stringify].
    rewrite !app_assoc. change ("[" ++ ?x) with (String "[" x).
    assert (HWv : wf v = true) by (cbn in HW; now apply andb_true_iff in HW).
    destruct (stringify_head v HWv) as (c & r & E & W & B).
    erewrite parse_value_array.
    + rewrite (parse_elements_stringify v vs IH HW f f rest); [reflexivity | lia | ].
      pose proof (length_le_sizes size (v :: vs) size_pos). lia.
    + cbn [map]. rewrite join_cons, E, !app_assoc. cbn [append skip_ws]. rewrite W.
      reflexivity.
    + exact B.
  - destruct ms as [|m ms]; [reflexivity|].
    cbn [wf] in HW. cbn [size] in Hs. cbn [stringify].
    change (fun kv : string * JSONValue => quote (fst kv) ++ ":" ++ stringify (snd kv))
      with member_text.
    rewrite !app_assoc. change ("{" ++ ?x) with (String "{" x).
    erewrite parse_value_object.
    + rewrite (parse_members_stringify m ms IH HW f f rest); [reflexivity | lia | ].
      pose proof (length_le_sizes (fun kv => size (snd kv)) (m :: ms)
                    (fun kv => size_pos (snd kv))). lia.
    + destruct m as [k v]. cbn [map]. rewrite join_cons. unfold member_text at 1, quote.
      rewrite !app_assoc. reflexivity.
Qed.

Lemma length_join (sep : string) (l : list string) :
  list_sum (map String.length l) <= String.length (join sep l).
Proof.
  induction l as [|x l IH]; [cbn; lia|].
  cbn [map]. rewrite list_sum_cons, join_cons, length_app.
  destruct l; [cbn; lia|]. rewrite length_app. lia.
Qed.

Lemma list_sum_le {A} (f g : A -> nat) (l : list A) :
  Forall (fun x => f x <= g x) l -> list_sum (map f l) <= list_sum (map g l).
Proof.
  induction 1 as [|x l H _ IH]; [cbn; lia|].
  cbn [map]. rewrite !list_sum_cons. lia.
Qed.

Lemma size_le_length (v : JSONValue) :
  wf v = true -> size v <= String.length (stringify v).
Proof.
  induction v as [| b | lx | s | vs IH | ms IH] using JSONValue_induction; intros HW.
  - cbn; lia.
  - destruct b; cbn; lia.
  - cbn [wf] in HW. destruct (valid_number_head lx HW) as (c & r & -> & _). cbn; lia.
  - cbn; lia.
  - cbn [size stringify wf] in *. rewrite !length_app.
    pose proof (length_join "," (map stringify vs)) as L. rewrite map_map in L.
    assert (G : list_sum (map size vs) <= list_sum (map (fun x => String.length (stringify x)) vs)).
    { apply list_sum_le. rewrite forallb_forall in HW. rewrite Forall_forall in *.
      intros x Hx. apply IH; auto. }
    cbn [String.length]. lia.
  - cbn [size stringify wf] in *. rewrite !length_app.
    pose proof (length_join "," (map (fun kv => quote (fst kv) ++ ":" ++ stringify (snd kv)) ms))
      as L. rewrite map_map in L.
    assert (G : list_sum (map (fun kv => size (snd kv)) ms) <=
                list_sum (map (fun x => String.length
                                          (quote (fst x) ++ ":" ++ stringify (snd x))) ms)).
    { apply list_sum_le. rewrite forallb_forall in HW. rewrite Forall_forall in *.
      intros x Hx. rewrite !length_app. specialize (IH x Hx (HW x Hx)). lia. }
    cbn [String.length]. lia.
Qed.

(** [JSON.parse(JSON.stringify(v))] is [v]. *)
Lemma parse_stringify (v : JSONValue) : wf v = true -> parse (stringify v) = Some v.
Proof.
  intros HW. unfold parse.
  pose proof (parse_value_stringify v HW (S (String.length (stringify v))) ""
                ltac:(pose proof (size_le_length v HW); lia) eq_refl) as P.
  rewrite app_nil_r in P. rewrite P. reflexivity.
Qed.

(** *** Frames *)

Lemma split_nl_line (s : string) :
  contains nl s = false -> split_nl (s ++ NL) = [s; ""].
Proof.
  induction s as [|c s IH]; [reflexivity|].
  cbn [contains append split_nl]. intros H. apply orb_false_iff in H as [Hc Hs].
  rewrite Hc, (IH Hs). reflexivity.
Qed.

(** C2, as amended.  A value that fits the kind of its frame (a string for
    a text frame, a structured value for a function-call or data frame),
    whose numbers are valid lexemes and whose payload on the wire has no
    newline, is decoded from its encoded line as the one part of that kind
    and value. *)
Theorem C2_round_trip (kind : StreamStringType) (v : JSONValue) :
  fits kind v = true -> wf v = true -> contains nl (serialization v) = false ->
  createChunkDecoder_complex (getStreamString kind v) = [mkPart kind v].
Proof.
  intros HF HW HN. unfold createChunkDecoder_complex.
  assert (E : getStreamString kind v =
              (StreamStringPrefixes kind ++ ":" ++ serialization v) ++ NL).
  { unfold getStreamString, serialization. now rewrite !app_assoc. }
  rewrite E, split_nl_line.
  2: { destruct kind; cbn; exact HN. }
  destruct kind, v; try discriminate HF; cbn [filter is_empty negb StreamStringPrefixes append
    map parseStreamPart Ascii.eqb Bool.eqb filter_some serialization];
    try reflexivity;
    match goal with |- context [parse ?t] =>
      match goal with |- context [mkPart _ ?w] =>
        change t with (stringify w); rewrite (parse_stringify w HW); reflexivity
      end
    end.
Qed.

Lemma C2_round_trip_witness :
  createChunkDecoder_complex
    (getStreamString data (JObject [("someJson", JString "value")]))
  = [mkPart data (JObject [("someJson", JString "value")])].
Proof.
  apply (C2_round_trip data (JObject [("someJson", JString "value")])); reflexivity.
Defined.

(** C2 as stated fails: the string ["1"] in a data frame has no newline; it
    is put on the wire as it is, exactly as the number 1 is, and is decoded
    as the number. *)
Lemma C2_string_in_a_data_frame :
  contains nl (serialization (JString "1")) = false /\
  getStreamString data (JString "1") = getStreamString data (JNumber "1") /\
  createChunkDecoder_complex (getStreamString data (JString "1"))
  <> [mkPart data (JString "1")].
Proof. repeat split. vm_compute. discriminate. Qed.

End RoundTripFacts.

(** ** The extractor: the sample call (C3), two tool calls (C4), the escaping (C5) *)

Module ExtractorFacts.
Import Str JSON Provider Streams Pipeline Vocabulary Samples StrFacts LiteralFacts ParserFacts.

(** C3. The deltas [{name: "f"}], [{arguments: "{\"a\":1"}],
    [{arguments: "}"}] and the chunk with [finish_reason: "function_call"]
    make [chunkToText] emit four structured fragments; their concatenation,
    which is also what [createFunctionCallTransformer] holds in
    [aggregatedResponse] once it has been given them, parses as the JSON
    object [{"function_call":{"name":"f","arguments":"{\"a\":1}"}}]. *)
Theorem C3_fragment_aggregation :
  let fragments := streamable callOfF in
  let aggregated := concat (map content_of fragments) in
  fragments =
    [NotText ("{" ++ q "function_call" ++ ": {" ++ q "name" ++ ": " ++ q "f" ++ ", " ++
              q "arguments" ++ ": " ++ DQ);
     NotText ("{\" ++ DQ ++ "a\" ++ DQ ++ ":1");
     NotText "}";
     NotText (DQ ++ "}}")] /\
  parse aggregated = Some callOfF_json /\
  forall formatStreamPart callbacks,
    aggregatedResponse
      (fst (transform_all formatStreamPart callbacks initialTransformer
              (map content_of fragments))) = aggregated.
Proof.
  cbv zeta. split; [reflexivity|]. split; [vm_compute; reflexivity|].
  intros formatStreamPart callbacks. reflexivity.
Qed.

(** The escaped increments of an argument text, put between quotes, are a
    JSON string literal for the concatenation of the increments, as long as
    the text has no control character besides newline, carriage return, tab
    and form feed. *)
Lemma escaped_increments_literal (increments : list string) :
  escapable_text (concat increments) = true ->
  parse (DQ ++ concat (map cleanupArguments increments) ++ DQ)
  = Some (JString (concat increments)).
Proof.
  intros H. rewrite cleanupArguments_concat.
  unfold parse. change (DQ ++ ?x) with (String dq x).
  rewrite parse_value_string.
  change DQ with (DQ ++ "").
  rewrite parse_chars_cleanup by exact H. reflexivity.
Qed.


Lemma parse_value_space (f : nat) (r : string) :
  parse_value (S f) (String " " r) = parse_value (S f) r.
Proof. rewrite parse_value_skip. symmetry. rewrite parse_value_skip. reflexivity. Qed.


(** C5, the input on which the escaping fails: a backspace (U+0008) is not
    among the characters [cleanupArguments] replaces, and a raw control
    character is not allowed in a JSON string literal, so the quoted text
    does not parse. *)
Theorem C5_backspace_is_not_escaped :
  cleanupArguments (String bs "") = String bs "" /\
  parse (DQ ++ concat (map cleanupArguments [String bs ""]) ++ DQ) = None.
Proof. split; vm_compute; reflexivity. Qed.

Ltac literal H lemma :=
  rewrite parse_value_space, parse_value_string;
  change (String dq ?x) with (DQ ++ x);
  rewrite lemma by exact H; reflexivity.

Ltac normalise := unfold q; rewrite ?app_assoc; cbn [append DQ].

Lemma parse_function_object (f : nat) (name A rest : string) :
  plain name = true -> escapable_text A = true ->
  parse_value (S (S (S f)))
    ("{" ++ DQ ++ "name" ++ DQ ++ ": " ++ DQ ++ name ++ DQ ++ ", " ++
     DQ ++ "arguments" ++ DQ ++ ": " ++ DQ ++ cleanupArguments A ++ DQ ++ "}" ++ rest)
  = Some (JObject [("name", JString name); ("arguments", JString A)], rest).
Proof.
  intros Hn HA. cbn [append DQ].
  erewrite parse_value_object by reflexivity.
  erewrite members_more.
  2: reflexivity. 2: reflexivity. 2: reflexivity.
  2: literal Hn parse_chars_plain.
  2: reflexivity.
  erewrite members_last.
  2: reflexivity. 2: reflexivity. 2: reflexivity.
  2: literal HA parse_chars_cleanup.
  2: reflexivity.
  reflexivity.
Qed.














End ExtractorFacts.

(** ** The transformers and the nested calls *)

Module PipelineFacts.
Import Str JSON Provider Streams Pipeline Vocabulary Samples StrFacts.

Section TransformerFacts.
Variable formatStreamPart : StreamPartKind -> JSONValue -> string.
Variable callbacks : OpenAIStreamCallbacks.

(** Once a call is open, [transform] forwards nothing: the chunk goes to
    both buffers. *)
Lemma transform_in_call (st : TransformerState) (chunk : string) :
  isFunctionStreamingIn' st = true ->
  transform formatStreamPart callbacks st chunk =
  (mkTransformer false (aggregatedResponse st ++ chunk)
     (aggregatedFinalCompletionResponse st ++ chunk) true, []) \/
  transform formatStreamPart callbacks st chunk =
  (mkTransformer (isFirstChunk st) (aggregatedResponse st ++ chunk)
     (aggregatedFinalCompletionResponse st ++ chunk) true, []).
Proof.
  intros H. unfold transform. cbn [Frames.createChunkDecoder_simple].
  destruct (isFirstChunk st && _); [left; reflexivity|].
  rewrite H. right. reflexivity.
Qed.

Lemma transform_all_in_call (post : list string) (st : TransformerState) :
  isFunctionStreamingIn' st = true ->
  exists st',
    transform_all formatStreamPart callbacks st post = (st', []) /\
    isFunctionStreamingIn' st' = true /\
    (isFirstChunk st = false -> isFirstChunk st' = false) /\
    aggregatedResponse st' = aggregatedResponse st ++ concat post /\
    aggregatedFinalCompletionResponse st' =
      aggregatedFinalCompletionResponse st ++ concat post.
Proof.
  revert st. induction post as [|chunk post IH]; intros st H.
  - exists st. cbn. rewrite !app_nil_r. auto.
  - cbn [transform_all].
    destruct (transform_in_call st chunk H) as [E|E]; rewrite E;
      match goal with |- context [transform_all _ _ ?s post] =>
        destruct (IH s eq_refl) as (st' & E' & F & G & A & B) end;
      rewrite E'; exists st';
      cbn [aggregatedResponse aggregatedFinalCompletionResponse isFirstChunk
           isFunctionStreamingIn'] in *;
      rewrite A, B, !concat_cons, !app_assoc; auto.
Qed.

(** Before any call is open, every chunk is forwarded and none is kept in
    the call buffer. *)
Lemma transform_all_before_call (pre rest : list string) (st : TransformerState) :
  isFirstChunk st = true -> isFunctionStreamingIn' st = false ->
  forallb (fun c => negb (opensCall c)) pre = true ->
  transform_all formatStreamPart callbacks st (pre ++ rest) =
  (let '(st', outs) :=
     transform_all formatStreamPart callbacks
       (mkTransformer true (aggregatedResponse st)
          (aggregatedFinalCompletionResponse st ++ concat pre) false) rest in
   (st', (map (forwarded formatStreamPart callbacks) pre ++ outs)%list)).
Proof.
  revert st. induction pre as [|chunk pre IH]; intros st HF HI Hp.
  - cbn. rewrite app_nil_r. destruct st; cbn in *; subst.
    destruct (transform_all _ _ _ rest). reflexivity.
  - cbn in Hp. apply andb_true_iff in Hp as [Hc Hp].
    cbn [app transform_all]. unfold transform at 1. cbn [Frames.createChunkDecoder_simple].
    rewrite HF, HI. cbn [andb negb].
    unfold opensCall in Hc. apply negb_true_iff in Hc. rewrite Hc.
    rewrite IH by (cbn; auto). cbn [aggregatedResponse aggregatedFinalCompletionResponse].
    rewrite concat_cons, app_assoc.
    destruct (transform_all _ _ _ rest). reflexivity.
Qed.

(** The flags of the transformer stay opposite: a call is open exactly when
    the first call-opening chunk has been seen. *)
Lemma transform_all_flags (src : list string) (st st' : TransformerState) (outs : list string) :
  isFirstChunk st = negb (isFunctionStreamingIn' st) ->
  transform_all formatStreamPart callbacks st src = (st', outs) ->
  isFirstChunk st' = negb (isFunctionStreamingIn' st').
Proof.
  revert st st' outs. induction src as [|chunk src IH]; intros st st' outs H E.
  - cbn in E. now inversion E; subst.
  - cbn [transform_all] in E.
    destruct (transform _ _ st chunk) as [st1 o1] eqn:E1.
    destruct (transform_all _ _ st1 src) as [st2 o2] eqn:E2.
    inversion E; subst. apply (IH st1 st' o2); [|exact E2].
    unfold transform in E1. cbn [Frames.createChunkDecoder_simple] in E1.
    destruct (isFirstChunk st && _); [inversion E1; reflexivity|].
    destruct (isFunctionStreamingIn' st) eqn:EI; cbn in E1; inversion E1; cbn; rewrite ?EI; exact H.
Qed.
(** Every chunk goes to [aggregatedFinalCompletionResponse]. *)
Lemma transform_all_final (src : list string) (st st' : TransformerState) (outs : list string) :
  transform_all formatStreamPart callbacks st src = (st', outs) ->
  aggregatedFinalCompletionResponse st' = aggregatedFinalCompletionResponse st ++ concat src.
Proof.
  revert st st' outs. induction src as [|chunk src IH]; intros st st' outs E.
  - cbn in E. inversion E; subst. now rewrite app_nil_r.
  - cbn [transform_all] in E.
    destruct (transform _ _ st chunk) as [st1 o1] eqn:E1.
    destruct (transform_all _ _ st1 src) as [st2 o2] eqn:E2.
    inversion E; subst. rewrite (IH _ _ _ E2), concat_cons, <- app_assoc. f_equal.
    unfold transform in E1. cbn [Frames.createChunkDecoder_simple] in E1.
    destruct (isFirstChunk st && _); [inversion E1; reflexivity|].
    destruct (negb (isFunctionStreamingIn' st)); inversion E1; reflexivity.
Qed.
End TransformerFacts.

(** *** Projections of a trace *)

Lemma starts_app (a b : list Event) : starts (a ++ b)%list = starts a + starts b.
Proof. induction a as [|[] a IH]; cbn; auto. Qed.
Lemma finals_app (a b : list Event) : finals (a ++ b)%list = (finals a ++ finals b)%list.
Proof. induction a as [|[] a IH]; cbn; auto. now rewrite IH. Qed.
Lemma completions_app (a b : list Event) :
  completions (a ++ b)%list = (completions a ++ completions b)%list.
Proof. induction a as [|[] a IH]; cbn; auto. now rewrite IH. Qed.
Lemma tokens_app (a b : list Event) : tokens (a ++ b)%list = (tokens a ++ tokens b)%list.
Proof. induction a as [|[] a IH]; cbn; auto. now rewrite IH. Qed.
Lemma texts_app (a b : list Event) : texts (a ++ b)%list = (texts a ++ texts b)%list.
Proof. induction a as [|[] a IH]; cbn; auto. now rewrite IH. Qed.
Lemma continuations_app (a b : list Event) :
  continuations (a ++ b)%list = (continuations a ++ continuations b)%list.
Proof. induction a as [|[] a IH]; cbn; auto. now rewrite IH. Qed.

(** What [transform] of [createCallbacksTransformer] does with a list of
    messages. *)
Lemma callbacks_transform_spec (cb : OpenAIStreamCallbacks) (messages : list Message)
    (agg : string) :
  exists evs,
    callbacks_transform cb agg messages =
      (evs, map content_of messages, agg ++ concat (map content_of messages)) /\
    tokens evs = (if onToken cb then map content_of messages else []) /\
    texts evs = (if onText cb then text_messages messages else []) /\
    starts evs = 0 /\ finals evs = [] /\ completions evs = [] /\ continuations evs = [].
Proof.
  revert agg. induction messages as [|m messages IH]; intros agg.
  - exists []. cbn. rewrite app_nil_r. destruct (onToken cb), (onText cb); auto 10.
  - destruct (IH (agg ++ content_of m)) as (evs & E & T & X & S & F & C & R).
    eexists. cbn [callbacks_transform]. rewrite E. split.
    + cbn [map]. rewrite concat_cons, app_assoc. reflexivity.
    + rewrite !tokens_app, !texts_app, !starts_app, !finals_app, !completions_app,
        !continuations_app, T, X, S, F, C, R.
      destruct m, (onToken cb), (onText cb); cbn; auto 10.
Qed.

Lemma quiet_nil : quiet [].
Proof. repeat split. Qed.

Lemma quiet_app (a b : list Event) : quiet a -> quiet b -> quiet (a ++ b)%list.
Proof.
  intros (A1 & A2 & A3 & A4) (B1 & B2 & B3 & B4). unfold quiet.
  now rewrite starts_app, finals_app, completions_app, continuations_app,
    A1, A2, A3, A4, B1, B2, B3, B4.
Qed.

Lemma callFunctionHandler_quiet (h : FunctionCallHandler) (payload : JSONValue)
    (messages : list CreateMessage) :
  quiet (fst (callFunctionHandler h payload messages)).
Proof.
  unfold callFunctionHandler.
  destruct (get "function_call" payload); destruct (prop "arguments" _);
    try destruct (parse_any _); cbn; repeat split.
Qed.

Lemma callToolHandler_quiet (h : ToolCallHandler) (payload : JSONValue)
    (response : HandlerReturn) (messages : list CreateMessage) :
  quiet (fst (callToolHandler h payload response messages)).
Proof.
  unfold callToolHandler.
  destruct (toolCallsOf payload); [|apply quiet_nil].
  match goal with |- context [if ?b then _ else _] => destruct b end;
    [repeat split|].
  destruct (result _); repeat split.
Qed.

Section FlushFacts.
Variable formatStreamPart : StreamPartKind -> JSONValue -> string.
Variable recur : OpenAIStreamInput -> OpenAIStreamCallbacks -> option Run.

(** The two ways [flush] ends: in its own [finally], with the stream closed
    or errored; or by relaying a nested call. *)
Lemma flush_cases (cb : OpenAIStreamCallbacks) (st : TransformerState) (r : Run) :
  flush formatStreamPart recur cb st = Some r ->
  (exists evs final,
      quiet evs /\
      trace r = (evs ++ finally_ (onFinal cb) final)%list /\
      completion r = Some final /\
      ending (out r) <> Pending /\
      (final = aggregatedFinalCompletionResponse st \/
       chunks (out r) = [forwarded formatStreamPart cb final])) \/
  (exists evs res messages inner,
      quiet evs /\
      recur res (filteredCallbacks cb messages) = Some inner /\
      trace r = (evs ++ Recurse res :: trace inner)%list /\
      out r = out inner /\
      completion r = completion inner).
Proof.
  unfold flush. intros H.
  destruct (negb (isFirstChunk st) && isFunctionStreamingIn' st && _).
  2: { inversion H; subst; cbn. left. exists [], (aggregatedFinalCompletionResponse st).
       repeat split; try discriminate; auto. }
  destruct (parse (aggregatedResponse st)) as [payload|].
  2: { inversion H; subst; cbn. left. exists [], (aggregatedFinalCompletionResponse st).
       repeat split; try discriminate; auto. }
  set (R1 := match slot_value (experimental_onFunctionCall cb) with
             | Some h => callFunctionHandler h payload _
             | None => _ end) in H.
  assert (Q1 : quiet (fst R1)).
  { subst R1. destruct (slot_value _); [apply callFunctionHandler_quiet | apply quiet_nil]. }
  destruct R1 as [ev1 [e|[response1 messages1]]]; cbn [fst] in Q1.
  { inversion H; subst; cbn. left. exists ev1, (aggregatedFinalCompletionResponse st).
    repeat split; try apply Q1; try discriminate; auto. }
  set (R2 := match experimental_onToolCall cb with
             | Some h => callToolHandler h payload response1 messages1
             | None => _ end) in H.
  assert (Q2 : quiet (fst R2)).
  { subst R2. destruct (experimental_onToolCall cb);
      [apply callToolHandler_quiet | apply quiet_nil]. }
  destruct R2 as [ev2 [e|[functionResponse messages2]]]; cbn [fst] in Q2.
  { inversion H; subst; cbn. left. exists (ev1 ++ ev2)%list, (aggregatedFinalCompletionResponse st).
    repeat split; try apply (quiet_app _ _ Q1 Q2); try discriminate; auto. }
  destruct functionResponse as [|s|res].
  - inversion H; subst; cbn. left.
    exists (ev1 ++ ev2)%list, (aggregatedFinalCompletionResponse st).
    repeat split; try apply (quiet_app _ _ Q1 Q2); try discriminate; auto.
  - destruct s as [|c s].
    + inversion H; subst; cbn. left.
      exists (ev1 ++ ev2)%list, (aggregatedFinalCompletionResponse st).
      repeat split; try apply (quiet_app _ _ Q1 Q2); try discriminate; auto.
    + inversion H; subst; cbn. left. exists (ev1 ++ ev2)%list, (String c s).
      repeat split; try apply (quiet_app _ _ Q1 Q2); try discriminate; auto.
  - fold (filteredCallbacks cb messages2) in H.
    destruct (recur res (filteredCallbacks cb messages2)) as [inner|] eqn:E; [|discriminate].
    inversion H; subst; cbn. right. exists (ev1 ++ ev2)%list, res, messages2, inner.
    repeat split; try apply (quiet_app _ _ Q1 Q2); try exact E.
    rewrite <- !List.app_assoc. cbn. f_equal. f_equal.
    destruct (ending (out inner)); cbn; now rewrite List.app_nil_r.
Qed.
End FlushFacts.

Section TransformerCases.
Variable formatStreamPart : StreamPartKind -> JSONValue -> string.
Variable recur : OpenAIStreamInput -> OpenAIStreamCallbacks -> option Run.

(** The three ways the function-call stage ends: its source does not
    close and [flush] never runs; [flush] ends in its own [finally]; or
    [flush] relays a nested call. *)
Lemma createFunctionCallTransformer_cases (cb : OpenAIStreamCallbacks)
    (src : Stream string) (r : Run) :
  createFunctionCallTransformer formatStreamPart recur cb src = Some r ->
  (ending src <> Closed /\ trace r = [] /\ completion r = None /\
   ending (out r) = ending src) \/
  (ending src = Closed /\
   exists evs final,
     quiet evs /\
     trace r = (evs ++ finally_ (onFinal cb) final)%list /\
     completion r = Some final /\
     ending (out r) <> Pending /\
     (final = concat (chunks src) \/
      exists pre, chunks (out r) = (pre ++ [forwarded formatStreamPart cb final])%list)) \/
  (ending src = Closed /\
   exists evs res messages inner,
     quiet evs /\
     recur res (filteredCallbacks cb messages) = Some inner /\
     trace r = (evs ++ Recurse res :: trace inner)%list /\
     ending (out r) = ending (out inner) /\
     completion r = completion inner /\
     exists pre, chunks (out r) = (pre ++ chunks (out inner))%list).
Proof.
  unfold createFunctionCallTransformer.
  destruct (transform_all _ _ _ _) as [st outs] eqn:TA.
  pose proof (transform_all_final _ _ _ _ _ _ TA) as Fin. cbn in Fin.
  destruct (ending src) eqn:E.
  - destruct (flush _ _ _ _) as [r0|] eqn:F; [|discriminate].
    intros H. inversion H; subst; cbn. right.
    destruct (flush_cases _ _ _ _ _ F) as [(evs & final & Q & T & C & P & D) |
                                           (evs & res & ms & inner & Q & R & T & O & C)].
    + left. split; [reflexivity|]. exists evs, final.
      split; [exact Q|]. split; [exact T|]. split; [exact C|]. split; [exact P|].
      destruct D as [D|D]; [left; congruence | right; exists outs; now rewrite D].
    + right. split; [reflexivity|]. exists evs, res, ms, inner. rewrite O.
      split; [exact Q|]. split; [exact R|]. split; [exact T|]. split; [reflexivity|].
      split; [exact C|]. now exists outs.
  - intros H. inversion H; subst; cbn. left. repeat split. discriminate.
  - intros H. inversion H; subst; cbn. left. repeat split. discriminate.
Qed.
End TransformerCases.

Lemma createCallbacksTransformer_spec (cb : OpenAIStreamCallbacks) (src : Stream Message) :
  exists evs,
    createCallbacksTransformer cb src =
      (evs, mkStream (map content_of (chunks src)) (ending src)) /\
    starts evs = (if onStart cb then 1 else 0) /\
    finals evs =
      (if is_closed (ending src) && (onFinal cb && negb (isOfTypeOpenAIStreamCallbacks cb))
       then [concat (map content_of (chunks src))] else []) /\
    completions evs =
      (if is_closed (ending src) && onCompletion cb
       then [concat (map content_of (chunks src))] else []) /\
    continuations evs = [] /\
    tokens evs = (if onToken cb then map content_of (chunks src) else []) /\
    texts evs = (if onText cb then text_messages (chunks src) else []).
Proof.
  unfold createCallbacksTransformer.
  destruct (callbacks_transform_spec cb (chunks src) "") as (evs & E & T & X & S & F & C & R).
  rewrite E. eexists. split; [reflexivity|].
  rewrite !starts_app, !finals_app, !completions_app, !continuations_app,
    !tokens_app, !texts_app, T, X, S, F, C, R.
  unfold callbacks_flush, when.
  destruct (ending src), (onStart cb), (onCompletion cb), (onFinal cb),
    (isOfTypeOpenAIStreamCallbacks cb), (onToken cb), (onText cb);
    cbn; rewrite ?List.app_nil_r; auto 10.
Qed.

Section RunFacts.
Variable eventsource_parser : list string -> list (list SSEEvent).
Variable as_OpenAIStreamReturnTypes : JSONValue -> OpenAIStreamReturnTypes.
Variable formatStreamPart : StreamPartKind -> JSONValue -> string.
Variable createStreamDataTransformer : bool -> Stream string -> Stream string.

Abbreviation source' := (source eventsource_parser as_OpenAIStreamReturnTypes).
Abbreviation leg' := (leg eventsource_parser as_OpenAIStreamReturnTypes).
Abbreviation leg_text' := (leg_text eventsource_parser as_OpenAIStreamReturnTypes).
Abbreviation leg_closes' := (leg_closes eventsource_parser as_OpenAIStreamReturnTypes).
Abbreviation OpenAIStream' :=
  (OpenAIStream eventsource_parser as_OpenAIStreamReturnTypes formatStreamPart
     createStreamDataTransformer).

(** The first two stages of a leg: the stream does not depend on the
    hooks, [onStart] is called when the response reaches them,
    [onCompletion] when the stream closes, and [onFinal] is left to the
    function-call stage when there is a handler. *)
Lemma source_spec (res : OpenAIStreamInput) (cb : OpenAIStreamCallbacks) :
  exists evs,
    source' res cb = (evs, leg' res) /\
    starts evs = (if onStart cb && delivered res then 1 else 0) /\
    (hasHandler cb = true -> finals evs = []) /\
    completions evs = (if onCompletion cb && leg_closes' res then [leg_text' res] else []) /\
    continuations evs = [].
Proof.
  unfold leg_text, leg_closes, leg, source.
  set (cb1 := if hasHandler cb then withoutOnFinal cb else cb).
  assert (H1 : onStart cb1 = onStart cb) by (subst cb1; destruct (hasHandler cb); reflexivity).
  assert (H2 : onCompletion cb1 = onCompletion cb)
    by (subst cb1; destruct (hasHandler cb); reflexivity).
  assert (H3 : hasHandler cb = true -> onFinal cb1 = false)
    by (subst cb1; intros ->; reflexivity).
  cbn [hasHandler noCallbacks experimental_onFunctionCall experimental_onToolCall
       slot_value is_some orb].
  destruct res as [[[] b]|stream].
  - unfold AIStream. cbn [ok negb body].
    match goal with |- context [createCallbacksTransformer cb1 ?s] =>
      destruct (createCallbacksTransformer_spec cb1 s) as (evs & E & S & F & C & R & _);
      destruct (createCallbacksTransformer_spec noCallbacks s) as (evs0 & E0 & _)
    end.
    rewrite E, E0. exists evs. cbn [snd chunks ending delivered ok].
    rewrite S, F, C, R, H1, H2, andb_true_r.
    repeat split; auto.
    + intros Hh. rewrite (H3 Hh), andb_false_r. destruct (is_closed _); reflexivity.
    + rewrite andb_comm. reflexivity.
  - unfold AIStream. cbn [ok negb body delivered].
    rewrite andb_false_r.
    destruct b as [[|value more]|]; exists []; cbn; rewrite ?andb_false_r; auto.
  - match goal with |- context [createCallbacksTransformer cb1 ?s] =>
      destruct (createCallbacksTransformer_spec cb1 s) as (evs & E & S & F & C & R & _);
      destruct (createCallbacksTransformer_spec noCallbacks s) as (evs0 & E0 & _)
    end.
    rewrite E, E0. exists evs. cbn [snd chunks ending delivered is_closed andb] in *.
    rewrite S, F, C, R, H1, H2, !andb_true_r.
    repeat split; auto.
    intros Hh. rewrite (H3 Hh). reflexivity.
Qed.

Lemma hasHandler_filteredCallbacks (cb : OpenAIStreamCallbacks) (messages : list CreateMessage) :
  hasHandler (filteredCallbacks cb messages) = hasHandler cb.
Proof. reflexivity. Qed.

Lemma finally_finals (b : bool) (final : string) :
  finals (finally_ b final) = if b && nonempty final then [final] else [].
Proof. unfold finally_, when, nonempty. destruct (b && _); reflexivity. Qed.

(** What a call of [OpenAIStream] does with its hooks, whatever the number
    of nested calls. *)
Lemma OpenAIStream_spec (fuel : nat) :
  forall (res : OpenAIStreamInput) (cb : OpenAIStreamCallbacks) (r : Run),
  OpenAIStream' fuel res cb = Some r ->
  starts (trace r) = (if onStart cb && delivered res then 1 else 0) /\
  completions (trace r) =
    (if onCompletion cb
     then map leg_text' (filter leg_closes' (res :: continuations (trace r)))
     else []) /\
  (hasHandler cb = true ->
   finals (trace r) =
     match completion r with
     | Some s => if onFinal cb && nonempty s then [s] else []
     | None => []
     end /\
   (forall s, finals (trace r) = [s] -> exists pre, trace r = (pre ++ [OnFinal s])%list) /\
   (ending (out r) = Closed ->
    forallb leg_closes' (res :: continuations (trace r)) = true /\ completion r <> None)).
Proof.
  induction fuel as [|fuel IH]; intros res cb r H; [discriminate|].
  cbn [OpenAIStream] in H.
  destruct (source_spec res cb) as (evs & E & S & F & C & R).
  rewrite E in H.
  destruct (hasHandler cb) eqn:Hh.
  2: { inversion H; subst; cbn [trace out completion].
       rewrite S, C, R. split; [reflexivity|]. split; [|discriminate].
       cbn [filter]. destruct (onCompletion cb), (leg_closes' res); reflexivity. }
  destruct (createFunctionCallTransformer _ _ cb (leg' res)) as [r0|] eqn:T; [|discriminate].
  inversion H; subst; clear H. cbn [trace out completion].
  rewrite starts_app, completions_app, finals_app, continuations_app, S, C, R, (F eq_refl).
  cbn [app].
  destruct (createFunctionCallTransformer_cases _ _ _ _ _ T)
    as [(N & T0 & C0 & O) | [(Cl & evs' & final & Q & T0 & C0 & P & _)
                            | (Cl & evs' & res' & ms & inner & Q & Rc & T0 & O & C0 & _)]].
  - rewrite T0, C0. cbn.
    assert (Hc : leg_closes' res = false).
    { unfold leg_closes. destruct (ending (leg' res)); [contradiction| |]; reflexivity. }
    rewrite Hc, andb_false_r, Nat.add_0_r.
    repeat split; auto.
    all: try discriminate.
    all: try (match goal with H' : ending (out _) = Closed |- _ =>
                rewrite O in H'; contradiction end).
    destruct (onCompletion cb); reflexivity.
  - destruct Q as (Q1 & Q2 & Q3 & Q4).
    assert (Hc : leg_closes' res = true) by (unfold leg_closes; now rewrite Cl).
    rewrite T0, C0, starts_app, completions_app, finals_app, continuations_app,
      Q1, Q2, Q3, Q4, finally_finals, Hc, andb_true_r.
    assert (Z : forall b s, starts (finally_ b s) = 0 /\ completions (finally_ b s) = []
                            /\ continuations (finally_ b s) = []).
    { intros b s. unfold finally_, when. destruct (b && _); auto. }
    destruct (Z (onFinal cb) final) as (Z1 & Z2 & Z3). rewrite Z1, Z2, Z3.
    cbn. rewrite Hc. repeat split; auto.
    all: try discriminate.
    + destruct (onCompletion cb); reflexivity.
    + intros s Hs. unfold finally_, when in *.
      destruct (onFinal cb && nonempty final) eqn:B; [|discriminate].
      unfold nonempty in B. rewrite B. inversion Hs; subst.
      exists (evs ++ evs')%list. now rewrite <- List.app_assoc.
  - destruct Q as (Q1 & Q2 & Q3 & Q4).
    assert (Hc : leg_closes' res = true) by (unfold leg_closes; now rewrite Cl).
    destruct (IH _ _ _ Rc) as (IS & IC & IF).
    rewrite hasHandler_filteredCallbacks in IF. destruct (IF Hh) as (IF1 & IF2 & IF3).
    cbn [filteredCallbacks onStart onCompletion onFinal andb] in *.
    rewrite T0, C0, starts_app, completions_app, finals_app, continuations_app,
      Q1, Q2, Q3, Q4, Hc, andb_true_r.
    cbn [starts completions finals continuations app filter forallb andb].
    rewrite IS, IC, IF1, Hc, Nat.add_0_r. cbn [filter] in *.
    repeat split; auto.
    + destruct (onCompletion cb); reflexivity.
    + intros s Hs. rewrite <- IF1 in Hs. destruct (IF2 s Hs) as (pre & Hp).
      exists (evs ++ evs' ++ Recurse res' :: pre)%list.
      rewrite Hp, <- !List.app_assoc. reflexivity.
    + apply IF3. congruence.
    + apply IF3. congruence.
Qed.

Lemma last_cons {A} (x d : A) (l : list A) : last (x :: l) d = last l x.
Proof.
  revert x d. induction l as [|y l IH]; intros x d; [reflexivity|].
  change (last (x :: y :: l) d) with (last (y :: l) d).
  now rewrite (IH y d), (IH y x).
Qed.

(** The text that the last leg holds in its [finally] is the text that leg
    aggregated, unless the handler answered the call with a string, which
    is then that text and the last chunk of the stream. *)
Lemma completion_text (fuel : nat) :
  forall (res : OpenAIStreamInput) (cb : OpenAIStreamCallbacks) (r : Run) (s : string),
  hasHandler cb = true ->
  OpenAIStream' fuel res cb = Some r ->
  completion r = Some s ->
  s = leg_text' (last (continuations (trace r)) res) \/
  exists pre, chunks (out r) = (pre ++ [forwarded formatStreamPart cb s])%list.
Proof.
  induction fuel as [|fuel IH]; intros res cb r s Hh H Hs; [discriminate|].
  cbn [OpenAIStream] in H.
  destruct (source_spec res cb) as (evs & E & _ & _ & _ & R).
  rewrite E, Hh in H.
  destruct (createFunctionCallTransformer _ _ cb (leg' res)) as [r0|] eqn:T; [|discriminate].
  inversion H; subst; clear H. cbn [trace out completion] in *.
  rewrite continuations_app, R. cbn [app].
  destruct (createFunctionCallTransformer_cases _ _ _ _ _ T)
    as [(N & T0 & C0 & O) | [(Cl & evs' & final & Q & T0 & C0 & P & D)
                            | (Cl & evs' & res' & ms & inner & Q & Rc & T0 & O & C0 & PB)]].
  - congruence.
  - destruct Q as (_ & _ & _ & Q4).
    rewrite C0 in Hs. inversion Hs; subst final.
    destruct D as [D|D]; [left | right; exact D].
    rewrite T0, continuations_app, Q4. unfold finally_, when.
    destruct (onFinal cb && _); exact D.
  - destruct Q as (_ & _ & _ & Q4).
    rewrite C0 in Hs.
    rewrite T0, continuations_app, Q4. cbn [app continuations]. rewrite last_cons.
    destruct (IH res' (filteredCallbacks cb ms) inner s Hh Rc Hs) as [L|(pre & L)];
      [left; exact L | right].
    change (forwarded formatStreamPart (filteredCallbacks cb ms) s)
      with (forwarded formatStreamPart cb s) in L.
    destruct PB as (pre0 & PB). exists (pre0 ++ pre)%list.
    rewrite PB, L, <- List.app_assoc. reflexivity.
Qed.
End RunFacts.

Section DeclinedFacts.
Variable formatStreamPart : StreamPartKind -> JSONValue -> string.
Variable recur : OpenAIStreamInput -> OpenAIStreamCallbacks -> option Run.

Lemma parse_undefined : parse "undefined" = None.
Proof. vm_compute. reflexivity. Qed.

Lemma arguments_of_object (function_call : JSONValue) (arguments : option JSONValue)
    (argumentsPayload : JSONValue) :
  prop "arguments" (Some function_call) = Some arguments ->
  parse_any arguments = Some argumentsPayload ->
  js_truthy (Some function_call) = true.
Proof.
  destruct function_call; cbn; intros H P; try discriminate;
    try (inversion H; subst; cbn in P; rewrite parse_undefined in P; discriminate).
  reflexivity.
Qed.

Lemma flush_declined (cb : OpenAIStreamCallbacks) (st : TransformerState)
    (payload : JSONValue) (kind : StreamPartKind) :
  Declined cb payload kind ->
  isFirstChunk st = false -> isFunctionStreamingIn' st = true ->
  parse (aggregatedResponse st) = Some payload ->
  exists evs,
    quiet evs /\
    flush formatStreamPart recur cb st =
      Some (mkRun (evs ++ finally_ (onFinal cb) (aggregatedFinalCompletionResponse st))%list
              (mkStream [if experimental_streamData cb
                         then formatStreamPart kind payload
                         else aggregatedResponse st] Closed)
              (Some (aggregatedFinalCompletionResponse st))).
Proof.
  intros D HF HI HP. unfold flush. rewrite HF, HI, HP. cbn [negb andb].
  destruct D as [h fc args ap r Hfn Htl Hfc Hargs Hap Hres Hfalsy
                | h ts Hfn Htl Hfc Hts Hres].
  - rewrite Hfn, Htl. cbn [slot_value is_some orb].
    pose proof (callFunctionHandler_quiet h payload (messagesOf cb)) as Q.
    unfold callFunctionHandler in *. fold (messagesOf cb).
    rewrite Hfc, Hargs, Hap in *. rewrite Hres in *. cbn [fst] in Q.
    unfold callFrame. rewrite Hfc, (arguments_of_object _ _ _ Hargs Hap).
    eexists. split; [exact Q|].
    destruct r as [|[|c s]|res]; try discriminate Hfalsy;
      rewrite List.app_nil_r; reflexivity.
  - rewrite Hfn, Htl. cbn [is_some orb].
    pose proof (callToolHandler_quiet h payload RetUndefined (messagesOf cb)) as Q.
    unfold callToolHandler in *. fold (messagesOf cb).
    rewrite Hts in *. unfold callFrame. rewrite Hfc. cbn [js_truthy].
    destruct (match get "tool_calls" payload with
              | Some (JArray _) => false
              | _ => existsb is_some _ end).
    + eexists. split; [exact Q|]. reflexivity.
    + destruct (result (h (mkToolCallPayload ts) (messagesOf cb))) as [r|e] eqn:Er.
      * specialize (Hres r eq_refl). cbn [fst] in Q.
        eexists. split; [exact Q|].
        destruct r as [|[|c s]|res]; try discriminate Hres; reflexivity.
      * eexists. split; [exact Q|]. reflexivity.
Qed.
End DeclinedFacts.

Lemma filter_all {A} (p : A -> bool) (l : list A) : forallb p l = true -> filter p l = l.
Proof.
  induction l as [|x l IH]; cbn; [reflexivity|].
  intros H. apply andb_true_iff in H as [Hx Hl]. now rewrite Hx, IH.
Qed.

Section Claims.
Variable eventsource_parser : list string -> list (list SSEEvent).
Variable as_OpenAIStreamReturnTypes : JSONValue -> OpenAIStreamReturnTypes.
Variable formatStreamPart : StreamPartKind -> JSONValue -> string.
Variable createStreamDataTransformer : bool -> Stream string -> Stream string.

Abbreviation OpenAIStream' :=
  (OpenAIStream eventsource_parser as_OpenAIStreamReturnTypes formatStreamPart
     createStreamDataTransformer).
Abbreviation leg_text' := (leg_text eventsource_parser as_OpenAIStreamReturnTypes).
Abbreviation leg_closes' := (leg_closes eventsource_parser as_OpenAIStreamReturnTypes).

(** C1, as amended.  For a stream made by [OpenAIStream] with a function or
    tool handler, whatever the number of nested continuations: [onStart] is
    called once when it is set and the outermost response reaches the
    callback stage (an async iterable or an ok response), and never by a
    nested call; [onFinal] is called at most once, by the [finally] of the
    leg that does not recurse, with the text that leg has accumulated, and
    it is called exactly when it is set and that text is not empty; when it
    is called it is the last effect of the run; a run that closes has
    reached that [finally]; and the accumulated text is the concatenation
    of the chunks of the last leg, or else the string the handler returned,
    which is then the last chunk of the output. *)
Theorem C1_lifecycle (fuel : nat) (res : OpenAIStreamInput) (cb : OpenAIStreamCallbacks)
    (r : Run) :
  hasHandler cb = true ->
  OpenAIStream' fuel res cb = Some r ->
  starts (trace r) = (if onStart cb && delivered res then 1 else 0) /\
  finals (trace r) =
    match completion r with
    | Some s => if onFinal cb && nonempty s then [s] else []
    | None => []
    end /\
  (forall s, finals (trace r) = [s] -> exists pre, trace r = (pre ++ [OnFinal s])%list) /\
  (ending (out r) = Closed -> completion r <> None) /\
  (forall s, completion r = Some s ->
   s = leg_text' (last (continuations (trace r)) res) \/
   exists pre, chunks (out r) = (pre ++ [forwarded formatStreamPart cb s])%list).
Proof.
  intros Hh H.
  destruct (OpenAIStream_spec _ _ _ _ fuel res cb r H) as (S & _ & F).
  destruct (F Hh) as (F1 & F2 & F3).
  split; [exact S|]. split; [exact F1|]. split; [exact F2|].
  split; [intros Hc; apply (F3 Hc)|].
  intros s Hs. exact (completion_text _ _ _ _ fuel res cb r s Hh H Hs).
Qed.

(** C10, as amended.  [onCompletion] is kept in the callbacks of the nested
    calls: when it is set, it is called once for every leg whose stream
    closes, in order, with the text that leg aggregated, and for no other
    leg; and in a run with a handler that closes, every leg closes, so with
    N continuations it is called N + 1 times. *)
Theorem C10_onCompletion_on_every_leg (fuel : nat) (res : OpenAIStreamInput)
    (cb : OpenAIStreamCallbacks) (r : Run) :
  onCompletion cb = true ->
  OpenAIStream' fuel res cb = Some r ->
  completions (trace r) =
    map leg_text' (filter leg_closes' (res :: continuations (trace r))) /\
  (hasHandler cb = true -> ending (out r) = Closed ->
   completions (trace r) = map leg_text' (res :: continuations (trace r)) /\
   List.length (completions (trace r)) = S (List.length (continuations (trace r)))).
Proof.
  intros Hc H.
  destruct (OpenAIStream_spec _ _ _ _ fuel res cb r H) as (_ & C & F).
  rewrite Hc in C. split; [exact C|].
  intros Hh Hcl. destruct (F Hh) as (_ & _ & F3). destruct (F3 Hcl) as (A & _).
  rewrite C, (filter_all _ _ A). split; [reflexivity|].
  now rewrite length_map.
Qed.

(** C8, as amended.  When a call has been opened, its aggregated text
    parses, and the handler for its kind is the one configured and leaves
    it unanswered, the function-call stage emits, after the chunks it had
    forwarded before the call, exactly one chunk for the call (in
    multiplexed mode the part of the call's kind, otherwise the aggregated
    text as it is), closes, and makes no nested call. *)
Theorem C8_declined_call (recur : OpenAIStreamInput -> OpenAIStreamCallbacks -> option Run)
    (cb : OpenAIStreamCallbacks) (src : list string) (st : TransformerState)
    (outs : list string) (payload : JSONValue) (kind : StreamPartKind) :
  transform_all formatStreamPart cb initialTransformer src = (st, outs) ->
  isFirstChunk st = false ->
  parse (aggregatedResponse st) = Some payload ->
  Declined cb payload kind ->
  exists r,
    createFunctionCallTransformer formatStreamPart recur cb (mkStream src Closed) = Some r /\
    out r = mkStream (outs ++ [if experimental_streamData cb
                               then formatStreamPart kind payload
                               else aggregatedResponse st])%list Closed /\
    continuations (trace r) = [].
Proof.
  intros T HF HP D.
  assert (HI : isFunctionStreamingIn' st = true).
  { pose proof (transform_all_flags _ _ _ initialTransformer _ _ eq_refl T) as Fl.
    rewrite HF in Fl. now destruct (isFunctionStreamingIn' st). }
  destruct (flush_declined formatStreamPart recur cb st payload kind D HF HI HP)
    as (evs & (Q1 & Q2 & Q3 & Q4) & E).
  unfold createFunctionCallTransformer. cbn [chunks ending]. rewrite T, E.
  eexists. split; [reflexivity|]. cbn [out trace chunks ending]. split; [reflexivity|].
  rewrite continuations_app, Q4. unfold finally_, when.
  destruct (onFinal cb && _); reflexivity.
Qed.

(** C9, as amended.  From the first chunk that opens a call, the
    function-call stage forwards nothing: the chunks before it are
    forwarded, the opening chunk and all that follow are appended to the
    call buffer.  In the callback stage, [onToken] is called with the
    content of every message, those of a call included, and [onText] with
    the text messages only. *)
Theorem C9_call_fragments_are_buffered (cb : OpenAIStreamCallbacks)
    (pre : list string) (opening : string) (post : list string) (messages : list Message) :
  forallb (fun c => negb (opensCall c)) pre = true ->
  opensCall opening = true ->
  (let '(st, outs) :=
     transform_all formatStreamPart cb initialTransformer (pre ++ opening :: post) in
   outs = map (forwarded formatStreamPart cb) pre /\
   aggregatedResponse st = concat (opening :: post) /\
   isFunctionStreamingIn' st = true) /\
  (let evs := fst (createCallbacksTransformer cb (mkStream messages Closed)) in
   tokens evs = (if onToken cb then map content_of messages else []) /\
   texts evs = (if onText cb then text_messages messages else [])).
Proof.
  intros Hp Ho. split.
  - rewrite (transform_all_before_call formatStreamPart cb pre (opening :: post)
               initialTransformer eq_refl eq_refl Hp).
    cbn [transform_all initialTransformer aggregatedResponse
         aggregatedFinalCompletionResponse].
    unfold transform at 1. cbn [Frames.createChunkDecoder_simple isFirstChunk andb].
    unfold opensCall in Ho. rewrite Ho.
    match goal with |- context [transform_all _ _ ?s post] =>
      destruct (transform_all_in_call formatStreamPart cb post s eq_refl)
        as (st' & E & I & _ & A & _)
    end.
    rewrite E, List.app_nil_r. cbn [app]. rewrite A. cbn [aggregatedResponse].
    repeat split; auto.
  - destruct (createCallbacksTransformer_spec cb (mkStream messages Closed))
      as (evs & E & _ & _ & _ & _ & T & X).
    rewrite E. cbn [fst chunks] in *. auto.
Qed.
End Claims.

(** *** Samples of the statements above *)

(** The sample call under a handler that continues twice. *)
Lemma C1_lifecycle_witness :
  starts (trace continuedRun) = 1 /\
  finals (trace continuedRun) = ["It is sunny."] /\
  (forall s, finals (trace continuedRun) = [s] ->
   exists pre, trace continuedRun = (pre ++ [OnFinal s])%list) /\
  (ending (out continuedRun) = Closed -> completion continuedRun <> None) /\
  (forall s, completion continuedRun = Some s ->
   s = leg_text no_events no_cast
         (last (continuations (trace continuedRun)) (FromAsyncIterable callOfF)) \/
   exists pre,
     chunks (out continuedRun) =
       (pre ++ [forwarded render (hooks (Present continues) None) s])%list).
Proof.
  apply (C1_lifecycle no_events no_cast render pass_on 3
           (FromAsyncIterable callOfF) (hooks (Present continues) None) continuedRun).
  - reflexivity.
  - vm_compute. reflexivity.
Defined.

(** C1 as stated fails: on a stream without text, with a handler and every
    hook set, the run closes, [onStart] is called once and [onFinal] is not
    called at all, because [finally] skips it for an empty text. *)
Lemma C1_onFinal_skipped_on_empty_text :
  exists r,
    runOpenAIStream 1 (FromAsyncIterable []) (hooks (Present declines) None) = Some r /\
    ending (out r) = Closed /\
    starts (trace r) = 1 /\
    finals (trace r) = [].
Proof. eexists. split; [vm_compute; reflexivity|]. repeat split. Qed.

(** The sample call under a handler that continues twice: three legs, all
    of which close, and three calls of [onCompletion]. *)
Lemma C10_onCompletion_on_every_leg_witness :
  List.length (continuations (trace continuedRun)) = 2 /\
  completions (trace continuedRun) =
    map (leg_text no_events no_cast)
      (filter (leg_closes no_events no_cast)
         (FromAsyncIterable callOfF :: continuations (trace continuedRun))) /\
  completions (trace continuedRun) =
    map (leg_text no_events no_cast)
      (FromAsyncIterable callOfF :: continuations (trace continuedRun)) /\
  completions (trace continuedRun) =
    [concat callOfF_chunks; concat callOfF_chunks; "It is sunny."] /\
  List.length (completions (trace continuedRun)) = 3.
Proof.
  assert (Hc : onCompletion (hooks (Present continues) None) = true) by reflexivity.
  assert (Hr : runOpenAIStream 3 (FromAsyncIterable callOfF) (hooks (Present continues) None)
               = Some continuedRun) by (vm_compute; reflexivity).
  assert (Hh : hasHandler (hooks (Present continues) None) = true) by reflexivity.
  assert (He : ending (out continuedRun) = Closed) by (vm_compute; reflexivity).
  destruct (C10_onCompletion_on_every_leg no_events no_cast render pass_on 3
              (FromAsyncIterable callOfF) (hooks (Present continues) None) continuedRun
              Hc Hr) as [A B].
  destruct (B Hh He) as [B1 B2].
  split; [vm_compute; reflexivity|]. split; [exact A|]. split; [exact B1|].
  split; [vm_compute; reflexivity|].
  rewrite B2. vm_compute. reflexivity.
Defined.

(** C10 as stated fails: when the handler continues with a response that is
    not ok, the run has one continuation and [onCompletion] is called once,
    for the first leg only.  For such a response [AIStream] returns an
    errored stream before the callback stage is made, so the nested call
    has no [flush] to call the hook, and the stream ends errored. *)
Lemma C10_continuation_that_is_not_ok :
  exists r,
    runOpenAIStream 2 (FromAsyncIterable callOfF) (hooks (Present continuesNotOk) None)
    = Some r /\
    continuations (trace r) = [FromResponse longErrorResponse] /\
    completions (trace r) = [concat callOfF_chunks] /\
    ending (out r) = Errored (ResponseError "Response error: Rate limit").
Proof. eexists. split; [vm_compute; reflexivity|]. repeat split. Qed.

Lemma C8_declined_call_witness :
  exists r,
    createFunctionCallTransformer render (fun _ _ => None)
      (hooks (Present declines) None) (mkStream ("Hello" :: callOfF_chunks) Closed) = Some r /\
    out r = mkStream (["Hello"] ++ [concat callOfF_chunks])%list Closed /\
    continuations (trace r) = [].
Proof.
  apply (C8_declined_call render (fun _ _ => None) (hooks (Present declines) None)
           ("Hello" :: callOfF_chunks)
           (mkTransformer false (concat callOfF_chunks) (concat ("Hello" :: callOfF_chunks)) true)
           ["Hello"] callOfF_json part_function_call).
  - vm_compute. reflexivity.
  - reflexivity.
  - vm_compute. reflexivity.
  - eapply Declined_function; reflexivity.
Defined.

(** C8 as stated fails.  A round of tool calls, with a function handler as
    the only handler, so no handler for its kind: no chunk is emitted and
    the stream is errored with the [TypeError] of reading
    [payload.function_call.arguments].  And outside multiplexed mode the one
    chunk emitted for a declined call is the aggregated text as it is, which
    is not a frame of the call kind. *)
Lemma C8_handler_of_the_other_kind :
  (exists r,
     runOpenAIStream 1 (FromAsyncIterable twoTools) (hooks (Present declines) None) = Some r /\
     out r = mkStream [] (Errored TypeError)) /\
  (exists r,
     runOpenAIStream 1 (FromAsyncIterable callOfF) (hooks (Present declines) None) = Some r /\
     out r = mkStream [concat callOfF_chunks] Closed /\
     Frames.isStreamStringEqualToType Frames.function_call (concat callOfF_chunks) = false).
Proof.
  split; eexists; (split; [vm_compute; reflexivity|]).
  - reflexivity.
  - split; vm_compute; reflexivity.
Qed.

Lemma C9_call_fragments_are_buffered_witness :
  (let '(st, outs) :=
     transform_all render (hooks (Present declines) None) initialTransformer
       (["Hello"] ++ callOfF_opening :: callOfF_rest) in
   outs = map (forwarded render (hooks (Present declines) None)) ["Hello"] /\
   aggregatedResponse st = concat (callOfF_opening :: callOfF_rest) /\
   isFunctionStreamingIn' st = true) /\
  (let evs := fst (createCallbacksTransformer (hooks (Present declines) None)
                     (mkStream (streamable callOfF) Closed)) in
   tokens evs = (if onToken (hooks (Present declines) None)
                 then map content_of (streamable callOfF) else []) /\
   texts evs = (if onText (hooks (Present declines) None)
                then text_messages (streamable callOfF) else [])).
Proof.
  apply (C9_call_fragments_are_buffered render (hooks (Present declines) None)
           ["Hello"] callOfF_opening callOfF_rest
           (streamable callOfF)); reflexivity.
Defined.

(** C9 as stated fails: the fragment [}] of the sample call belongs to the
    call in progress and is not forwarded, yet [onToken] is called with
    it. *)
Lemma C9_onToken_is_called_for_call_fragments :
  exists r,
    runOpenAIStream 1 (FromAsyncIterable callOfF) (hooks (Present declines) None) = Some r /\
    In (OnToken "}") (trace r) /\
    In "}" callOfF_chunks /\
    snd (transform_all render (hooks (Present declines) None) initialTransformer
           callOfF_chunks) = [].
Proof.
  eexists. split; [vm_compute; reflexivity|].
  split; [cbn; tauto|]. split; [vm_compute; tauto|]. vm_compute. reflexivity.
Qed.

(** Without a handler the function-call stage is not part of the pipeline:
    the chunks of the callback stage, the fragments of a call among them,
    one chunk each, go to [createStreamDataTransformer] as they are. *)
Lemma no_handler_no_aggregation
    (eventsource_parser : list string -> list (list SSEEvent))
    (as_OpenAIStreamReturnTypes : JSONValue -> OpenAIStreamReturnTypes)
    (formatStreamPart : StreamPartKind -> JSONValue -> string)
    (createStreamDataTransformer : bool -> Stream string -> Stream string)
    (fuel : nat) (res : OpenAIStreamInput) (cb : OpenAIStreamCallbacks) :
  hasHandler cb = false ->
  option_map out
    (OpenAIStream eventsource_parser as_OpenAIStreamReturnTypes formatStreamPart
       createStreamDataTransformer (S fuel) res cb)
  = Some (createStreamDataTransformer (experimental_streamData cb)
            (leg eventsource_parser as_OpenAIStreamReturnTypes res)) /\
  leg eventsource_parser as_OpenAIStreamReturnTypes (FromAsyncIterable callOfF)
  = mkStream callOfF_chunks Closed.
Proof.
  intros H. split; [|reflexivity]. cbn [OpenAIStream].
  destruct (source_spec eventsource_parser as_OpenAIStreamReturnTypes res cb) as (evs & E & _).
  rewrite E, H. reflexivity.
Qed.

(** *** Handlers that throw (C6) *)

(** A throw of the tool handler is caught: it never leaves the handling
    part of [flush]. *)
Lemma callToolHandler_catches (h : ToolCallHandler) (payload : JSONValue)
    (response : HandlerReturn) (messages : list CreateMessage) (e : string) :
  snd (callToolHandler h payload response messages) <> inl (HandlerError e).
Proof.
  unfold callToolHandler. destruct (toolCallsOf payload); [|discriminate].
  match goal with |- context [if ?b then _ else _] => destruct b end; [discriminate|].
  destruct (result _); discriminate.
Qed.

(** A throw of the function handler is not: it leaves [flush]. *)
Lemma callFunctionHandler_rethrows (h : FunctionCallHandler) (payload function_call : JSONValue)
    (arguments : option JSONValue) (argumentsPayload : JSONValue)
    (messages : list CreateMessage) (e : string) :
  get "function_call" payload = Some function_call ->
  prop "arguments" (Some function_call) = Some arguments ->
  parse_any arguments = Some argumentsPayload ->
  result (h (mkFunctionCallPayload
               (match prop "name" (Some function_call) with Some n => n | None => None end)
               argumentsPayload) messages) = Throws e ->
  snd (callFunctionHandler h payload messages) = inl (HandlerError e).
Proof.
  intros H1 H2 H3 H4. unfold callFunctionHandler. rewrite H1, H2, H3, H4. reflexivity.
Qed.

(** C6, the input on which the code departs from the claim: when the
    function handler throws on the sample call, no chunk is emitted and the
    stream is errored, whereas a handler that returns no result gives the
    one chunk of the call and a closed stream; a tool handler that throws is
    caught, and the stream is the one of a tool handler that returns no
    result. *)
Theorem C6_function_handler_throw_errors_the_stream :
  option_map out (runOpenAIStream 1 (FromAsyncIterable callOfF) (hooks (Present throws) None))
  = Some (mkStream [] (Errored (HandlerError "boom"))) /\
  option_map out (runOpenAIStream 1 (FromAsyncIterable callOfF) (hooks (Present declines) None))
  = Some (mkStream [concat callOfF_chunks] Closed) /\
  option_map out (runOpenAIStream 1 (FromAsyncIterable twoTools) (hooks Absent (Some toolThrows)))
  = option_map out
      (runOpenAIStream 1 (FromAsyncIterable twoTools) (hooks Absent (Some toolDeclines))).
Proof. repeat split; vm_compute; reflexivity. Qed.

(** *** Responses that are not ok (C7) *)

(** What [AIStream] returns for a response that is not ok. *)
Lemma AIStream_not_ok (eventsource_parser : list string -> list (list SSEEvent)) (S : Type)
    (response : Response) (customParser : option (AIStreamParser S)) (st : S)
    (callbacks : OpenAIStreamCallbacks) :
  ok response = false ->
  AIStream eventsource_parser response customParser st callbacks =
  ([], mkStream []
         match body response with
         | Some (value :: _) => Errored (ResponseError ("Response error: " ++ value))
         | Some [] => Pending
         | None => Errored (ResponseError "Response error: No response body")
         end).
Proof.
  intros H. unfold AIStream. rewrite H. cbn [negb].
  destruct (body response) as [[|value more]|]; reflexivity.
Qed.

(** C7, the inputs on which the code departs from the claim: for a response
    that is not ok and whose body closes without a chunk, the stream
    returned neither errors nor closes; and for a body of several chunks
    the error carries the text of the first chunk only. *)
Theorem C7_error_body_without_chunks :
  forall (eventsource_parser : list string -> list (list SSEEvent)) (S : Type)
         (customParser : option (AIStreamParser S)) (st : S)
         (callbacks : OpenAIStreamCallbacks),
    AIStream eventsource_parser emptyErrorResponse customParser st callbacks
    = ([], mkStream [] Pending) /\
    AIStream eventsource_parser longErrorResponse customParser st callbacks
    = ([], mkStream [] (Errored (ResponseError "Response error: Rate limit"))).
Proof. intros. split; reflexivity. Qed.

(** *** Runs of every length *)

(** A leg that answers in text: no nested call. *)
Lemma text_leg (fuel : nat) (cb : OpenAIStreamCallbacks) :
  hasHandler cb = true ->
  exists r,
    runOpenAIStream (S fuel) (FromAsyncIterable [contentDelta "Done."]) cb = Some r /\
    continuations (trace r) = [] /\
    ending (out r) = Closed /\
    completion r = Some "Done.".
Proof.
  intros Hh. unfold runOpenAIStream. cbn [OpenAIStream].
  destruct (source_spec no_events no_cast (FromAsyncIterable [contentDelta "Done."]) cb)
    as (evs & E & _ & _ & _ & R).
  rewrite E, Hh.
  replace (leg no_events no_cast (FromAsyncIterable [contentDelta "Done."]))
    with (mkStream ["Done."] Closed) by (vm_compute; reflexivity).
  unfold createFunctionCallTransformer. cbn [chunks ending].
  change ["Done."] with (["Done."] ++ [])%list at 1.
  rewrite (transform_all_before_call render cb ["Done."] [] initialTransformer
             eq_refl eq_refl eq_refl).
  cbn [transform_all initialTransformer aggregatedResponse aggregatedFinalCompletionResponse
       concat fold_right append].
  unfold flush. cbn [isFirstChunk negb andb aggregatedFinalCompletionResponse].
  eexists. split; [reflexivity|]. cbn [trace out completion ending].
  rewrite continuations_app, R. unfold finally_, when.
  destruct (onFinal cb && _); auto.
Qed.

(** A leg on which the model calls [f] and the handler answers with a
    response: the run goes on with the nested call on that response. *)
Lemma call_leg (fuel : nat) (cb : OpenAIStreamCallbacks) (h : FunctionCallHandler)
    (calls : list JSONValue) (res : OpenAIStreamInput) (inner : Run) :
  experimental_onFunctionCall cb = Present h ->
  experimental_onToolCall cb = None ->
  h (mkFunctionCallPayload (Some (JString "f")) (JObject [("a", JNumber "1")])) (messagesOf cb)
  = mkHandlerRun calls (Returns (RetStreamable res)) ->
  runOpenAIStream fuel res
    (filteredCallbacks cb
       (fold_left (fun _ r =>
                     createFunctionCallMessages (get "function_call" callOfF_json)
                       (messagesOf cb) r) calls (messagesOf cb))) = Some inner ->
  exists r,
    runOpenAIStream (S fuel) (FromAsyncIterable callOfF) cb = Some r /\
    continuations (trace r) = res :: continuations (trace inner) /\
    ending (out r) = ending (out inner) /\
    completion r = completion inner.
Proof.
  intros Hf Ht Hh Hi. unfold runOpenAIStream in *. cbn [OpenAIStream].
  assert (Hhas : hasHandler cb = true) by (unfold hasHandler; now rewrite Hf).
  destruct (source_spec no_events no_cast (FromAsyncIterable callOfF) cb)
    as (evs & E & _ & _ & _ & R).
  rewrite E, Hhas.
  unfold createFunctionCallTransformer.
  change (chunks (leg no_events no_cast (FromAsyncIterable callOfF))) with callOfF_chunks.
  change (ending (leg no_events no_cast (FromAsyncIterable callOfF))) with Closed.
  change (transform_all render cb initialTransformer callOfF_chunks)
    with (mkTransformer false (concat callOfF_chunks) (concat callOfF_chunks) true,
          @nil string).
  unfold flush. cbn [isFirstChunk isFunctionStreamingIn' aggregatedResponse negb andb
                     aggregatedFinalCompletionResponse].
  rewrite Hf, Ht. cbn [slot_value is_some orb].
  replace (parse (concat callOfF_chunks)) with (Some callOfF_json)
    by (vm_compute; reflexivity).
  fold (messagesOf cb).
  unfold callFunctionHandler.
  change (get "function_call" callOfF_json)
    with (Some (JObject [("name", JString "f"); ("arguments", JString ("{" ++ q "a" ++ ":1}"))])).
  cbn [prop lookup String.eqb Ascii.eqb Bool.eqb].
  replace (parse_any (Some (JString ("{" ++ q "a" ++ ":1}"))))
    with (Some (JObject [("a", JNumber "1")])) by (vm_compute; reflexivity).
  rewrite Hh. cbn [result closure_calls].
  change (Some (JObject [("name", JString "f"); ("arguments", JString ("{" ++ q "a" ++ ":1}"))]))
    with (get "function_call" callOfF_json).
  rewrite Hi.
  eexists. split; [reflexivity|]. cbn [trace out completion].
  rewrite !continuations_app, R. cbn [continuations app].
  assert (Z : continuations (match ending (out inner) with
                             | Pending => [] | _ => finally_ false (concat callOfF_chunks)
                             end) = []) by (destruct (ending (out inner)); reflexivity).
  rewrite Z, List.app_nil_r. auto.
Qed.

(** From leg [k] on, a run under [continuesFor n] makes [n - k] nested
    calls and closes. *)
Lemma chain (n d : nat) :
  forall (k : nat) (b : bool) (mo : option (list CreateMessage)),
    d = n - k -> k <= n ->
    List.length (match mo with Some m => m | None => [] end) = 2 * k ->
    exists r,
      runOpenAIStream (S d) (legOf n k)
        (mkCallbacks b true true true true false (Present (continuesFor n)) None mo) = Some r /\
      List.length (continuations (trace r)) = d /\
      ending (out r) = Closed /\
      completion r = Some "Done.".
Proof.
  induction d as [|d IH]; intros k b mo Hd Hk Hm.
  - unfold legOf. replace (k <? n)%nat with false by (symmetry; apply Nat.ltb_ge; lia).
    destruct (text_leg 0 (mkCallbacks b true true true true false
                            (Present (continuesFor n)) None mo) eq_refl)
      as (r & E & C & O & F).
    exists r. rewrite C. auto.
  - unfold legOf. replace (k <? n)%nat with true by (symmetry; apply Nat.ltb_lt; lia).
    set (cb := mkCallbacks b true true true true false (Present (continuesFor n)) None mo).
    set (messages := createFunctionCallMessages (get "function_call" callOfF_json)
                       (messagesOf cb) (JString "sunny")).
    assert (Hlen : List.length messages = 2 * S k).
    { subst messages. unfold createFunctionCallMessages, messagesOf. cbn [openAIFnMessages cb].
      rewrite List.length_app, Hm. cbn [List.length]. lia. }
    destruct (IH (S k) false (Some messages) ltac:(lia) ltac:(lia) Hlen)
      as (inner & E & C & O & F).
    destruct (call_leg (S d) cb (continuesFor n) [JString "sunny"] (legOf n (S k)) inner
                eq_refl eq_refl) as (r & Er & Cr & Or & Fr).
    + unfold continuesFor, messagesOf. cbn [openAIFnMessages cb]. rewrite Hm.
      replace (2 * k / 2) with k by (rewrite Nat.mul_comm, Nat.div_mul; lia). reflexivity.
    + exact E.
    + exists r. rewrite Cr, Or, Fr. cbn [List.length]. rewrite C. auto.
Qed.

(** There are runs of every length: for every [n], a handler under which
    the sample call is continued exactly [n] times before the stream
    closes. *)
Lemma runs_of_every_length (n : nat) :
  exists r,
    runOpenAIStream (S n) (legOf n 0) (hooks (Present (continuesFor n)) None) = Some r /\
    List.length (continuations (trace r)) = n /\
    ending (out r) = Closed.
Proof.
  destruct (chain n n 0 true None ltac:(lia) ltac:(lia) eq_refl) as (r & E & C & O & _).
  exists r. auto.
Qed.

(** In such a run of [n] continuations, [onStart] is called once, [onFinal]
    once, with the text of the last leg, and [onCompletion] [n + 1]
    times. *)
Lemma hooks_in_runs_of_every_length (n : nat) :
  exists r,
    runOpenAIStream (S n) (legOf n 0) (hooks (Present (continuesFor n)) None) = Some r /\
    List.length (continuations (trace r)) = n /\
    starts (trace r) = 1 /\
    finals (trace r) = ["Done."] /\
    List.length (completions (trace r)) = S n.
Proof.
  destruct (chain n n 0 true None ltac:(lia) ltac:(lia) eq_refl) as (r & E & C & O & F).
  exists r. split; [exact E|]. split; [exact C|].
  destruct (OpenAIStream_spec _ _ _ _ _ _ _ _ E) as (S1 & S2 & S3).
  destruct (S3 eq_refl) as (F1 & _ & F3). destruct (F3 O) as (A & _).
  split; [exact S1|]. split.
  - rewrite F1, F. reflexivity.
  - rewrite S2. cbn [onCompletion hooks]. rewrite (filter_all _ _ A), length_map.
    cbn [List.length]. now rewrite C.
Qed.

End PipelineFacts.

(** ** The frames of [shared/utils.ts] *)

Module FrameFacts.
Import Str JSON Frames Vocabulary Scenarios StrFacts.

Lemma get_last_nl (s : string) :
  get (String.length (s ++ NL) - 1) (s ++ NL) = Some nl.
Proof.
  induction s as [|c s IH]; [reflexivity|].
  cbn [append String.length]. rewrite Nat.sub_succ, Nat.sub_0_r.
  assert (L : String.length (s ++ NL) = S (String.length (s ++ NL) - 1)).
  { rewrite length_app. cbn. lia. }
  rewrite L. cbn [get]. exact IH.
Qed.

(** X1.  A line made by [getStreamString] for a type is recognised by
    [isStreamStringEqualToType] as a line of that type, and of no other
    type, whatever the value. *)
Theorem frame_is_of_its_type (type type' : StreamStringType) (value : JSONValue) :
  isStreamStringEqualToType type' (getStreamString type value) = same_type type type'.
Proof.
  unfold isStreamStringEqualToType, getStreamString.
  set (payload := match value with JString s => s | _ => stringify value end).
  assert (E : StreamStringPrefixes type ++ ":" ++ payload ++ NL =
              (StreamStringPrefixes type ++ ":" ++ payload) ++ NL)
    by now rewrite !app_assoc.
  rewrite E, get_last_nl. clear E.
  assert (N : forall s, startsWith s "" = true) by (intros []; reflexivity).
  destruct type, type'; cbn; rewrite ?N; reflexivity.
Qed.

Lemma split_nl_app (a b : string) :
  split_nl (a ++ NL ++ b) = (split_nl a ++ split_nl b)%list.
Proof.
  induction a as [|c a IH].
  - cbn. reflexivity.
  - cbn [append split_nl]. rewrite IH.
    destruct (Ascii.eqb c nl); [reflexivity|].
    destruct (split_nl a) as [|seg segs] eqn:E; [|reflexivity].
    destruct a; cbn in E; [discriminate|].
    destruct (Ascii.eqb a nl); [discriminate|]. destruct (split_nl a0); discriminate.
Qed.

Lemma filter_some_app {A} (a b : list (option A)) :
  filter_some (a ++ b)%list = (filter_some a ++ filter_some b)%list.
Proof.
  induction a as [|[x|] a IH]; cbn; [reflexivity| |exact IH]. now rewrite IH.
Qed.

Lemma split_nl_one (s : string) : contains nl s = false -> split_nl s = [s].
Proof.
  induction s as [|c s IH]; [reflexivity|].
  cbn [contains split_nl]. intros H. apply orb_false_iff in H as [Hc Hs].
  rewrite Hc, (IH Hs). reflexivity.
Qed.

Lemma createChunkDecoder_complex_is_over :
  createChunkDecoder_complex = createChunkDecoder_complex_over parseStreamPart.
Proof. reflexivity. Qed.

Section LineDecoder.
Variable parseStreamPart : string -> option StreamPartType.

Lemma decoder_app (a b : string) :
  createChunkDecoder_complex_over parseStreamPart (a ++ NL ++ b) =
  (createChunkDecoder_complex_over parseStreamPart a ++
   createChunkDecoder_complex_over parseStreamPart b)%list.
Proof.
  unfold createChunkDecoder_complex_over.
  now rewrite split_nl_app, filter_app, map_app, filter_some_app.
Qed.

(** X2.  The complex decoder reads a chunk line by line: a chunk of lines
    that each end in a newline is decoded to the parts of its lines that
    are not empty, in order, each parsed on its own. *)
Theorem decoder_reads_line_by_line (lines : list string) :
  forallb (fun l => negb (contains nl l)) lines = true ->
  createChunkDecoder_complex_over parseStreamPart (concat (map (fun l => l ++ NL) lines)) =
  filter_some (map parseStreamPart (filter nonempty lines)).
Proof.
  induction lines as [|l lines IH]; intros H; [reflexivity|].
  cbn in H. apply andb_true_iff in H as [Hl H]. apply negb_true_iff in Hl.
  cbn [map]. rewrite concat_cons, app_assoc, decoder_app, (IH H).
  unfold createChunkDecoder_complex_over at 1. rewrite (split_nl_one l Hl).
  cbn [filter map]. unfold nonempty.
  destruct (negb (is_empty l)); cbn [map filter_some]; [|reflexivity].
  destruct (parseStreamPart l); reflexivity.
Qed.

(** X3.  [getStreamString] does not escape a newline in a text: the decoder
    reads the frame of a text with a newline as two lines, the second one
    without a prefix. *)
Theorem text_with_newline_is_two_lines (a b : string) :
  contains nl a = false -> contains nl b = false -> is_empty b = false ->
  createChunkDecoder_complex_over parseStreamPart
    (getStreamString text (JString (a ++ NL ++ b))) =
  filter_some [parseStreamPart ("0:" ++ a); parseStreamPart b].
Proof.
  intros Ha Hb Eb. unfold getStreamString. cbn [StreamStringPrefixes].
  replace ("0" ++ ":" ++ (a ++ NL ++ b) ++ NL) with (("0:" ++ a) ++ NL ++ b ++ NL ++ "")
    by (cbn; now rewrite !app_assoc).
  rewrite !decoder_app. unfold createChunkDecoder_complex_over.
  rewrite (split_nl_one ("0:" ++ a)) by (cbn; exact Ha).
  rewrite (split_nl_one b Hb). cbn [split_nl filter is_empty negb append map].
  rewrite Eb. cbn [negb map filter_some app].
  destruct (parseStreamPart _), (parseStreamPart b); reflexivity.
Qed.
End LineDecoder.

Lemma decoder_reads_line_by_line_witness :
  createChunkDecoder_complex_over parseStreamPart
    (concat (map (fun l => l ++ NL) ["0:Hello"; ""; "2:[1]"])) =
  filter_some (map parseStreamPart (filter nonempty ["0:Hello"; ""; "2:[1]"])).
Proof.
  apply (decoder_reads_line_by_line parseStreamPart ["0:Hello"; ""; "2:[1]"]).
  reflexivity.
Defined.

Lemma text_with_newline_is_two_lines_witness :
  createChunkDecoder_complex_over parseStreamPart
    (getStreamString text (JString ("Dear all," ++ NL ++ "welcome."))) =
  filter_some [parseStreamPart ("0:" ++ "Dear all,"); parseStreamPart "welcome."].
Proof.
  apply (text_with_newline_is_two_lines parseStreamPart "Dear all," "welcome."); reflexivity.
Defined.

End FrameFacts.

(** ** The extractor on text, and the escaping of arguments *)

Module ExtractorLaws.
Import Str JSON Provider Streams Pipeline Vocabulary Samples Scenarios StrFacts LiteralFacts
  ParserFacts.

Lemma trimStartOfStream_each_started (texts : list string) :
  trimStartOfStream_each false texts = texts.
Proof. induction texts as [|t texts IH]; [reflexivity|]. cbn. now rewrite IH. Qed.

(** X4.  The closure of [trimStartOfStreamHelper] trims until it has
    returned a text that is not empty, and never after: texts of white
    space only come back empty, the first other text comes back without
    its leading white space, and every later text comes back as it is. *)
Theorem trimStartOfStream_trims_the_start (blanks : list string) (text : string)
    (rest : list string) :
  forallb blank blanks = true -> blank text = false ->
  trimStartOfStream_each true (blanks ++ text :: rest)%list =
  (map (fun _ => "") blanks ++ trimStart text :: rest)%list.
Proof.
  intros Hb Ht. induction blanks as [|b blanks IH].
  - cbn. unfold blank in Ht. rewrite Ht. now rewrite trimStartOfStream_each_started.
  - cbn in Hb. apply andb_true_iff in Hb as [Hb Hbs]. unfold blank in Hb.
    cbn [app trimStartOfStream_each trimStartOfStream map]. rewrite Hb.
    rewrite (IH Hbs). now rewrite (is_empty_true _ Hb).
Qed.

Lemma trimStartOfStream_trims_the_start_witness :
  trimStartOfStream_each true (List.app [NL ++ NL; " "] ("  Hello" :: [" world"; " "])) =
  List.app (map (fun _ => "") [NL ++ NL; " "]) (trimStart "  Hello" :: [" world"; " "]).
Proof.
  apply (trimStartOfStream_trims_the_start [NL ++ NL; " "] "  Hello" [" world"; " "]);
    reflexivity.
Defined.

Lemma streamable_from_app (st : ExtractState) (a b : list OpenAIStreamReturnTypes) :
  streamable_from st (a ++ b)%list =
  (streamable_from st a ++ streamable_from (extractStateAfter st a) b)%list.
Proof.
  revert st. induction a as [|c a IH]; intros st; [reflexivity|].
  cbn [app streamable_from extractStateAfter].
  destruct (chunkToText st _) as [m st'] eqn:E. cbn [snd].
  destruct (truthy_message m); rewrite IH; reflexivity.
Qed.

Lemma plain_text_step (st : ExtractState) (chunk : OpenAIStreamReturnTypes) (text : string) :
  chunk = legacyChunk text \/ chunk = contentDelta text ->
  chunkToText st chunk =
  (Text (fst (trimStartOfStream (isStreamStart st) text)),
   mkExtract (snd (trimStartOfStream (isStreamStart st) text)) (isFunctionStreamingIn st)).
Proof.
  intros [-> | ->].
  - unfold legacyChunk, chunkToText, plainText. cbn [isChatCompletionChunk isCompletion c_choices cc_text].
    destruct (trimStartOfStream _ _); reflexivity.
  - unfold contentDelta, chatChunk, chunkToText, plainText.
    cbn [isChatCompletionChunk isCompletion choices delta d_content d_function_call
         d_tool_calls function_name function_arguments first_tool_call tool_name
         tool_arguments truthy finish_reason is_reason orb andb interpolate].
    rewrite !andb_false_r. destruct text as [|c t].
    + cbn [truthy is_empty negb]. destruct (trimStartOfStream _ _); reflexivity.
    + cbn [truthy is_empty negb interpolate]. destruct (trimStartOfStream _ _); reflexivity.
Qed.

Lemma streamable_from_texts (mk : string -> OpenAIStreamReturnTypes) (texts : list string) :
  (forall t, mk t = legacyChunk t \/ mk t = contentDelta t) ->
  forall st,
    streamable_from st (map mk texts) =
    map Text (filter nonempty (trimStartOfStream_each (isStreamStart st) texts)) /\
    isFunctionStreamingIn (extractStateAfter st (map mk texts)) = isFunctionStreamingIn st.
Proof.
  intros Hmk. induction texts as [|t texts IH]; intros st; [split; reflexivity|].
  cbn [map streamable_from extractStateAfter trimStartOfStream_each].
  assert (Hc : match mk t with Azure c => Chat (convertAzure c) | _ => mk t end = mk t)
    by (destruct (Hmk t) as [-> | ->]; reflexivity).
  rewrite Hc, (plain_text_step st (mk t) t (Hmk t)).
  destruct (trimStartOfStream (isStreamStart st) t) as [t' b'] eqn:E. cbn [fst snd].
  destruct (IH (mkExtract b' (isFunctionStreamingIn st))) as [IH1 IH2].
  cbn [isStreamStart isFunctionStreamingIn] in IH1, IH2.
  split; [|exact IH2].
  cbn [filter truthy_message]. unfold nonempty at 1.
  destruct (negb (is_empty t')); rewrite IH1; reflexivity.
Qed.

Lemma finish_outside_a_call (b : bool) (fr : FinishReason)
    (rest : list OpenAIStreamReturnTypes) :
  streamable_from (mkExtract b false) (finish fr :: rest) =
  streamable_from (mkExtract b false) rest.
Proof. destruct b, fr; reflexivity. Qed.

(** X5.  On chunks that carry text only, of the completions API or of the
    chat API, [streamable] yields the texts as the closure of
    [trimStartOfStreamHelper] returns them, those that come back empty
    left out; a closing chunk with a [finish_reason] adds nothing. *)
Theorem streamable_yields_the_trimmed_texts (texts : list string) (fr : FinishReason) :
  streamable (map legacyChunk texts) =
    map Text (filter nonempty (trimStartOfStream_each true texts)) /\
  streamable (map contentDelta texts ++ [finish fr])%list =
    map Text (filter nonempty (trimStartOfStream_each true texts)).
Proof.
  unfold streamable. split.
  - apply (streamable_from_texts legacyChunk texts); auto.
  - rewrite streamable_from_app.
    destruct (streamable_from_texts contentDelta texts (fun t => or_intror eq_refl)
                initialExtract) as [E F].
    rewrite E. cbn [initialExtract isStreamStart isFunctionStreamingIn] in *.
    destruct (extractStateAfter _ _) as [b f]. cbn in F. subst f.
    rewrite finish_outside_a_call. cbn [streamable_from]. now rewrite List.app_nil_r.
Qed.

Lemma chunk_without_choices (st : ExtractState) (chunk : OpenAIStreamReturnTypes) :
  noChoices chunk = true ->
  chunkToText st (match chunk with Azure c => Chat (convertAzure c) | _ => chunk end)
  = (Text "", st).
Proof.
  destruct chunk as [[l]|[l]|[l]]; cbn [noChoices choices c_choices az_choices];
    destruct l; try discriminate; intros _; destruct st as [[] []]; reflexivity.
Qed.

(** X6.  A chunk whose [choices] array is empty, of the chat API, of the
    completions API or of Azure, is passed over wherever it comes in the
    stream: [streamable] yields what it yields without it. *)
Theorem chunks_without_choices_are_passed_over
    (before after : list OpenAIStreamReturnTypes) (chunk : OpenAIStreamReturnTypes) :
  noChoices chunk = true ->
  streamable (before ++ chunk :: after)%list = streamable (before ++ after)%list.
Proof.
  intros H. unfold streamable. rewrite !streamable_from_app. f_equal.
  cbn [streamable_from]. rewrite (chunk_without_choices _ chunk H). reflexivity.
Qed.

Lemma chunks_without_choices_are_passed_over_witness :
  streamable ([contentDelta "Hello"] ++ Azure (mkAzure []) :: [contentDelta " world"])%list =
  streamable ([contentDelta "Hello"] ++ [contentDelta " world"])%list.
Proof.
  apply (chunks_without_choices_are_passed_over [contentDelta "Hello"] [contentDelta " world"]
           (Azure (mkAzure []))).
  reflexivity.
Defined.

(** X7.  [cleanupArguments] works character by character: escaping the
    increments of an argument text one by one and joining the results is
    escaping the whole text, however the text is cut into increments. *)
Theorem cleanupArguments_by_increments (increments : list string) :
  concat (map cleanupArguments increments) = cleanupArguments (concat increments).
Proof. exact (cleanupArguments_concat increments). Qed.

Lemma parse_chars_cleanup_any_char (c : ascii) (r : string) :
  parse_chars (cleanupArguments (String c "") ++ r) =
  if escapable c then prepend (String c "") (parse_chars r) else None.
Proof. destruct c as [[] [] [] [] [] [] [] []]; reflexivity. Qed.

Lemma prepend_prepend (a b : string) (x : option (string * string)) :
  prepend a (prepend b x) = prepend (a ++ b) x.
Proof. destruct x as [[v r]|]; cbn; [now rewrite app_assoc | reflexivity]. Qed.

Lemma parse_chars_cleanup_any (s rest : string) :
  parse_chars (cleanupArguments s ++ rest) =
  if escapable_text s then prepend s (parse_chars rest) else None.
Proof.
  induction s as [|c s IH].
  - cbn. destruct (parse_chars rest) as [[v r]|]; reflexivity.
  - rewrite cleanupArguments_cons, app_assoc, parse_chars_cleanup_any_char, IH.
    cbn [escapable_text all_chars]. fold (escapable_text s).
    destruct (escapable c), (escapable_text s); cbn [andb]; try reflexivity.
    apply prepend_prepend.
Qed.

(** X8.  The escaped text between quotes is a JSON string literal exactly
    when the text has no control character besides newline, carriage
    return, tab and form feed, and it then denotes the text; no text
    closes the literal before its end. *)
Theorem escaped_text_between_quotes (s rest : string) :
  parse (DQ ++ cleanupArguments s ++ DQ) =
    (if escapable_text s then Some (JString s) else None) /\
  parse_chars (cleanupArguments s ++ DQ ++ rest) =
    (if escapable_text s then Some (s, rest) else None).
Proof.
  split.
  - unfold parse. change (DQ ++ ?x) with (String dq x). rewrite parse_value_string.
    rewrite parse_chars_cleanup_any. destruct (escapable_text s); [|reflexivity].
    cbn. now rewrite app_nil_r.
  - rewrite parse_chars_cleanup_any. destruct (escapable_text s); [|reflexivity].
    cbn. now rewrite app_nil_r.
Qed.

End ExtractorLaws.

(** ** Calls that do not reach the handler, and calls that do *)

Module CallFacts.
Import Str JSON Provider Streams Pipeline Vocabulary Samples Scenarios StrFacts LiteralFacts
  ParserFacts ExtractorFacts ExtractorLaws PipelineFacts.

Section FailingSteps.
Variable pv : string -> option (JSONValue * string).

Lemma members_no_value (n : nat) (s r0 key r1 r2 : string) :
  skip_ws s = String dq r0 ->
  parse_chars r0 = Some (key, r1) ->
  skip_ws r1 = String ":" r2 ->
  pv r2 = None ->
  parse_members pv (S n) s = None.
Proof. intros H0 H1 H2 H3. simpl. rewrite H0. simpl. rewrite H1, H2. simpl.
       rewrite H3. reflexivity. Qed.

Lemma members_no_delimiter (n : nat) (s r0 key r1 r2 : string) (v : JSONValue)
    (r3 : string) (c : ascii) (r4 : string) :
  skip_ws s = String dq r0 ->
  parse_chars r0 = Some (key, r1) ->
  skip_ws r1 = String ":" r2 ->
  pv r2 = Some (v, r3) ->
  skip_ws r3 = String c r4 ->
  Ascii.eqb c "," = false -> Ascii.eqb c "}" = false ->
  parse_members pv (S n) s = None.
Proof. intros H0 H1 H2 H3 H4 H5 H6. simpl. rewrite H0. simpl. rewrite H1, H2. simpl.
       rewrite H3, H4, H5, H6. reflexivity. Qed.

Lemma elements_no_value (n : nat) (s : string) :
  pv s = None -> parse_elements pv (S n) s = None.
Proof. intros H. simpl. rewrite H. reflexivity. Qed.
End FailingSteps.

(** The extractor on the deltas of a function call. *)
Lemma streamable_function_arguments (st : ExtractState) (args : list string)
    (rest : list OpenAIStreamReturnTypes) :
  streamable_from st (map (fun a => functionCallDelta None (Some a)) args ++ rest)%list
  = (map (fun a => NotText (cleanupArguments a)) (filter nonempty args) ++
     streamable_from st rest)%list.
Proof.
  induction args as [|a args IH]; [reflexivity|].
  destruct a as [|c a].
  - destruct st as [[] []]; cbn; exact IH.
  - cbn [map app filter nonempty is_empty negb]. rewrite <- IH. reflexivity.
Qed.

Lemma streamable_function_name (st : ExtractState) (name : string) (arguments0 : option string)
    (rest : list OpenAIStreamReturnTypes) :
  is_empty name = false ->
  streamable_from st (functionCallDelta (Some name) arguments0 :: rest) =
  NotText (functionOpening name) :: streamable_from (mkExtract (isStreamStart st) true) rest.
Proof.
  intros H. cbn [streamable_from]. unfold chunkToText at 1.
  cbn [functionCallDelta chatChunk isChatCompletionChunk choices delta function_name
       d_function_call fc_name truthy interpolate].
  rewrite H. reflexivity.
Qed.

Lemma streamable_closes_nothing (b : bool) (frs : list FinishReason) :
  forallb closesNothing frs = true ->
  streamable_from (mkExtract b true) (map finish frs) = [].
Proof.
  induction frs as [|fr frs IH]; [reflexivity|].
  cbn [forallb]. intros H. apply andb_true_iff in H as [Hf H].
  cbn [map]. destruct fr; try discriminate Hf; destruct b; cbn; apply (IH H).
Qed.

Lemma streamable_closes_function_call (b : bool) (fr : FinishReason) :
  closesFunctionCall fr = true ->
  streamable_from (mkExtract b true) [finish fr] = [NotText functionClosing].
Proof. destruct fr; try discriminate; intros _; reflexivity. Qed.

Section CallLegs.
Variable eventsource_parser : list string -> list (list SSEEvent).
Variable as_OpenAIStreamReturnTypes : JSONValue -> OpenAIStreamReturnTypes.

Lemma leg_of_iterable (stream : list OpenAIStreamReturnTypes) :
  leg eventsource_parser as_OpenAIStreamReturnTypes (FromAsyncIterable stream) =
  mkStream (map content_of (streamable stream)) Closed.
Proof.
  unfold leg, source. cbn [hasHandler noCallbacks experimental_onFunctionCall
    experimental_onToolCall slot_value is_some orb].
  destruct (createCallbacksTransformer_spec noCallbacks (mkStream (streamable stream) Closed))
    as (evs & E & _).
  rewrite E. reflexivity.
Qed.

End CallLegs.

Lemma concat_cleanup_filter (args : list string) :
  concat (map cleanupArguments (filter nonempty args)) = cleanupArguments (concat args).
Proof.
  induction args as [|a args IH]; [reflexivity|].
  rewrite concat_cons, cleanupArguments_app, <- IH.
  destruct a; reflexivity.
Qed.

Lemma functionOpening_opens (name : string) : opensCall (functionOpening name) = true.
Proof. reflexivity. Qed.

(** The text of a function call that was not closed is not JSON. *)
Lemma parse_unclosed_function_call (name A : string) :
  plain name = true ->
  parse (functionOpening name ++ cleanupArguments A) = None.
Proof.
  intros Hn. unfold parse.
  match goal with |- context [parse_value (S (String.length ?t)) ?t] =>
    assert (Hfuel : exists f, S (String.length t) = 4 + f)
  end.
  { unfold functionOpening. normalise. cbn [String.length]. eexists. reflexivity. }
  destruct Hfuel as [f Hfuel]. rewrite Hfuel. clear Hfuel.
  unfold functionOpening. normalise. cbn [plus].
  erewrite parse_value_object by reflexivity.
  erewrite members_no_value; [reflexivity | reflexivity | reflexivity | reflexivity |].
  rewrite parse_value_space.
  erewrite parse_value_object by reflexivity.
  erewrite members_more.
  2: reflexivity. 2: reflexivity. 2: reflexivity.
  2: literal Hn parse_chars_plain.
  2: reflexivity.
  erewrite members_no_value; [reflexivity | reflexivity | reflexivity | reflexivity |].
  rewrite parse_value_space, parse_value_string.
  rewrite <- (app_nil_r (cleanupArguments A)), parse_chars_cleanup_any.
  destruct (escapable_text A); reflexivity.
Qed.

Lemma parse_function_call (name A : string) :
  plain name = true -> escapable_text A = true ->
  parse (functionOpening name ++ cleanupArguments A ++ functionClosing)
  = Some (callPayload name A).
Proof.
  intros Hn HA. unfold parse.
  match goal with |- context [parse_value (S (String.length ?t)) ?t] =>
    assert (Hfuel : exists f, S (String.length t) = 4 + f)
  end.
  { unfold functionOpening. normalise. cbn [String.length]. eexists. reflexivity. }
  destruct Hfuel as [f Hfuel]. rewrite Hfuel. clear Hfuel.
  pose proof (parse_function_object f name A "}" Hn HA) as Hf.
  unfold functionOpening, functionClosing. normalise. cbn [plus append DQ] in *.
  erewrite parse_value_object by reflexivity.
  erewrite members_last.
  2: reflexivity. 2: reflexivity. 2: reflexivity.
  2: { rewrite parse_value_space. exact Hf. }
  2: reflexivity.
  reflexivity.
Qed.

(** X9.  The arguments of a function call survive the escaping: when the
    text of the increments is JSON, the text aggregated from the escaped
    increments parses, and the function handler is called with the name
    and with the value that the text of the increments denotes, without a
    warning. *)
Theorem handler_is_given_the_parsed_arguments (h : FunctionCallHandler) (name : string)
    (args : list string) (v : JSONValue) (messages : list CreateMessage) :
  plain name = true -> escapable_text (concat args) = true ->
  parse (concat args) = Some v ->
  exists payload,
    parse (functionOpening name ++ concat (map cleanupArguments args) ++ functionClosing)
    = Some payload /\
    fst (callFunctionHandler h payload messages)
    = [OnFunctionCall (mkFunctionCallPayload (Some (JString name)) v)].
Proof.
  intros Hn He Hv. exists (callPayload name (concat args)). split.
  - rewrite cleanupArguments_concat. apply parse_function_call; assumption.
  - unfold callFunctionHandler, callPayload.
    cbn [get prop lookup String.eqb Ascii.eqb Bool.eqb parse_any to_string].
    rewrite Hv. reflexivity.
Qed.

Lemma handler_is_given_the_parsed_arguments_witness :
  exists payload,
    parse (functionOpening "get_current_weather" ++
           concat (map cleanupArguments ["{" ++ q "location"; ": " ++ q "Paris" ++ "}"]) ++
           functionClosing)
    = Some payload /\
    fst (callFunctionHandler declines payload [])
    = [OnFunctionCall
         (mkFunctionCallPayload (Some (JString "get_current_weather"))
            (JObject [("location", JString "Paris")]))].
Proof.
  apply (handler_is_given_the_parsed_arguments declines "get_current_weather"
           ["{" ++ q "location"; ": " ++ q "Paris" ++ "}"]
           (JObject [("location", JString "Paris")]) []); reflexivity.
Defined.

(** *** The messages for the nested call *)

Lemma fold_left_last {A B} (f : B -> A) (calls : list B) (init : A) :
  fold_left (fun _ r => f r) calls init =
  match rev calls with
  | [] => init
  | r :: _ => f r
  end.
Proof.
  induction calls as [|c calls IH] using rev_ind; [reflexivity|].
  rewrite fold_left_app, rev_app_distr. reflexivity.
Qed.

(** X10.  The closure given to the function handler does not accumulate:
    each call of it returns the messages the stream was made with followed
    by the assistant message of the call and one function message for the
    result it is given, so the nested call gets the messages of the last
    call of the closure, or the unchanged messages when the handler never
    called it. *)
Theorem function_messages_are_those_of_the_last_result (h : FunctionCallHandler)
    (payload function_call : JSONValue) (arguments : option JSONValue)
    (argumentsPayload : JSONValue) (messages : list CreateMessage)
    (calls : list JSONValue) (response : HandlerReturn) :
  get "function_call" payload = Some function_call ->
  prop "arguments" (Some function_call) = Some arguments ->
  parse_any arguments = Some argumentsPayload ->
  h (mkFunctionCallPayload
       (match prop "name" (Some function_call) with Some n => n | None => None end)
       argumentsPayload) messages = mkHandlerRun calls (Returns response) ->
  snd (callFunctionHandler h payload messages) =
  inr (response,
       match rev calls with
       | [] => messages
       | result :: _ =>
           (messages ++
            [JObject [("role", JString "assistant"); ("content", JString "");
                      ("function_call", function_call)];
             JObject ([("role", JString "function")] ++
                      field "name" (match prop "name" (Some function_call) with
                                    | Some n => n | None => None end) ++
                      [("content", JString (stringify result))])])%list
       end).
Proof.
  intros H1 H2 H3 H4. unfold callFunctionHandler. rewrite H1, H2, H3, H4.
  cbn [snd result closure_calls]. rewrite fold_left_last.
  destruct (rev calls); reflexivity.
Qed.

Lemma function_messages_are_those_of_the_last_result_witness :
  snd (callFunctionHandler
         (fun _ _ => mkHandlerRun [JString "rainy"; JString "sunny"] (Returns RetUndefined))
         callOfF_json [JString "earlier"]) =
  inr (RetUndefined,
       match rev [JString "rainy"; JString "sunny"] with
       | [] => [JString "earlier"]
       | result :: _ =>
           ([JString "earlier"] ++
            [JObject [("role", JString "assistant"); ("content", JString "");
                      ("function_call",
                       JObject [("name", JString "f");
                                ("arguments", JString ("{" ++ q "a" ++ ":1}"))])];
             JObject ([("role", JString "function")] ++
                      field "name"
                        (match prop "name"
                                 (Some (JObject [("name", JString "f");
                                                 ("arguments", JString ("{" ++ q "a" ++ ":1}"))]))
                         with Some n => n | None => None end) ++
                      [("content", JString (stringify result))])])%list
       end).
Proof.
  apply (function_messages_are_those_of_the_last_result
           (fun _ _ => mkHandlerRun [JString "rainy"; JString "sunny"] (Returns RetUndefined))
           callOfF_json
           (JObject [("name", JString "f"); ("arguments", JString ("{" ++ q "a" ++ ":1}"))])
           (Some (JString ("{" ++ q "a" ++ ":1}"))) (JObject [("a", JNumber "1")])
           [JString "earlier"] [JString "rainy"; JString "sunny"] RetUndefined);
    reflexivity.
Defined.

Lemma appendToolCallMessage_fold (ts : list Tool) (calls : list (option ToolCallResult)) :
  forall (messages : list CreateMessage) (n : nat),
    fst (fold_left (appendToolCallMessage ts) calls (messages, n)) =
    (messages ++
     match Frames.filter_some calls with
     | [] => []
     | rs => (if (n =? 0)%nat then [assistantToolCalls ts] else []) ++ map toolMessage rs
     end)%list.
Proof.
  induction calls as [|[r|] calls IH]; intros messages n.
  - cbn. now rewrite List.app_nil_r.
  - cbn [fold_left appendToolCallMessage fst snd Frames.filter_some]. rewrite IH.
    rewrite <- !List.app_assoc. f_equal. cbn [Nat.eqb map]. f_equal.
    destruct (Frames.filter_some calls); reflexivity.
  - cbn [fold_left appendToolCallMessage Frames.filter_some]. apply IH.
Qed.

(** X11.  The closure given to the tool handler accumulates: the nested
    call gets the messages the stream was made with, then, if the handler
    gave the closure a result at all, the assistant message of the tool
    calls once, and one tool message for each result, in the order of the
    calls; a call of the closure without a result adds nothing. *)
Theorem tool_messages_hold_the_assistant_message_once (h : ToolCallHandler)
    (payload : JSONValue) (tool_calls : list JSONValue) (ts : list Tool)
    (response : HandlerReturn) (messages : list CreateMessage)
    (calls : list (option ToolCallResult)) (r : HandlerReturn) :
  get "tool_calls" payload = Some (JArray tool_calls) ->
  tools_of tool_calls = Some ts ->
  h (mkToolCallPayload ts) messages = mkHandlerRun calls (Returns r) ->
  snd (callToolHandler h payload response messages) =
  inr (r,
       (messages ++
        match Frames.filter_some calls with
        | [] => []
        | rs => assistantToolCalls ts :: map toolMessage rs
        end)%list).
Proof.
  intros H1 H2 H3. unfold callToolHandler, toolCallsOf. rewrite H1, H2, H3.
  cbn [snd result closure_calls]. rewrite appendToolCallMessage_fold.
  destruct (Frames.filter_some calls); reflexivity.
Qed.

Lemma tool_messages_hold_the_assistant_message_once_witness :
  snd (callToolHandler
         (fun _ _ =>
            mkHandlerRun [Some (mkToolCallResult "call_0" "f" (JString "sunny")); None;
                          Some (mkToolCallResult "call_1" "g" (JNumber "21"))]
              (Returns RetUndefined))
         (toolsPayload [("call_0", "f", "{}"); ("call_1", "g", "{}")])
         RetUndefined [JString "earlier"]) =
  inr (RetUndefined,
       ([JString "earlier"] ++
        match Frames.filter_some
                [Some (mkToolCallResult "call_0" "f" (JString "sunny")); None;
                 Some (mkToolCallResult "call_1" "g" (JNumber "21"))] with
        | [] => []
        | rs => assistantToolCalls (toolsOf [("call_0", "f", "{}"); ("call_1", "g", "{}")])
                :: map toolMessage rs
        end)%list).
Proof.
  apply (tool_messages_hold_the_assistant_message_once
           (fun _ _ =>
              mkHandlerRun [Some (mkToolCallResult "call_0" "f" (JString "sunny")); None;
                            Some (mkToolCallResult "call_1" "g" (JNumber "21"))]
                (Returns RetUndefined))
           (toolsPayload [("call_0", "f", "{}"); ("call_1", "g", "{}")])
           [toolCallObject "call_0" "f" "{}"; toolCallObject "call_1" "g" "{}"]
           (toolsOf [("call_0", "f", "{}"); ("call_1", "g", "{}")])
           RetUndefined [JString "earlier"]
           [Some (mkToolCallResult "call_0" "f" (JString "sunny")); None;
            Some (mkToolCallResult "call_1" "g" (JNumber "21"))]
           RetUndefined); reflexivity.
Defined.

Lemma toolCallsOf_toolsPayload (calls : list (string * string * string)) :
  toolCallsOf (toolsPayload calls) = Some (toolsOf calls).
Proof.
  unfold toolCallsOf, toolsPayload, toolsOf.
  cbn [get prop lookup String.eqb Ascii.eqb Bool.eqb].
  induction calls as [|[[id name] A] calls IH]; [reflexivity|].
  cbn [map tools_of fst snd]. rewrite IH. reflexivity.
Qed.

(** X12.  The tool handler is called once for a round of tool calls, with
    one tool for each call; unlike the function handler, it is given the
    arguments of a call as the text the model wrote, not parsed; and the
    assistant message made for the nested call holds that text stringified
    once more, so that parsing it gives the text back, not the value the
    text denotes. *)
Theorem tool_handler_is_given_the_argument_text (h : ToolCallHandler)
    (calls : list (string * string * string)) (response : HandlerReturn)
    (messages : list CreateMessage) :
  handlerCalls (fst (callToolHandler h (toolsPayload calls) response messages))
  = [OnToolCall (mkToolCallPayload (toolsOf calls))] /\
  map func_arguments (toolsOf calls) = map (fun c => Some (JString (snd c))) calls /\
  forall id name arguments,
    In (id, name, arguments) calls ->
    exists others,
      assistantToolCalls (toolsOf calls) =
        JObject [("role", JString "assistant"); ("content", JString ""); ("tool_calls", JArray others)] /\
      In (JObject [("id", JString id); ("type", JString "function");
                   ("function", JObject [("name", JString name);
                                         ("arguments", JString (quote arguments))])]) others /\
      parse (quote arguments) = Some (JString arguments).
Proof.
  split; [|split].
  - unfold callToolHandler. rewrite toolCallsOf_toolsPayload.
    cbn [toolsPayload get prop lookup String.eqb Ascii.eqb Bool.eqb].
    destruct (result _); reflexivity.
  - unfold toolsOf. rewrite map_map. reflexivity.
  - intros id name A HIn. eexists. split; [reflexivity|]. split.
    + unfold toolsOf. rewrite map_map. apply in_map_iff.
      exists (id, name, A). split; [reflexivity | exact HIn].
    + apply (RoundTripFacts.parse_stringify (JString A)). reflexivity.
Qed.

(** *** Tool calls of Azure *)

Lemma azure_tool_delta (st : ExtractState) (id name arguments : option string)
    (rest : list OpenAIStreamReturnTypes) :
  streamable_from st (azureToolDelta id name arguments :: rest) =
  streamable_from st (toolCallDelta 0 id name arguments :: rest).
Proof. reflexivity. Qed.

Lemma azure_finish (st : ExtractState) (fr : FinishReason)
    (rest : list OpenAIStreamReturnTypes) :
  streamable_from st (azureFinish fr :: rest) = streamable_from st (finish fr :: rest).
Proof. reflexivity. Qed.

Lemma azure_arguments (st : ExtractState) (args : list string)
    (rest : list OpenAIStreamReturnTypes) :
  streamable_from st (map (fun a => azureToolDelta None None (Some a)) args ++ rest)%list
  = (map (fun a => NotText (cleanupArguments a)) (filter nonempty args) ++
     streamable_from st rest)%list.
Proof.
  induction args as [|a args IH]; [reflexivity|].
  destruct a as [|c a].
  - destruct st as [[] []]; cbn; exact IH.
  - cbn [map app filter nonempty is_empty negb]. rewrite <- IH. reflexivity.
Qed.

Lemma tool_at_index_0 (st : ExtractState) (id name : string)
    (rest : list OpenAIStreamReturnTypes) :
  is_empty name = false ->
  streamable_from st (toolCallDelta 0 (Some id) (Some name) None :: rest) =
  NotText (toolOpening id name) :: streamable_from (mkExtract (isStreamStart st) true) rest.
Proof.
  intros H. cbn [streamable_from]. unfold chunkToText at 1.
  cbn [toolCallDelta chatChunk isChatCompletionChunk choices delta function_name
       d_function_call truthy first_tool_call d_tool_calls tool_name tc_function
       tcf_name tc_index tc_id interpolate].
  rewrite H. reflexivity.
Qed.

(** The text of a tool call whose arguments are followed by the opening
    of another array of tool calls is not JSON. *)
Lemma parse_reopened_tool_calls (id name A rest : string) :
  plain id = true -> plain name = true ->
  parse (toolOpening id name ++ cleanupArguments A ++ "{" ++ DQ ++ "tool_calls" ++ rest) = None.
Proof.
  intros Hi Hn. unfold parse.
  match goal with |- context [parse_value (S (String.length ?t)) ?t] =>
    assert (Hfuel : exists f, S (String.length t) = 6 + f)
  end.
  { unfold toolOpening. normalise. cbn [String.length]. eexists. reflexivity. }
  destruct Hfuel as [f Hfuel]. rewrite Hfuel. clear Hfuel.
  unfold toolOpening. normalise. cbn [plus].
  erewrite parse_value_object by reflexivity.
  erewrite members_no_value; [reflexivity | reflexivity | reflexivity | reflexivity |].
  erewrite parse_value_array; [ | reflexivity | reflexivity ].
  erewrite elements_no_value; [reflexivity|].
  rewrite parse_value_space.
  erewrite parse_value_object by reflexivity.
  erewrite members_more.
  2: reflexivity. 2: reflexivity. 2: reflexivity.
  2: literal Hi parse_chars_plain.
  2: reflexivity.
  erewrite members_more.
  2: reflexivity. 2: reflexivity. 2: reflexivity.
  2: { rewrite parse_value_space. reflexivity. }
  2: reflexivity.
  erewrite members_no_value; [reflexivity | reflexivity | reflexivity | reflexivity |].
  rewrite parse_value_space.
  erewrite parse_value_object by reflexivity.
  erewrite members_more.
  2: reflexivity. 2: reflexivity. 2: reflexivity.
  2: literal Hn parse_chars_plain.
  2: reflexivity.
  destruct (escapable_text A) eqn:EA.
  - erewrite members_no_delimiter; [reflexivity | reflexivity | reflexivity | reflexivity | | | |].
    + rewrite parse_value_space, parse_value_string, parse_chars_cleanup_any, EA.
      cbn. reflexivity.
    + reflexivity.
    + reflexivity.
    + reflexivity.
  - erewrite members_no_value; [reflexivity | reflexivity | reflexivity | reflexivity |].
    rewrite parse_value_space, parse_value_string, parse_chars_cleanup_any, EA. reflexivity.
Qed.

(** X13.  The tool calls of an Azure chunk are numbered by their place in
    the chunk, so the tool call that [chunkToText] reads is always at
    index 0: in a round of two tool calls that come one per chunk, the
    second call opens a new array instead of following the first, and the
    aggregated text is not JSON. *)
Theorem azure_tool_calls_all_open_an_array (id0 name0 : string) (args0 : list string)
    (id1 name1 : string) (args1 : list string) :
  is_empty name0 = false -> is_empty name1 = false ->
  plain id0 = true -> plain name0 = true ->
  let fragments := map content_of (streamable (azureToolRound id0 name0 args0 id1 name1 args1)) in
  fragments =
    (toolOpening id0 name0 :: map cleanupArguments (filter nonempty args0) ++
     toolOpening id1 name1 :: map cleanupArguments (filter nonempty args1) ++
     [toolsClosing])%list /\
  parse (concat fragments) = None.
Proof.
  intros E0 E1 Hi Hn fragments.
  assert (Hf : fragments =
    (toolOpening id0 name0 :: map cleanupArguments (filter nonempty args0) ++
     toolOpening id1 name1 :: map cleanupArguments (filter nonempty args1) ++
     [toolsClosing])%list).
  { subst fragments. unfold streamable, azureToolRound.
    rewrite azure_tool_delta, (tool_at_index_0 _ _ _ _ E0), azure_arguments.
    rewrite azure_tool_delta, (tool_at_index_0 _ _ _ _ E1), azure_arguments.
    rewrite azure_finish. cbn [streamable_from initialExtract isStreamStart].
    cbn [map content_of]. rewrite map_app, map_map. cbn [map content_of].
    rewrite map_app, map_map. reflexivity. }
  split; [exact Hf|]. rewrite Hf.
  rewrite concat_cons, concat_app, concat_cleanup_filter, concat_cons.
  unfold toolOpening at 2. normalise.
  apply (parse_reopened_tool_calls id0 name0 (concat args0)); assumption.
Qed.

Lemma azure_tool_calls_all_open_an_array_witness :
  let fragments :=
    map content_of (streamable (azureToolRound "call_0" "f" ["{}"] "call_1" "g" ["{}"])) in
  fragments =
    (toolOpening "call_0" "f" :: map cleanupArguments (filter nonempty ["{}"]) ++
     toolOpening "call_1" "g" :: map cleanupArguments (filter nonempty ["{}"]) ++
     [toolsClosing])%list /\
  parse (concat fragments) = None.
Proof.
  apply (azure_tool_calls_all_open_an_array "call_0" "f" ["{}"] "call_1" "g" ["{}"]);
    reflexivity.
Defined.

(** *** The hooks of a leg never call a handler *)

Lemma handlerCalls_app (a b : list Event) :
  handlerCalls (a ++ b)%list = (handlerCalls a ++ handlerCalls b)%list.
Proof. induction a as [|[] a IH]; cbn; auto; now rewrite IH. Qed.

Lemma callbacks_transform_no_handler (cb : OpenAIStreamCallbacks) (messages : list Message)
    (agg : string) :
  handlerCalls (fst (fst (callbacks_transform cb agg messages))) = [].
Proof.
  revert agg. induction messages as [|m messages IH]; intros agg; [reflexivity|].
  cbn [callbacks_transform]. specialize (IH (agg ++ content_of m)).
  destruct (callbacks_transform cb (agg ++ content_of m) messages) as [[evs outs] agg'].
  cbn [fst] in *. rewrite !handlerCalls_app, IH.
  destruct m, (onToken cb), (onText cb); reflexivity.
Qed.

Lemma createCallbacksTransformer_no_handler (cb : OpenAIStreamCallbacks) (src : Stream Message) :
  handlerCalls (fst (createCallbacksTransformer cb src)) = [].
Proof.
  unfold createCallbacksTransformer.
  pose proof (callbacks_transform_no_handler cb (chunks src) "") as H.
  destruct (callbacks_transform cb "" (chunks src)) as [[evs outs] agg].
  cbn [fst] in *. rewrite !handlerCalls_app, H. unfold callbacks_flush, when.
  destruct (onStart cb), (ending src), (onCompletion cb), (onFinal cb),
    (isOfTypeOpenAIStreamCallbacks cb); reflexivity.
Qed.

Lemma finally_no_handler (b : bool) (final : string) : handlerCalls (finally_ b final) = [].
Proof. unfold finally_, when. destruct (b && _); reflexivity. Qed.

Lemma finally_continuations (b : bool) (final : string) : continuations (finally_ b final) = [].
Proof. unfold finally_, when. destruct (b && _); reflexivity. Qed.

(** X14.  With both handlers set, no call is answered: a payload that is
    not both a function call and a round of tool calls makes [flush] throw
    (reading [payload.function_call.arguments], parsing the arguments, in
    the function handler, or iterating [payload.tool_calls]), so that
    nothing is emitted for the call and the stream is errored. *)
Theorem both_handlers_error_every_call
    (formatStreamPart : StreamPartKind -> JSONValue -> string)
    (recur : OpenAIStreamInput -> OpenAIStreamCallbacks -> option Run)
    (cb : OpenAIStreamCallbacks) (onFunctionCall : FunctionCallHandler)
    (onToolCall : ToolCallHandler) (st : TransformerState) (payload : JSONValue) :
  experimental_onFunctionCall cb = Present onFunctionCall ->
  experimental_onToolCall cb = Some onToolCall ->
  isFirstChunk st = false -> isFunctionStreamingIn' st = true ->
  parse (aggregatedResponse st) = Some payload ->
  get "function_call" payload = None \/ get "tool_calls" payload = None ->
  exists r e,
    flush formatStreamPart recur cb st = Some r /\
    out r = mkStream [] (Errored e) /\
    continuations (trace r) = [].
Proof.
  intros Hf Ht H1 H2 Hp Hk. unfold flush. rewrite H1, H2, Hf, Ht, Hp.
  cbn [negb andb slot_value is_some orb].
  pose proof (callFunctionHandler_quiet onFunctionCall payload
                (match openAIFnMessages cb with Some m => m | None => [] end)) as Q.
  destruct (callFunctionHandler onFunctionCall payload _) as [ev1 [e|[response1 messages1]]] eqn:E1.
  - destruct Q as (_ & _ & _ & Q). cbn [fst] in Q.
    eexists. eexists. split; [reflexivity|]. split; [reflexivity|].
    cbn [trace]. rewrite continuations_app, Q, finally_continuations. reflexivity.
  - assert (Hn : get "tool_calls" payload = None).
    { destruct Hk as [Hk|Hk]; [|exact Hk]. exfalso.
      unfold callFunctionHandler in E1. rewrite Hk in E1. cbn in E1. discriminate. }
    unfold callToolHandler, toolCallsOf. rewrite Hn.
    destruct Q as (_ & _ & _ & Q). cbn [fst] in Q.
    eexists. eexists. split; [reflexivity|]. split; [reflexivity|].
    cbn [trace]. rewrite continuations_app, List.app_nil_r, Q, finally_continuations.
    reflexivity.
Qed.

Lemma both_handlers_error_every_call_witness :
  exists r e,
    flush render (fun _ _ => None) (hooks (Present declines) (Some toolDeclines))
      (mkTransformer false (concat callOfF_chunks) (concat callOfF_chunks) true) = Some r /\
    out r = mkStream [] (Errored e) /\
    continuations (trace r) = [].
Proof.
  apply (both_handlers_error_every_call render (fun _ _ => None)
           (hooks (Present declines) (Some toolDeclines)) declines toolDeclines
           (mkTransformer false (concat callOfF_chunks) (concat callOfF_chunks) true)
           callOfF_json); try reflexivity.
  right. reflexivity.
Defined.





Section CallRuns.
Variable eventsource_parser : list string -> list (list SSEEvent).
Variable as_OpenAIStreamReturnTypes : JSONValue -> OpenAIStreamReturnTypes.
Variable formatStreamPart : StreamPartKind -> JSONValue -> string.
Variable createStreamDataTransformer : bool -> Stream string -> Stream string.

Abbreviation source' := (source eventsource_parser as_OpenAIStreamReturnTypes).
Abbreviation leg' := (leg eventsource_parser as_OpenAIStreamReturnTypes).
Abbreviation OpenAIStream' :=
  (OpenAIStream eventsource_parser as_OpenAIStreamReturnTypes formatStreamPart
     createStreamDataTransformer).

Lemma source_no_handler (res : OpenAIStreamInput) (cb : OpenAIStreamCallbacks) :
  handlerCalls (fst (source' res cb)) = [].
Proof.
  unfold source. destruct res as [r|stream].
  - unfold AIStream. destruct (negb (ok r)).
    + destruct (body r) as [[|v more]|]; reflexivity.
    + apply createCallbacksTransformer_no_handler.
  - apply createCallbacksTransformer_no_handler.
Qed.

(** The state of the function-call stage once it has been given texts
    and then the chunks of a call. *)
Lemma transform_all_texts_then_call (cb : OpenAIStreamCallbacks) (pre : list string)
    (opening : string) (post : list string) :
  forallb (fun c => negb (opensCall c)) pre = true ->
  opensCall opening = true ->
  transform_all formatStreamPart cb initialTransformer (pre ++ opening :: post) =
  (mkTransformer false (concat (opening :: post)) (concat (pre ++ opening :: post)) true,
   map (forwarded formatStreamPart cb) pre).
Proof.
  intros Hp Ho.
  rewrite (transform_all_before_call formatStreamPart cb pre (opening :: post)
             initialTransformer eq_refl eq_refl Hp).
  cbn [transform_all initialTransformer aggregatedResponse aggregatedFinalCompletionResponse].
  unfold transform at 1. cbn [Frames.createChunkDecoder_simple isFirstChunk andb].
  unfold opensCall in Ho. rewrite Ho.
  match goal with |- context [transform_all _ _ ?s post] =>
    destruct (transform_all_in_call formatStreamPart cb post s eq_refl)
      as (st' & E & I & F & A & B)
  end.
  rewrite E, List.app_nil_r.
  cbn [aggregatedResponse aggregatedFinalCompletionResponse isFirstChunk
       isFunctionStreamingIn'] in *.
  specialize (F eq_refl). destruct st' as [f a b i]. cbn in *. subst.
  rewrite concat_app, !concat_cons. cbn [append]. now rewrite !app_assoc.
Qed.

Lemma flush_syntax_error (recur : OpenAIStreamInput -> OpenAIStreamCallbacks -> option Run)
    (cb : OpenAIStreamCallbacks) (aggregated final : string) :
  hasHandler cb = true ->
  parse aggregated = None ->
  flush formatStreamPart recur cb (mkTransformer false aggregated final true) =
  Some (mkRun (finally_ (onFinal cb) final) (mkStream [] (Errored SyntaxError)) (Some final)).
Proof.
  intros Hh Hp. unfold flush, hasHandler in *.
  cbn [isFirstChunk isFunctionStreamingIn' aggregatedResponse
       aggregatedFinalCompletionResponse negb andb].
  rewrite Hh, Hp. reflexivity.
Qed.

Lemma flush_arguments_error (recur : OpenAIStreamInput -> OpenAIStreamCallbacks -> option Run)
    (cb : OpenAIStreamCallbacks) (h : FunctionCallHandler) (aggregated final name A : string) :
  experimental_onFunctionCall cb = Present h ->
  parse aggregated = Some (callPayload name A) ->
  parse A = None ->
  flush formatStreamPart recur cb (mkTransformer false aggregated final true) =
  Some (mkRun (finally_ (onFinal cb) final) (mkStream [] (Errored SyntaxError)) (Some final)).
Proof.
  intros Hf Hp Ha. unfold flush.
  cbn [isFirstChunk isFunctionStreamingIn' aggregatedResponse
       aggregatedFinalCompletionResponse negb andb].
  rewrite Hf, Hp. cbn [slot_value is_some orb].
  unfold callFunctionHandler, callPayload.
  cbn [get prop lookup String.eqb Ascii.eqb Bool.eqb parse_any to_string].
  rewrite Ha. reflexivity.
Qed.

Lemma flush_answered (recur : OpenAIStreamInput -> OpenAIStreamCallbacks -> option Run)
    (cb : OpenAIStreamCallbacks) (h : FunctionCallHandler) (aggregated final name A : string)
    (v : JSONValue) (c : ascii) (s : string) :
  experimental_onFunctionCall cb = Present h ->
  experimental_onToolCall cb = None ->
  parse aggregated = Some (callPayload name A) ->
  parse A = Some v ->
  result (h (mkFunctionCallPayload (Some (JString name)) v) (messagesOf cb))
  = Returns (RetString (String c s)) ->
  flush formatStreamPart recur cb (mkTransformer false aggregated final true) =
  Some (mkRun ([OnFunctionCall (mkFunctionCallPayload (Some (JString name)) v)] ++
               finally_ (onFinal cb) (String c s))%list
          (mkStream [forwarded formatStreamPart cb (String c s)] Closed)
          (Some (String c s))).
Proof.
  intros Hf Ht Hp Ha Hr. unfold flush.
  cbn [isFirstChunk isFunctionStreamingIn' aggregatedResponse
       aggregatedFinalCompletionResponse negb andb].
  rewrite Hf, Ht, Hp. cbn [slot_value is_some orb].
  unfold callFunctionHandler, callPayload. fold (messagesOf cb).
  cbn [get prop lookup String.eqb Ascii.eqb Bool.eqb parse_any to_string].
  rewrite Ha, Hr. reflexivity.
Qed.

(** The chunks of a leg on which the model writes texts and then calls a
    function. *)
Lemma leg_of_texts_then_call (texts : list string) (name : string) (arguments0 : option string)
    (args : list string) (closing : list OpenAIStreamReturnTypes) (tail : list string) :
  is_empty name = false ->
  (forall b, streamable_from (mkExtract b true) closing = map NotText tail) ->
  leg' (FromAsyncIterable (map contentDelta texts ++ functionCall name arguments0 args closing)) =
  mkStream (yieldedTexts texts ++
            functionOpening name :: map cleanupArguments (filter nonempty args) ++ tail)%list
    Closed.
Proof.
  intros Hn Hc. rewrite leg_of_iterable. f_equal. unfold streamable.
  rewrite streamable_from_app.
  destruct (streamable_from_texts contentDelta texts (fun t => or_intror eq_refl) initialExtract)
    as [E _].
  rewrite E. unfold functionCall.
  rewrite (streamable_function_name _ _ _ _ Hn), streamable_function_arguments, Hc.
  cbn [initialExtract isStreamStart]. unfold yieldedTexts.
  rewrite map_app, map_map. cbn [map content_of]. rewrite map_app, !map_map.
  cbn [content_of]. rewrite !map_id. reflexivity.
Qed.

(** X15.  A function call that is not closed, because the stream ends
    after the argument increments or with a [finish_reason] of [length] or
    [content_filter], never reaches a handler: the texts before the call
    have been forwarded, [JSON.parse] of the aggregated text throws, and
    the stream is errored with that [SyntaxError]. *)
Theorem call_cut_short_is_a_syntax_error (fuel : nat) (cb : OpenAIStreamCallbacks)
    (texts : list string) (name : string) (arguments0 : option string) (args : list string)
    (frs : list FinishReason) :
  hasHandler cb = true ->
  forallb (fun c => negb (opensCall c)) (yieldedTexts texts) = true ->
  is_empty name = false -> plain name = true ->
  forallb closesNothing frs = true ->
  exists r,
    OpenAIStream' (S fuel)
      (FromAsyncIterable
         (map contentDelta texts ++ functionCall name arguments0 args (map finish frs))) cb
    = Some r /\
    out r = mkStream (map (forwarded formatStreamPart cb) (yieldedTexts texts))
              (Errored SyntaxError) /\
    handlerCalls (trace r) = [] /\
    continuations (trace r) = [].
Proof.
  intros Hh Ht Hn Hp Hf. cbn [OpenAIStream].
  pose proof (source_no_handler
                (FromAsyncIterable
                   (map contentDelta texts ++ functionCall name arguments0 args (map finish frs)))
                cb) as Hq.
  destruct (source_spec eventsource_parser as_OpenAIStreamReturnTypes
              (FromAsyncIterable
                 (map contentDelta texts ++ functionCall name arguments0 args (map finish frs)))
              cb) as (evs & E & _ & _ & _ & R).
  rewrite E in *. cbn [fst] in Hq. rewrite Hh.
  rewrite (leg_of_texts_then_call texts name arguments0 args (map finish frs) [] Hn)
    by (intros b; apply streamable_closes_nothing; exact Hf).
  unfold createFunctionCallTransformer. cbn [chunks ending].
  rewrite (transform_all_texts_then_call cb _ _ _ Ht (functionOpening_opens name)).
  rewrite flush_syntax_error; [|exact Hh|].
  2: { rewrite List.app_nil_r, concat_cons, concat_cleanup_filter.
       apply parse_unclosed_function_call. exact Hp. }
  eexists. split; [reflexivity|]. cbn [out trace chunks ending].
  rewrite List.app_nil_r, handlerCalls_app, continuations_app, Hq, R,
    finally_no_handler, finally_continuations. auto.
Qed.

(** X16.  When the argument text of a function call is not JSON (the
    empty text, for one), the function handler is not called: the texts
    before the call have been forwarded, [JSON.parse] of the arguments
    throws, and the stream is errored with that [SyntaxError]. *)
Theorem arguments_that_are_not_json (fuel : nat) (cb : OpenAIStreamCallbacks)
    (h : FunctionCallHandler) (texts : list string) (name : string)
    (arguments0 : option string) (args : list string) (fr : FinishReason) :
  experimental_onFunctionCall cb = Present h ->
  forallb (fun c => negb (opensCall c)) (yieldedTexts texts) = true ->
  is_empty name = false -> plain name = true ->
  escapable_text (concat args) = true ->
  parse (concat args) = None ->
  closesFunctionCall fr = true ->
  exists r,
    OpenAIStream' (S fuel)
      (FromAsyncIterable
         (map contentDelta texts ++ functionCall name arguments0 args [finish fr])) cb
    = Some r /\
    out r = mkStream (map (forwarded formatStreamPart cb) (yieldedTexts texts))
              (Errored SyntaxError) /\
    handlerCalls (trace r) = [] /\
    continuations (trace r) = [].
Proof.
  intros Hh Ht Hn Hp He Ha Hf. cbn [OpenAIStream].
  assert (Hhas : hasHandler cb = true) by (unfold hasHandler; now rewrite Hh).
  pose proof (source_no_handler
                (FromAsyncIterable
                   (map contentDelta texts ++ functionCall name arguments0 args [finish fr]))
                cb) as Hq.
  destruct (source_spec eventsource_parser as_OpenAIStreamReturnTypes
              (FromAsyncIterable
                 (map contentDelta texts ++ functionCall name arguments0 args [finish fr]))
              cb) as (evs & E & _ & _ & _ & R).
  rewrite E in *. cbn [fst] in Hq. rewrite Hhas.
  rewrite (leg_of_texts_then_call texts name arguments0 args [finish fr] [functionClosing] Hn)
    by (intros b; apply streamable_closes_function_call; exact Hf).
  unfold createFunctionCallTransformer. cbn [chunks ending].
  rewrite (transform_all_texts_then_call cb _ _ _ Ht (functionOpening_opens name)).
  rewrite (flush_arguments_error _ cb h _ _ name (concat args) Hh); [| |exact Ha].
  2: { rewrite concat_cons, concat_app, concat_cleanup_filter.
       cbn [concat fold_right]. rewrite app_nil_r.
       apply parse_function_call; assumption. }
  eexists. split; [reflexivity|]. cbn [out trace chunks ending].
  rewrite List.app_nil_r, handlerCalls_app, continuations_app, Hq, R,
    finally_no_handler, finally_continuations. auto.
Qed.

(** X17.  When the function handler answers a call with a string that is
    not empty, the stream ends with that string: after the texts forwarded
    before the call, the answer is the last chunk (a text part in
    multiplexed mode), the stream closes without a nested call, the handler
    has been called once, with the name and the parsed arguments, and
    [onFinal], when set, is given the answer alone. *)
Theorem string_answer_ends_the_stream (fuel : nat) (cb : OpenAIStreamCallbacks)
    (h : FunctionCallHandler) (texts : list string) (name : string)
    (arguments0 : option string) (args : list string) (fr : FinishReason)
    (v : JSONValue) (c : ascii) (s : string) :
  experimental_onFunctionCall cb = Present h ->
  experimental_onToolCall cb = None ->
  forallb (fun c => negb (opensCall c)) (yieldedTexts texts) = true ->
  is_empty name = false -> plain name = true ->
  escapable_text (concat args) = true ->
  parse (concat args) = Some v ->
  closesFunctionCall fr = true ->
  result (h (mkFunctionCallPayload (Some (JString name)) v) (messagesOf cb))
  = Returns (RetString (String c s)) ->
  exists r,
    OpenAIStream' (S fuel)
      (FromAsyncIterable
         (map contentDelta texts ++ functionCall name arguments0 args [finish fr])) cb
    = Some r /\
    out r = mkStream (map (forwarded formatStreamPart cb) (yieldedTexts texts) ++
                      [forwarded formatStreamPart cb (String c s)])%list Closed /\
    handlerCalls (trace r) = [OnFunctionCall (mkFunctionCallPayload (Some (JString name)) v)] /\
    finals (trace r) = (if onFinal cb then [String c s] else []) /\
    continuations (trace r) = [].
Proof.
  intros Hh Hno Ht Hn Hp He Ha Hf Hr. cbn [OpenAIStream].
  assert (Hhas : hasHandler cb = true) by (unfold hasHandler; now rewrite Hh).
  pose proof (source_no_handler
                (FromAsyncIterable
                   (map contentDelta texts ++ functionCall name arguments0 args [finish fr]))
                cb) as Hq.
  destruct (source_spec eventsource_parser as_OpenAIStreamReturnTypes
              (FromAsyncIterable
                 (map contentDelta texts ++ functionCall name arguments0 args [finish fr]))
              cb) as (evs & E & _ & F & _ & R).
  rewrite E in *. cbn [fst] in Hq. rewrite Hhas.
  rewrite (leg_of_texts_then_call texts name arguments0 args [finish fr] [functionClosing] Hn)
    by (intros b; apply streamable_closes_function_call; exact Hf).
  unfold createFunctionCallTransformer. cbn [chunks ending].
  rewrite (transform_all_texts_then_call cb _ _ _ Ht (functionOpening_opens name)).
  rewrite (flush_answered _ cb h _ _ name (concat args) v c s Hh Hno); [| |exact Ha|exact Hr].
  2: { rewrite concat_cons, concat_app, concat_cleanup_filter.
       cbn [concat fold_right]. rewrite app_nil_r.
       apply parse_function_call; assumption. }
  eexists. split; [reflexivity|]. cbn [out trace chunks ending].
  rewrite !handlerCalls_app, !continuations_app, !finals_app, Hq, R, (F Hhas),
    finally_no_handler, finally_continuations, finally_finals.
  cbn [handlerCalls continuations finals app nonempty is_empty negb].
  rewrite andb_true_r. auto.
Qed.

Lemma flush_continued (recur : OpenAIStreamInput -> OpenAIStreamCallbacks -> option Run)
    (cb : OpenAIStreamCallbacks) (h : FunctionCallHandler) (aggregated final name A : string)
    (v : JSONValue) (calls : list JSONValue) (res : OpenAIStreamInput) (inner : Run) :
  experimental_onFunctionCall cb = Present h ->
  experimental_onToolCall cb = None ->
  parse aggregated = Some (callPayload name A) ->
  parse A = Some v ->
  h (mkFunctionCallPayload (Some (JString name)) v) (messagesOf cb)
  = mkHandlerRun calls (Returns (RetStreamable res)) ->
  recur res
    (filteredCallbacks cb
       (fold_left (fun _ r =>
                     createFunctionCallMessages
                       (Some (JObject [("name", JString name); ("arguments", JString A)]))
                       (messagesOf cb) r) calls (messagesOf cb))) = Some inner ->
  flush formatStreamPart recur cb (mkTransformer false aggregated final true) =
  Some (mkRun (OnFunctionCall (mkFunctionCallPayload (Some (JString name)) v) ::
               Recurse res :: trace inner)%list
          (out inner) (completion inner)).
Proof.
  intros Hf Ht Hp Ha Hr Hi. unfold flush.
  cbn [isFirstChunk isFunctionStreamingIn' aggregatedResponse
       aggregatedFinalCompletionResponse negb andb].
  rewrite Hf, Ht, Hp. cbn [slot_value is_some orb].
  unfold callFunctionHandler, callPayload. fold (messagesOf cb).
  cbn [get prop lookup String.eqb Ascii.eqb Bool.eqb parse_any to_string].
  rewrite Ha, Hr. cbn [result closure_calls]. rewrite Hi.
  assert (Z : match ending (out inner) with
              | Pending => [] | _ => finally_ false final end = [])
    by (destruct (ending (out inner)); reflexivity).
  rewrite Z, List.app_nil_r. cbn [app]. rewrite List.app_nil_r. reflexivity.
Qed.

(** X18.  When the function handler answers a call with a response, the
    run goes on with [OpenAIStream] on that response: nothing is emitted
    for the call itself; after the texts forwarded before the call, the
    stream is the stream of the nested call, chunk by chunk, and ends as it
    does; the nested call is made with the hooks of the outer one but
    [onStart], and with the messages of the last call of the message
    closure; and [onFinal] is left to the nested call. *)
Theorem continuation_relays_the_nested_stream (fuel : nat) (cb : OpenAIStreamCallbacks)
    (h : FunctionCallHandler) (texts : list string) (name : string)
    (arguments0 : option string) (args : list string) (fr : FinishReason)
    (v : JSONValue) (calls : list JSONValue) (res : OpenAIStreamInput) (inner : Run) :
  experimental_onFunctionCall cb = Present h ->
  experimental_onToolCall cb = None ->
  forallb (fun c => negb (opensCall c)) (yieldedTexts texts) = true ->
  is_empty name = false -> plain name = true ->
  escapable_text (concat args) = true ->
  parse (concat args) = Some v ->
  closesFunctionCall fr = true ->
  h (mkFunctionCallPayload (Some (JString name)) v) (messagesOf cb)
  = mkHandlerRun calls (Returns (RetStreamable res)) ->
  OpenAIStream' fuel res
    (filteredCallbacks cb
       (match rev calls with
        | [] => messagesOf cb
        | result :: _ =>
            createFunctionCallMessages
              (Some (JObject [("name", JString name); ("arguments", JString (concat args))]))
              (messagesOf cb) result
        end)) = Some inner ->
  exists r,
    OpenAIStream' (S fuel)
      (FromAsyncIterable
         (map contentDelta texts ++ functionCall name arguments0 args [finish fr])) cb
    = Some r /\
    out r = mkStream (map (forwarded formatStreamPart cb) (yieldedTexts texts) ++
                      chunks (out inner))%list (ending (out inner)) /\
    handlerCalls (trace r) =
      OnFunctionCall (mkFunctionCallPayload (Some (JString name)) v) ::
      handlerCalls (trace inner) /\
    continuations (trace r) = res :: continuations (trace inner) /\
    finals (trace r) = finals (trace inner).
Proof.
  intros Hh Hno Ht Hn Hp He Ha Hf Hr Hi. cbn [OpenAIStream].
  assert (Hhas : hasHandler cb = true) by (unfold hasHandler; now rewrite Hh).
  pose proof (source_no_handler
                (FromAsyncIterable
                   (map contentDelta texts ++ functionCall name arguments0 args [finish fr]))
                cb) as Hq.
  destruct (source_spec eventsource_parser as_OpenAIStreamReturnTypes
              (FromAsyncIterable
                 (map contentDelta texts ++ functionCall name arguments0 args [finish fr]))
              cb) as (evs & E & _ & F & _ & R).
  rewrite E in *. cbn [fst] in Hq. rewrite Hhas.
  rewrite (leg_of_texts_then_call
             texts name arguments0 args [finish fr] [functionClosing] Hn)
    by (intros b; apply streamable_closes_function_call; exact Hf).
  unfold createFunctionCallTransformer. cbn [chunks ending].
  rewrite (transform_all_texts_then_call cb _ _ _ Ht (functionOpening_opens name)).
  rewrite <- fold_left_last in Hi.
  rewrite (flush_continued _ cb h _ _ name (concat args) v calls res inner Hh Hno);
    [| |exact Ha|exact Hr|exact Hi].
  2: { rewrite concat_cons, concat_app, concat_cleanup_filter.
       cbn [concat fold_right]. rewrite app_nil_r.
       apply parse_function_call; assumption. }
  eexists. split; [reflexivity|]. cbn [out trace chunks ending].
  rewrite !handlerCalls_app, !continuations_app, !finals_app, Hq, R, (F Hhas).
  cbn [handlerCalls continuations finals app]. auto.
Qed.




End CallRuns.

Lemma call_cut_short_is_a_syntax_error_witness :
  exists r,
    runOpenAIStream 1
      (FromAsyncIterable
         (map contentDelta ["Let me check."] ++
          functionCall "f" None ["{" ++ q "a"; ":1"] (map finish [fr_length])))
      (hooks (Present declines) None)
    = Some r /\
    out r = mkStream (map (forwarded render (hooks (Present declines) None))
                        (yieldedTexts ["Let me check."]))
              (Errored SyntaxError) /\
    handlerCalls (trace r) = [] /\
    continuations (trace r) = [].
Proof.
  apply (call_cut_short_is_a_syntax_error no_events no_cast render pass_on 0
           (hooks (Present declines) None) ["Let me check."] "f" None
           ["{" ++ q "a"; ":1"] [fr_length]); reflexivity.
Defined.

Lemma arguments_that_are_not_json_witness :
  exists r,
    runOpenAIStream 1
      (FromAsyncIterable
         (map contentDelta ["Let me check."] ++
          functionCall "f" (Some "") [] [finish fr_function_call]))
      (hooks (Present declines) None)
    = Some r /\
    out r = mkStream (map (forwarded render (hooks (Present declines) None))
                        (yieldedTexts ["Let me check."]))
              (Errored SyntaxError) /\
    handlerCalls (trace r) = [] /\
    continuations (trace r) = [].
Proof.
  apply (arguments_that_are_not_json no_events no_cast render pass_on 0
           (hooks (Present declines) None) declines ["Let me check."] "f" (Some "")
           [] fr_function_call); reflexivity.
Defined.

Lemma string_answer_ends_the_stream_witness :
  exists r,
    runOpenAIStream 1
      (FromAsyncIterable
         (map contentDelta ["Let me check."] ++
          functionCall "f" None ["{" ++ q "a"; ":1}"] [finish fr_function_call]))
      (hooks (Present (answers "It is sunny.")) None)
    = Some r /\
    out r = mkStream (map (forwarded render (hooks (Present (answers "It is sunny.")) None))
                        (yieldedTexts ["Let me check."]) ++
                      [forwarded render (hooks (Present (answers "It is sunny.")) None)
                         "It is sunny."])%list Closed /\
    handlerCalls (trace r) =
      [OnFunctionCall (mkFunctionCallPayload (Some (JString "f")) (JObject [("a", JNumber "1")]))] /\
    finals (trace r) =
      (if onFinal (hooks (Present (answers "It is sunny.")) None)
       then ["It is sunny."] else []) /\
    continuations (trace r) = [].
Proof.
  apply (string_answer_ends_the_stream no_events no_cast render pass_on 0
           (hooks (Present (answers "It is sunny.")) None) (answers "It is sunny.")
           ["Let me check."] "f" None ["{" ++ q "a"; ":1}"] fr_function_call
           (JObject [("a", JNumber "1")]) "I" "t is sunny."); reflexivity.
Defined.

Lemma continuation_relays_the_nested_stream_witness :
  exists r,
    runOpenAIStream 3
      (FromAsyncIterable
         (map contentDelta ["Let me check."] ++
          functionCall "f" None ["{" ++ q "a"; ":1}"] [finish fr_function_call]))
      (onFinalOnly (Present continues))
    = Some r /\
    out r = mkStream (map (forwarded render (onFinalOnly (Present continues)))
                        (yieldedTexts ["Let me check."]) ++
                      chunks (out sunnyRun))%list (ending (out sunnyRun)) /\
    handlerCalls (trace r) =
      OnFunctionCall (mkFunctionCallPayload (Some (JString "f")) (JObject [("a", JNumber "1")])) ::
      handlerCalls (trace sunnyRun) /\
    continuations (trace r) =
      FromAsyncIterable [contentDelta " It is"; contentDelta " sunny."] ::
      continuations (trace sunnyRun) /\
    finals (trace r) = finals (trace sunnyRun).
Proof.
  apply (continuation_relays_the_nested_stream no_events no_cast render pass_on 2
           (onFinalOnly (Present continues))
           continues ["Let me check."] "f" None ["{" ++ q "a"; ":1}"] fr_function_call
           (JObject [("a", JNumber "1")]) [JString "sunny"]
           (FromAsyncIterable [contentDelta " It is"; contentDelta " sunny."])
           sunnyRun);
    reflexivity.
Defined.


End CallFacts.

(** ** The stages of a pipeline on their own *)

Module StageFacts.
Import Str JSON Provider Streams Pipeline Vocabulary Samples Scenarios StrFacts
  PipelineFacts CallFacts.

Lemma pushes_closed {A : Type} (xs ys : list A) (e : Ending) :
  pushes xs (mkStream ys e) = mkStream (xs ++ ys)%list e.
Proof. induction xs as [|x xs IH]; [reflexivity|]. cbn [pushes]. now rewrite IH. Qed.

(** [feed] carries on through the events of a chunk. *)
Lemma feed_app (S : Type) (customParser : option (AIStreamParser S)) (pre post : list SSEEvent) :
  forall (st : S) (terminated : bool),
    feed customParser st terminated (pre ++ post)%list =
    match feed customParser st terminated pre with
    | (enqueued, Returned st' terminated') =>
        let next := feed customParser st' terminated' post in
        ((enqueued ++ fst next)%list, snd next)
    | thrown => thrown
    end.
Proof.
  induction pre as [|[event data|] pre IH]; intros st terminated.
  - cbn. now destruct (feed customParser st terminated post).
  - cbn [app feed]. destruct (is_done event data); [apply IH|].
    destruct customParser as [parser|].
    + destruct (parser st data event) as [[[m|] st']|]; [| apply IH | reflexivity].
      destruct (truthy_message m); [|apply IH].
      unfold enqueue. destruct terminated; [reflexivity|].
      rewrite IH. destruct (feed (Some parser) st' false pre) as [enqueued [st'' t|e t]];
        reflexivity.
    + destruct (is_empty data); [apply IH|].
      unfold enqueue. destruct terminated; [reflexivity|].
      rewrite IH. destruct (feed None st false pre) as [enqueued [st'' t|e t]];
        reflexivity.
  - cbn [app feed]. apply IH.
Qed.

(** Once the controller is terminated, a call of [transform] enqueues
    nothing more, and it does not return with the controller open. *)
Lemma feed_terminated (S : Type) (customParser : option (AIStreamParser S))
    (events : list SSEEvent) :
  forall st : S,
    fst (feed customParser st true events) = [] /\
    forall st', snd (feed customParser st true events) <> Returned st' false.
Proof.
  induction events as [|[event data|] events IH]; intros st.
  - split; [reflexivity | discriminate].
  - cbn [feed]. destruct (is_done event data); [apply IH|].
    destruct customParser as [parser|].
    + destruct (parser st data event) as [[[m|] st']|];
        [| apply IH | split; [reflexivity | discriminate]].
      destruct (truthy_message m); [|apply IH].
      split; [reflexivity | discriminate].
    + destruct (is_empty data); [apply IH|].
      split; [reflexivity | discriminate].
  - cbn [feed]. apply IH.
Qed.

Lemma feed_with_done (S : Type) (customParser : option (AIStreamParser S))
    (events : list SSEEvent) :
  existsb is_done_event events = true ->
  forall (st st' : S) (terminated : bool),
    snd (feed customParser st terminated events) <> Returned st' false.
Proof.
  induction events as [|[event data|] events IH]; intros H st st' terminated;
    [discriminate H| |exact (IH H st st' terminated)].
  cbn [existsb is_done_event] in H. cbn [feed].
  destruct (is_done event data) eqn:Ed.
  - apply (feed_terminated S customParser events st).
  - cbn [orb] in H. destruct customParser as [parser|].
    + destruct (parser st data event) as [[[m|] st'']|]; [| now apply IH | discriminate].
      destruct (truthy_message m); [|now apply IH].
      unfold enqueue. destruct terminated; [discriminate|]. cbn [snd]. now apply IH.
    + destruct (is_empty data); [now apply IH|].
      unfold enqueue. destruct terminated; [discriminate|]. cbn [snd]. now apply IH.
Qed.

(** The chunks of a body are transformed one after the other. *)
Lemma createEventStreamTransformer_last (S : Type) (customParser : option (AIStreamParser S))
    (before : list (list SSEEvent)) (events events' : list SSEEvent)
    (after after' : list (list SSEEvent)) :
  (forall st : S,
     createEventStreamTransformer customParser st (events :: after) =
     createEventStreamTransformer customParser st (events' :: after')) ->
  forall st : S,
    createEventStreamTransformer customParser st (before ++ events :: after)%list =
    createEventStreamTransformer customParser st (before ++ events' :: after')%list.
Proof.
  intros H. induction before as [|chunk before IH]; intros st; [apply H|].
  cbn [app createEventStreamTransformer].
  destruct (feed customParser st false chunk) as [enqueued [st' [|]|e t]];
    [reflexivity | now rewrite IH | reflexivity].
Qed.

(** X20.  Once the parser has reported the data [[DONE]], or an event
    named [done], the transformer has terminated: the chunks of the body
    that follow are never transformed, and the stream is the one of the
    body cut after the chunk that holds the event; when the event is the
    last one reported for its chunk, that is the stream of the events
    before it. *)
Theorem nothing_is_read_after_done (S : Type) (customParser : option (AIStreamParser S))
    (st : S) (before : list (list SSEEvent)) (pre : list SSEEvent)
    (event : option string) (data : string) (post : list SSEEvent)
    (after : list (list SSEEvent)) :
  is_done event data = true ->
  createEventStreamTransformer customParser st
    (before ++ (pre ++ ParsedEvent event data :: post) :: after)%list =
  createEventStreamTransformer customParser st
    (before ++ [pre ++ ParsedEvent event data :: post])%list /\
  createEventStreamTransformer customParser st
    (before ++ (pre ++ [ParsedEvent event data]) :: after)%list =
  createEventStreamTransformer customParser st (before ++ [pre])%list.
Proof.
  intros Hd. split.
  - apply createEventStreamTransformer_last. intros st0.
    cbn [createEventStreamTransformer].
    assert (D : existsb is_done_event (pre ++ ParsedEvent event data :: post)%list = true).
    { rewrite existsb_app. cbn [existsb is_done_event]. rewrite Hd.
      now rewrite orb_true_r. }
    pose proof (feed_with_done S customParser _ D st0) as N.
    destruct (feed customParser st0 false (pre ++ ParsedEvent event data :: post)%list)
      as [enqueued [st' [|]|e t]] eqn:E; [reflexivity| |reflexivity].
    exfalso. apply (N st' false). now rewrite E.
  - apply createEventStreamTransformer_last. intros st0.
    cbn [createEventStreamTransformer]. rewrite feed_app.
    destruct (feed customParser st0 false pre) as [enqueued [st' t|e t]]; [|reflexivity].
    cbn [feed]. rewrite Hd. cbn [fst snd]. rewrite List.app_nil_r.
    destruct t; [reflexivity|].
    cbn [createEventStreamTransformer]. now rewrite pushes_closed, List.app_nil_r.
Qed.

(** A body of three chunks, the second of which holds [[DONE]]. *)
Lemma nothing_is_read_after_done_witness :
  createEventStreamTransformer (@None (AIStreamParser unit)) tt
    [dataEvents ["Hello"]; dataEvents [" world"; "[DONE]"; ""]; dataEvents ["more"]] =
  createEventStreamTransformer (@None (AIStreamParser unit)) tt
    [dataEvents ["Hello"]; dataEvents [" world"; "[DONE]"; ""]] /\
  createEventStreamTransformer (@None (AIStreamParser unit)) tt
    [dataEvents ["Hello"]; dataEvents [" world"; "[DONE]"]; dataEvents ["more"]] =
  mkStream [Text "Hello"; Text " world"] Closed.
Proof.
  destruct (nothing_is_read_after_done unit None tt [dataEvents ["Hello"]]
              (dataEvents [" world"]) None "[DONE]" (dataEvents [""])
              [dataEvents ["more"]] eq_refl) as [A _].
  destruct (nothing_is_read_after_done unit None tt [dataEvents ["Hello"]]
              (dataEvents [" world"]) None "[DONE]" []
              [dataEvents ["more"]] eq_refl) as [_ B].
  split; [exact A|].
  change (createEventStreamTransformer None tt
            ([dataEvents ["Hello"]] ++
             (dataEvents [" world"] ++ [ParsedEvent None "[DONE]"]) ::
             [dataEvents ["more"]])%list =
          mkStream [Text "Hello"; Text " world"] Closed).
  rewrite B. reflexivity.
Defined.

(** Without a custom parser, events with data other than [[DONE]] make a
    call of [transform] enqueue the data that are not empty, and return. *)
Lemma feed_data (S : Type) (st : S) (datas : list string) :
  forallb (fun d => negb (String.eqb d "[DONE]")) datas = true ->
  feed None st false (dataEvents datas) =
  (map Text (filter nonempty datas), Returned st false).
Proof.
  induction datas as [|d datas IH]; intros H; [reflexivity|].
  cbn in H. apply andb_true_iff in H as [Hd H]. apply negb_true_iff in Hd.
  cbn [dataEvents map feed]. unfold is_done. rewrite Hd. cbn [orb].
  fold (dataEvents datas). rewrite (IH H). destruct d as [|c d]; reflexivity.
Qed.



(** X29.  An event that follows the data [[DONE]] in the same chunk of the
    body still reaches the callback, and when it gives a message
    [controller.enqueue] throws on the terminated controller.  Without a
    custom parser: when two or more messages had been enqueued for that
    chunk before [[DONE]], the stream is errored and only the first of
    them is delivered, the others being dropped with the queue; when at
    most one had been, the stream was closed by [terminate] and stays
    closed.  The messages of the chunks before are delivered in both
    cases. *)
Theorem message_after_done_in_the_same_chunk (S : Type) (st : S)
    (before : list (list string)) (datas : list string) (data : string)
    (post : list SSEEvent) (after : list (list SSEEvent)) :
  forallb is_message (List.concat before) = true ->
  forallb is_message datas = true ->
  is_message data = true ->
  createEventStreamTransformer None st
    (map dataEvents before ++
     (dataEvents datas ++ ParsedEvent None "[DONE]" :: ParsedEvent None data :: post) ::
     after)%list =
  match datas with
  | first :: _ :: _ =>
      mkStream (map Text (List.concat before ++ [first])%list) (Errored TypeError)
  | _ => mkStream (map Text (List.concat before ++ datas)%list) Closed
  end.
Proof.
  intros Hb Hd Hm.
  transitivity
    (pushes (map Text (List.concat before))
       match datas with
       | first :: _ :: _ => mkStream [Text first] (Errored TypeError)
       | _ => mkStream (map Text datas) Closed
       end);
    [|destruct datas as [|first [|second datas]]; rewrite pushes_closed, map_app; reflexivity].
  assert (M : forall l, forallb is_message l = true ->
              forallb (fun d => negb (String.eqb d "[DONE]")) l = true /\
              filter nonempty l = l).
  { clear. induction l as [|d l IH]; intros H; [split; reflexivity|].
    cbn [forallb] in H. apply andb_true_iff in H as [Hd H].
    unfold is_message in Hd. apply andb_true_iff in Hd as [Hn Hd].
    destruct (IH H) as [IH1 IH2]. cbn [forallb filter]. rewrite Hn, Hd, IH1, IH2.
    split; reflexivity. }
  revert st. induction before as [|chunk before IH]; intros st.
  - cbn [map app List.concat pushes createEventStreamTransformer].
    destruct (M datas Hd) as [D1 D2].
    rewrite feed_app, (feed_data S st datas D1), D2.
    cbn [feed]. change (is_done None "[DONE]") with true. cbn iota.
    unfold is_message in Hm. apply andb_true_iff in Hm as [Hn Hm].
    apply negb_true_iff in Hm. unfold is_done. rewrite Hm. cbn [orb].
    unfold nonempty in Hn. apply negb_true_iff in Hn. rewrite Hn.
    unfold enqueue. cbn [fst snd]. rewrite List.app_nil_r.
    destruct datas as [|first [|second datas]]; reflexivity.
  - cbn [List.concat] in Hb. rewrite forallb_app in Hb. apply andb_true_iff in Hb as [Hc Hb].
    cbn [map app createEventStreamTransformer List.concat].
    destruct (M chunk Hc) as [C1 C2].
    rewrite (feed_data S st chunk C1), C2, (IH Hb st).
    rewrite map_app. clear. induction chunk as [|d chunk IHc]; [reflexivity|].
    cbn [map app pushes]. now rewrite IHc.
Qed.

(** Two chunks, the second with two messages, or with one, before
    [[DONE]] and an event with data after it. *)
Lemma message_after_done_in_the_same_chunk_witness :
  createEventStreamTransformer None tt
    [dataEvents ["Hello"]; dataEvents [" wor"; "ld"; "[DONE]"; "!"]] =
  mkStream [Text "Hello"; Text " wor"] (Errored TypeError) /\
  createEventStreamTransformer None tt
    [dataEvents ["Hello"]; dataEvents [" world"; "[DONE]"; "!"]] =
  mkStream [Text "Hello"; Text " world"] Closed.
Proof.
  split.
  - exact (message_after_done_in_the_same_chunk unit tt [["Hello"]] [" wor"; "ld"] "!" [] []
             eq_refl eq_refl eq_refl).
  - exact (message_after_done_in_the_same_chunk unit tt [["Hello"]] [" world"] "!" [] []
             eq_refl eq_refl eq_refl).
Defined.

Lemma tokens_callbacks_transform (cb : OpenAIStreamCallbacks) (src : Stream Message) :
  exists mid,
    createCallbacksTransformer cb src =
      ((when (onStart cb) OnStart ++ mid ++
        match ending src with
        | Closed => callbacks_flush cb (concat (map content_of (chunks src)))
        | _ => []
        end)%list,
       mkStream (map content_of (chunks src)) (ending src)) /\
    starts mid = 0 /\ finals mid = [] /\ completions mid = [] /\
    tokens mid = (if onToken cb then map content_of (chunks src) else []).
Proof.
  unfold createCallbacksTransformer.
  destruct (callbacks_transform_spec cb (chunks src) "") as (evs & E & T & X & S & F & C & R).
  rewrite E. exists evs. cbn [append]. auto.
Qed.

Section ResponseStages.
Variable eventsource_parser : list string -> list (list SSEEvent).

(** X22.  The hooks of [AIStream] for a response that is ok, when the
    callbacks are not those of [OpenAIStream] (they have no
    [experimental_onFunctionCall]): [onStart] is called once, before
    anything else; [onToken] once for every chunk of the stream, with the
    chunk; and when the stream closes, and only then, [onCompletion] and
    then [onFinal], last of all, each once and with the concatenation of
    the chunks, be it empty. *)
Theorem AIStream_calls_its_hooks (S : Type) (response : Response)
    (customParser : option (AIStreamParser S)) (st : S) (callbacks : OpenAIStreamCallbacks) :
  ok response = true ->
  experimental_onFunctionCall callbacks = Absent ->
  let run := AIStream eventsource_parser response customParser st callbacks in
  let text := concat (chunks (snd run)) in
  let closed := is_closed (ending (snd run)) in
  starts (fst run) = (if onStart callbacks then 1 else 0) /\
  (onStart callbacks = true -> exists rest, fst run = OnStart :: rest) /\
  tokens (fst run) = (if onToken callbacks then chunks (snd run) else []) /\
  completions (fst run) = (if closed && onCompletion callbacks then [text] else []) /\
  finals (fst run) = (if closed && onFinal callbacks then [text] else []) /\
  (closed && onFinal callbacks = true -> exists before, fst run = (before ++ [OnFinal text])%list).
Proof.
  intros Hok Hab. unfold AIStream. rewrite Hok. cbn [negb].
  match goal with |- context [createCallbacksTransformer callbacks ?s] =>
    destruct (tokens_callbacks_transform callbacks s) as (mid & E & S0 & F0 & C0 & T0);
    set (src := s) in *
  end.
  cbv zeta. rewrite E. cbn [fst snd chunks ending].
  unfold callbacks_flush, isOfTypeOpenAIStreamCallbacks. rewrite Hab.
  cbn [slot_in negb]. rewrite andb_true_r.
  rewrite !starts_app, !tokens_app, !completions_app, !finals_app, S0, F0, C0, T0.
  set (text := concat (map content_of (chunks src))).
  repeat split.
  - destruct (onStart callbacks), (ending src), (onCompletion callbacks), (onFinal callbacks);
      reflexivity.
  - intros ->. eexists. reflexivity.
  - destruct (onStart callbacks), (ending src), (onCompletion callbacks), (onFinal callbacks),
      (onToken callbacks); cbn; rewrite ?List.app_nil_r; reflexivity.
  - destruct (onStart callbacks), (ending src), (onCompletion callbacks), (onFinal callbacks);
      reflexivity.
  - destruct (onStart callbacks), (ending src), (onCompletion callbacks), (onFinal callbacks);
      reflexivity.
  - intros H. apply andb_true_iff in H as [Hc Hf]. rewrite Hf.
    destruct (ending src); try discriminate Hc.
    exists (when (onStart callbacks) OnStart ++ mid ++
            when (onCompletion callbacks) (OnCompletion text))%list.
    cbn [when]. now rewrite <- !List.app_assoc.
Qed.
End ResponseStages.

Lemma AIStream_calls_its_hooks_witness :
  let run := AIStream (fun _ => [[ParsedEvent None "Hello"; ParsedEvent None "[DONE]"]])
               (mkResponse true (Some ["data: Hello"])) (@None (AIStreamParser unit)) tt
               (mkCallbacks true true true true true false Absent None None) in
  let text := concat (chunks (snd run)) in
  let closed := is_closed (ending (snd run)) in
  starts (fst run) = (if onStart (mkCallbacks true true true true true false Absent None None)
                      then 1 else 0) /\
  (onStart (mkCallbacks true true true true true false Absent None None) = true ->
   exists rest, fst run = OnStart :: rest) /\
  tokens (fst run) = (if onToken (mkCallbacks true true true true true false Absent None None)
                      then chunks (snd run) else []) /\
  completions (fst run) =
    (if closed && onCompletion (mkCallbacks true true true true true false Absent None None)
     then [text] else []) /\
  finals (fst run) =
    (if closed && onFinal (mkCallbacks true true true true true false Absent None None)
     then [text] else []) /\
  (closed && onFinal (mkCallbacks true true true true true false Absent None None) = true ->
   exists before, fst run = (before ++ [OnFinal text])%list).
Proof.
  apply (AIStream_calls_its_hooks
           (fun _ => [[ParsedEvent None "Hello"; ParsedEvent None "[DONE]"]]) unit
           (mkResponse true (Some ["data: Hello"])) None tt
           (mkCallbacks true true true true true false Absent None None)); reflexivity.
Defined.

Lemma before_and_from_call (src : list string) :
  src = (beforeCall src ++ fromCall src)%list /\
  forallb (fun c => negb (opensCall c)) (beforeCall src) = true /\
  (fromCall src = [] \/
   exists opening post, fromCall src = opening :: post /\ opensCall opening = true).
Proof.
  induction src as [|c src (IH1 & IH2 & IH3)].
  - repeat split. now left.
  - cbn [beforeCall fromCall]. destruct (opensCall c) eqn:E.
    + repeat split. right. exists c, src. auto.
    + cbn [app forallb]. rewrite E, IH2. repeat split; [now rewrite <- IH1 | exact IH3].
Qed.

(** X23.  What [transform] does with any chunks, as a whole: the chunks
    before the first one that opens a call are forwarded, one by one (as
    text parts in multiplexed mode); that chunk and all the chunks after
    it are appended to the call buffer and none of them is forwarded;
    every chunk is in [aggregatedFinalCompletionResponse]; and the two
    flags are opposite, a call being open exactly when some chunk opened
    one. *)
Theorem transform_splits_at_the_first_call
    (formatStreamPart : StreamPartKind -> JSONValue -> string)
    (callbacks : OpenAIStreamCallbacks) (src : list string) :
  transform_all formatStreamPart callbacks initialTransformer src =
  (mkTransformer (is_nil (fromCall src)) (concat (fromCall src)) (concat src)
     (negb (is_nil (fromCall src))),
   map (forwarded formatStreamPart callbacks) (beforeCall src)).
Proof.
  destruct (before_and_from_call src) as (S & P & [N | (opening & post & N & O)]).
  - rewrite N in *. rewrite List.app_nil_r in S. rewrite <- S in P.
    pose proof (transform_all_before_call formatStreamPart callbacks src []
                  initialTransformer eq_refl eq_refl P) as T.
    rewrite List.app_nil_r in T. rewrite T, <- S. cbn. now rewrite List.app_nil_r.
  - rewrite N in *. rewrite S at 1.
    rewrite (transform_all_texts_then_call formatStreamPart callbacks _ _ _ P O).
    rewrite <- S. reflexivity.
Qed.

Section ResponseLegs.
Variable eventsource_parser : list string -> list (list SSEEvent).
Variable as_OpenAIStreamReturnTypes : JSONValue -> OpenAIStreamReturnTypes.

Lemma parse_done : parse "[DONE]" = None.
Proof. vm_compute. reflexivity. Qed.

(** The events of one chunk of a body, parsed by [parseOpenAIStream] one
    after the other, make a call of [transform] enqueue what [streamable]
    yields for the chunks they hold. *)
Lemma feed_as_chunks (datas : list string) (jsons : list JSONValue) :
  map parse datas = map Some jsons ->
  forallb notAzure (map as_OpenAIStreamReturnTypes jsons) = true ->
  forall st,
    feed (Some (parseOpenAIStream as_OpenAIStreamReturnTypes)) st false (dataEvents datas) =
    (streamable_from st (map as_OpenAIStreamReturnTypes jsons),
     Returned (extractStateAfter st (map as_OpenAIStreamReturnTypes jsons)) false).
Proof.
  revert jsons. induction datas as [|d datas IH]; intros [|j jsons] Hp Hz st;
    try discriminate Hp.
  - reflexivity.
  - cbn [map] in Hp, Hz. inversion Hp as [[Hd Hrest]]. cbn [forallb] in Hz.
    apply andb_true_iff in Hz as [Hj Hz].
    cbn [dataEvents map feed]. fold (dataEvents datas).
    assert (Hnd : is_done None d = false).
    { unfold is_done. rewrite orb_false_r. apply String.eqb_neq. intros ->.
      rewrite parse_done in Hd. discriminate. }
    rewrite Hnd. unfold parseOpenAIStream at 1. rewrite Hd.
    cbn [streamable_from extractStateAfter].
    replace (match as_OpenAIStreamReturnTypes j with
             | Azure c => Chat (convertAzure c)
             | _ => as_OpenAIStreamReturnTypes j
             end) with (as_OpenAIStreamReturnTypes j)
      by (destruct (as_OpenAIStreamReturnTypes j); [reflexivity | reflexivity | discriminate Hj]).
    destruct (chunkToText st (as_OpenAIStreamReturnTypes j)) as [m st']. cbn [snd].
    rewrite (IH jsons Hrest Hz st').
    destruct (truthy_message m); reflexivity.
Qed.

(** The events of a body up to the data [[DONE]], when it is the last
    event of its chunk, give the stream of what [streamable] yields for
    the chunks they hold, however they are spread over the chunks of the
    body. *)
Lemma events_as_chunks (before : list (list string)) (datas : list string)
    (after : list (list SSEEvent)) :
  forall (jsons : list JSONValue),
    map parse (List.concat before ++ datas)%list = map Some jsons ->
    forallb notAzure (map as_OpenAIStreamReturnTypes jsons) = true ->
    forall st,
      createEventStreamTransformer (Some (parseOpenAIStream as_OpenAIStreamReturnTypes)) st
        (map dataEvents before ++
         (dataEvents datas ++ [ParsedEvent None "[DONE]"]) :: after)%list =
      mkStream (streamable_from st (map as_OpenAIStreamReturnTypes jsons)) Closed.
Proof.
  induction before as [|chunk before IH]; intros jsons Hp Hz st.
  - cbn [List.concat app map createEventStreamTransformer] in *.
    rewrite StageFacts.feed_app, (feed_as_chunks datas jsons Hp Hz st).
    cbn. now rewrite List.app_nil_r.
  - cbn [List.concat] in Hp. rewrite <- List.app_assoc, map_app in Hp.
    symmetry in Hp. apply map_eq_app in Hp as (j1 & j2 & -> & H1 & H2).
    rewrite map_app, forallb_app in Hz. apply andb_true_iff in Hz as [Hz1 Hz2].
    cbn [map app createEventStreamTransformer].
    rewrite (feed_as_chunks chunk j1 (eq_sym H1) Hz1 st).
    rewrite (IH j2 (eq_sym H2) Hz2), StageFacts.pushes_closed.
    now rewrite map_app, ExtractorLaws.streamable_from_app.
Qed.

End ResponseLegs.

Section StageRuns.
Variable eventsource_parser : list string -> list (list SSEEvent).
Variable as_OpenAIStreamReturnTypes : JSONValue -> OpenAIStreamReturnTypes.
Variable formatStreamPart : StreamPartKind -> JSONValue -> string.
Variable createStreamDataTransformer : bool -> Stream string -> Stream string.

Abbreviation source' := (source eventsource_parser as_OpenAIStreamReturnTypes).
Abbreviation leg' := (leg eventsource_parser as_OpenAIStreamReturnTypes).
Abbreviation leg_text' := (leg_text eventsource_parser as_OpenAIStreamReturnTypes).
Abbreviation leg_closes' := (leg_closes eventsource_parser as_OpenAIStreamReturnTypes).
Abbreviation OpenAIStream' :=
  (OpenAIStream eventsource_parser as_OpenAIStreamReturnTypes formatStreamPart
     createStreamDataTransformer).

Lemma source_finals (res : OpenAIStreamInput) (cb : OpenAIStreamCallbacks) :
  hasHandler cb = false ->
  finals (fst (source' res cb)) =
  (if onFinal cb && leg_closes' res && negb (slot_in (experimental_onFunctionCall cb))
   then [leg_text' res] else []).
Proof.
  intros H. unfold leg_text, leg_closes, leg, source. rewrite H.
  cbn [hasHandler noCallbacks experimental_onFunctionCall experimental_onToolCall
       slot_value is_some orb].
  destruct res as [[[] b]|stream].
  - unfold AIStream. cbn [ok negb body].
    match goal with |- context [createCallbacksTransformer cb ?s] =>
      destruct (createCallbacksTransformer_spec cb s) as (evs & E & _ & F & _);
      destruct (createCallbacksTransformer_spec noCallbacks s) as (evs0 & E0 & _)
    end.
    rewrite E, E0. cbn [fst snd chunks ending]. rewrite F.
    unfold isOfTypeOpenAIStreamCallbacks.
    destruct (is_closed _), (onFinal cb), (slot_in _); reflexivity.
  - unfold AIStream. cbn [ok negb body].
    destruct b as [[|value more]|]; cbn; rewrite ?andb_false_r; reflexivity.
  - match goal with |- context [createCallbacksTransformer cb ?s] =>
      destruct (createCallbacksTransformer_spec cb s) as (evs & E & _ & F & _);
      destruct (createCallbacksTransformer_spec noCallbacks s) as (evs0 & E0 & _)
    end.
    rewrite E, E0. cbn [fst snd chunks ending is_closed andb] in *. rewrite F.
    unfold isOfTypeOpenAIStreamCallbacks.
    destruct (onFinal cb), (slot_in _); reflexivity.
Qed.

(** X24.  A response and an async iterable that bring the same chunks
    make the same stream: when the events of the body of a response that is
    ok hold, up to the data [[DONE]], the JSON texts of chunks (none of
    them of Azure, which only [streamable] converts), and [[DONE]] is the
    last event of its chunk of the body, [OpenAIStream] on the response is
    [OpenAIStream] on the async iterable of those chunks, however the
    events are spread over the chunks of the body and whatever the body
    holds after that chunk. *)
Theorem response_is_the_iterable_of_its_chunks (fuel : nat) (cb : OpenAIStreamCallbacks)
    (bodyChunks : list string) (before : list (list string)) (datas : list string)
    (jsons : list JSONValue) (after : list (list SSEEvent)) :
  eventsource_parser bodyChunks =
    (map dataEvents before ++
     (dataEvents datas ++ [ParsedEvent None "[DONE]"]) :: after)%list ->
  map parse (List.concat before ++ datas)%list = map Some jsons ->
  forallb notAzure (map as_OpenAIStreamReturnTypes jsons) = true ->
  OpenAIStream' fuel (FromResponse (mkResponse true (Some bodyChunks))) cb =
  OpenAIStream' fuel (FromAsyncIterable (map as_OpenAIStreamReturnTypes jsons)) cb.
Proof.
  intros He Hp Hz.
  assert (Hs : source' (FromResponse (mkResponse true (Some bodyChunks))) cb =
               source' (FromAsyncIterable (map as_OpenAIStreamReturnTypes jsons)) cb).
  { unfold source, AIStream. cbn [ok negb body]. rewrite He.
    rewrite (events_as_chunks as_OpenAIStreamReturnTypes before datas after jsons Hp Hz).
    reflexivity. }
  destruct fuel as [|fuel]; [reflexivity|].
  cbn [OpenAIStream]. rewrite Hs. reflexivity.
Qed.

(** X25.  Without a handler, [OpenAIStream] is the first two stages
    followed by [createStreamDataTransformer]: no handler is called and no
    nested call is made, [onCompletion] is called when the stream of the
    leg closes, with its text, and so is [onFinal], unless the callbacks
    hold the key [experimental_onFunctionCall] with no function in it, in
    which case [onFinal] is never called. *)
Theorem OpenAIStream_without_a_handler (fuel : nat) (res : OpenAIStreamInput)
    (cb : OpenAIStreamCallbacks) :
  hasHandler cb = false ->
  exists evs,
    OpenAIStream' (S fuel) res cb =
      Some (mkRun evs (createStreamDataTransformer (experimental_streamData cb) (leg' res))
              None) /\
    handlerCalls evs = [] /\
    continuations evs = [] /\
    completions evs = (if onCompletion cb && leg_closes' res then [leg_text' res] else []) /\
    finals evs =
      (if onFinal cb && leg_closes' res && negb (slot_in (experimental_onFunctionCall cb))
       then [leg_text' res] else []).
Proof.
  intros H. cbn [OpenAIStream].
  pose proof (source_no_handler eventsource_parser as_OpenAIStreamReturnTypes res cb) as Hq.
  pose proof (source_finals res cb H) as Hf.
  destruct (source_spec eventsource_parser as_OpenAIStreamReturnTypes res cb)
    as (evs & E & _ & _ & C & R).
  rewrite E in *. cbn [fst] in *. rewrite H. exists evs. auto.
Qed.

(** X26.  When the stream of a leg does not close (the response is not ok,
    or the parser throws), the function-call stage never reaches [flush]:
    the stream with a handler ends as the leg does, and on that leg no
    handler is called, no nested call is made, and neither [onCompletion]
    nor [onFinal] is called. *)
Theorem leg_that_does_not_close (fuel : nat) (res : OpenAIStreamInput)
    (cb : OpenAIStreamCallbacks) :
  hasHandler cb = true ->
  leg_closes' res = false ->
  exists r,
    OpenAIStream' (S fuel) res cb = Some r /\
    ending (out r) = ending (leg' res) /\
    handlerCalls (trace r) = [] /\
    continuations (trace r) = [] /\
    completions (trace r) = [] /\
    finals (trace r) = [] /\
    completion r = None.
Proof.
  intros Hh Hc. cbn [OpenAIStream].
  pose proof (source_no_handler eventsource_parser as_OpenAIStreamReturnTypes res cb) as Hq.
  destruct (source_spec eventsource_parser as_OpenAIStreamReturnTypes res cb)
    as (evs & E & _ & F & C & R).
  rewrite E in *. cbn [fst] in *. rewrite Hh.
  unfold createFunctionCallTransformer.
  destruct (transform_all _ _ _ _) as [st outs].
  rewrite Hc, andb_false_r in C. unfold leg_closes in Hc.
  destruct (ending (leg' res)) eqn:Ee; [discriminate Hc| |];
    (eexists; split; [reflexivity|]; cbn [trace out completion ending];
     rewrite List.app_nil_r, Hq, R, C, (F Hh); auto 10).
Qed.

(** X27.  With a handler, a leg whose chunks open no call passes through
    the function-call stage as it is: every chunk is forwarded (as a text
    part in multiplexed mode), the stream closes, no handler is called, no
    nested call is made, and [onFinal], when set, is given the text of the
    leg, unless it is empty. *)
Theorem texts_pass_through (fuel : nat) (res : OpenAIStreamInput)
    (cb : OpenAIStreamCallbacks) :
  hasHandler cb = true ->
  leg_closes' res = true ->
  forallb (fun c => negb (opensCall c)) (chunks (leg' res)) = true ->
  exists r,
    OpenAIStream' (S fuel) res cb = Some r /\
    out r = mkStream (map (forwarded formatStreamPart cb) (chunks (leg' res))) Closed /\
    handlerCalls (trace r) = [] /\
    continuations (trace r) = [] /\
    finals (trace r) =
      (if onFinal cb && nonempty (leg_text' res) then [leg_text' res] else []).
Proof.
  intros Hh Hc Ht. cbn [OpenAIStream].
  pose proof (source_no_handler eventsource_parser as_OpenAIStreamReturnTypes res cb) as Hq.
  destruct (source_spec eventsource_parser as_OpenAIStreamReturnTypes res cb)
    as (evs & E & _ & F & C & R).
  rewrite E in *. cbn [fst] in *. rewrite Hh.
  unfold createFunctionCallTransformer.
  pose proof (transform_all_before_call formatStreamPart cb (chunks (leg' res)) []
                initialTransformer eq_refl eq_refl Ht) as TB.
  rewrite List.app_nil_r in TB. rewrite TB.
  cbn [transform_all initialTransformer aggregatedResponse aggregatedFinalCompletionResponse
       append].
  unfold leg_closes in Hc. destruct (ending (leg' res)); try discriminate Hc.
  unfold flush. cbn [isFirstChunk negb andb aggregatedFinalCompletionResponse].
  eexists. split; [reflexivity|]. cbn [trace out completion chunks ending].
  rewrite !List.app_nil_r, handlerCalls_app, continuations_app, finals_app, Hq, R, (F Hh),
    finally_no_handler, finally_continuations, finally_finals.
  auto.
Qed.
End StageRuns.

(** The sample response, whose body is read as one chunk with one event
    before [[DONE]]. *)
Lemma response_is_the_iterable_of_its_chunks_witness :
  OpenAIStream oneEvent helloCast render pass_on 1
    (FromResponse (mkResponse true (Some ["data: {}"]))) (hooks (Present declines) None) =
  OpenAIStream oneEvent helloCast render pass_on 1
    (FromAsyncIterable (map helloCast [JObject []])) (hooks (Present declines) None) /\
  OpenAIStream oneEvent helloCast render pass_on 1
    (FromResponse (mkResponse true (Some ["data: {}"]))) (hooks (Present declines) None) =
  Some (mkRun [OnStart; OnToken "Hello"; OnText "Hello"; OnCompletion "Hello"; OnFinal "Hello"]
          (mkStream ["Hello"] Closed) (Some "Hello")).
Proof.
  assert (H := response_is_the_iterable_of_its_chunks oneEvent helloCast render pass_on 1
                 (hooks (Present declines) None) ["data: {}"] [] ["{}"] [JObject []] []
                 eq_refl eq_refl eq_refl).
  split; [exact H|]. rewrite H. reflexivity.
Defined.

Lemma OpenAIStream_without_a_handler_witness :
  exists evs,
    runOpenAIStream 1 (FromAsyncIterable [contentDelta "Hello"])
      (mkCallbacks true true true true true false Undefined None None) =
      Some (mkRun evs
              (pass_on (experimental_streamData
                          (mkCallbacks true true true true true false Undefined None None))
                 (leg no_events no_cast (FromAsyncIterable [contentDelta "Hello"])))
              None) /\
    handlerCalls evs = [] /\
    continuations evs = [] /\
    completions evs =
      (if onCompletion (mkCallbacks true true true true true false Undefined None None) &&
          leg_closes no_events no_cast (FromAsyncIterable [contentDelta "Hello"])
       then [leg_text no_events no_cast (FromAsyncIterable [contentDelta "Hello"])] else []) /\
    finals evs =
      (if onFinal (mkCallbacks true true true true true false Undefined None None) &&
          leg_closes no_events no_cast (FromAsyncIterable [contentDelta "Hello"]) &&
          negb (slot_in (experimental_onFunctionCall
                           (mkCallbacks true true true true true false Undefined None None)))
       then [leg_text no_events no_cast (FromAsyncIterable [contentDelta "Hello"])] else []).
Proof.
  apply (OpenAIStream_without_a_handler no_events no_cast render pass_on 0
           (FromAsyncIterable [contentDelta "Hello"])
           (mkCallbacks true true true true true false Undefined None None)).
  reflexivity.
Defined.

Lemma leg_that_does_not_close_witness :
  exists r,
    runOpenAIStream 1 (FromResponse longErrorResponse) (hooks (Present declines) None) = Some r /\
    ending (out r) = ending (leg no_events no_cast (FromResponse longErrorResponse)) /\
    handlerCalls (trace r) = [] /\
    continuations (trace r) = [] /\
    completions (trace r) = [] /\
    finals (trace r) = [] /\
    completion r = None.
Proof.
  apply (leg_that_does_not_close no_events no_cast render pass_on 0
           (FromResponse longErrorResponse) (hooks (Present declines) None)); reflexivity.
Defined.

Lemma texts_pass_through_witness :
  exists r,
    runOpenAIStream 1 (FromAsyncIterable [contentDelta "Hello"; contentDelta " world"])
      (hooks (Present declines) None) = Some r /\
    out r = mkStream (map (forwarded render (hooks (Present declines) None))
                        (chunks (leg no_events no_cast
                                   (FromAsyncIterable
                                      [contentDelta "Hello"; contentDelta " world"])))) Closed /\
    handlerCalls (trace r) = [] /\
    continuations (trace r) = [] /\
    finals (trace r) =
      (if onFinal (hooks (Present declines) None) &&
          nonempty (leg_text no_events no_cast
                      (FromAsyncIterable [contentDelta "Hello"; contentDelta " world"]))
       then [leg_text no_events no_cast
               (FromAsyncIterable [contentDelta "Hello"; contentDelta " world"])]
       else []).
Proof.
  apply (texts_pass_through no_events no_cast render pass_on 0
           (FromAsyncIterable [contentDelta "Hello"; contentDelta " world"])
           (hooks (Present declines) None)); reflexivity.
Defined.

End StageFacts.

(** ** The tokens of a run *)

Module TokenFacts.
Import Str JSON Provider Streams Pipeline Vocabulary Samples Scenarios StrFacts
  PipelineFacts CallFacts.

Lemma callFunctionHandler_tokens (h : FunctionCallHandler) (payload : JSONValue)
    (messages : list CreateMessage) :
  tokens (fst (callFunctionHandler h payload messages)) = [].
Proof.
  unfold callFunctionHandler.
  destruct (get "function_call" payload); destruct (prop "arguments" _);
    try destruct (parse_any _); reflexivity.
Qed.

Lemma callToolHandler_tokens (h : ToolCallHandler) (payload : JSONValue)
    (response : HandlerReturn) (messages : list CreateMessage) :
  tokens (fst (callToolHandler h payload response messages)) = [].
Proof.
  unfold callToolHandler.
  destruct (toolCallsOf payload); [|reflexivity].
  match goal with |- context [if ?b then _ else _] => destruct b end; [reflexivity|].
  destruct (result _); reflexivity.
Qed.

Lemma finally_tokens (b : bool) (final : string) : tokens (finally_ b final) = [].
Proof. unfold finally_, when. destruct (b && _); reflexivity. Qed.

Section TokenRuns.
Variable eventsource_parser : list string -> list (list SSEEvent).
Variable as_OpenAIStreamReturnTypes : JSONValue -> OpenAIStreamReturnTypes.
Variable formatStreamPart : StreamPartKind -> JSONValue -> string.
Variable createStreamDataTransformer : bool -> Stream string -> Stream string.

Abbreviation source' := (source eventsource_parser as_OpenAIStreamReturnTypes).
Abbreviation leg' := (leg eventsource_parser as_OpenAIStreamReturnTypes).
Abbreviation OpenAIStream' :=
  (OpenAIStream eventsource_parser as_OpenAIStreamReturnTypes formatStreamPart
     createStreamDataTransformer).

Lemma source_tokens (res : OpenAIStreamInput) (cb : OpenAIStreamCallbacks) :
  tokens (fst (source' res cb)) = (if onToken cb then chunks (leg' res) else []).
Proof.
  unfold leg, source.
  set (cb1 := if hasHandler cb then withoutOnFinal cb else cb).
  assert (H1 : onToken cb1 = onToken cb) by (subst cb1; destruct (hasHandler cb); reflexivity).
  cbn [hasHandler noCallbacks experimental_onFunctionCall experimental_onToolCall
       slot_value is_some orb].
  destruct res as [[[] b]|stream].
  - unfold AIStream. cbn [ok negb body].
    match goal with |- context [createCallbacksTransformer cb1 ?s] =>
      destruct (createCallbacksTransformer_spec cb1 s) as (evs & E & _ & _ & _ & _ & T & _);
      destruct (createCallbacksTransformer_spec noCallbacks s) as (evs0 & E0 & _)
    end.
    rewrite E, E0. cbn [fst snd chunks]. now rewrite T, H1.
  - unfold AIStream. cbn [ok negb body].
    destruct b as [[|value more]|]; cbn; destruct (onToken cb); reflexivity.
  - match goal with |- context [createCallbacksTransformer cb1 ?s] =>
      destruct (createCallbacksTransformer_spec cb1 s) as (evs & E & _ & _ & _ & _ & T & _);
      destruct (createCallbacksTransformer_spec noCallbacks s) as (evs0 & E0 & _)
    end.
    rewrite E, E0. cbn [fst snd chunks]. now rewrite T, H1.
Qed.

(** The tokens and the nested calls of [flush]: its own events hold
    neither, so they are those of the nested call, if there is one. *)
Lemma flush_tokens (recur : OpenAIStreamInput -> OpenAIStreamCallbacks -> option Run)
    (cb : OpenAIStreamCallbacks) (st : TransformerState) (r : Run) :
  flush formatStreamPart recur cb st = Some r ->
  (tokens (trace r) = [] /\ continuations (trace r) = []) \/
  (exists res messages inner,
      recur res (filteredCallbacks cb messages) = Some inner /\
      tokens (trace r) = tokens (trace inner) /\
      continuations (trace r) = res :: continuations (trace inner)).
Proof.
  intros H. unfold flush in H.
  destruct (negb (isFirstChunk st) && isFunctionStreamingIn' st && _).
  2: { inversion H; subst; cbn. left. now rewrite finally_tokens, finally_continuations. }
  destruct (parse (aggregatedResponse st)) as [payload|].
  2: { inversion H; subst; cbn. left. now rewrite finally_tokens, finally_continuations. }
  set (R1 := match slot_value (experimental_onFunctionCall cb) with
             | Some h => callFunctionHandler h payload _
             | None => _ end) in H.
  assert (Q1 : tokens (fst R1) = [] /\ continuations (fst R1) = []).
  { subst R1. destruct (slot_value _); [|split; reflexivity].
    split; [apply callFunctionHandler_tokens | apply callFunctionHandler_quiet]. }
  destruct R1 as [ev1 [e|[response1 messages1]]]; cbn [fst] in Q1; destruct Q1 as [T1 C1].
  { inversion H; subst; cbn. left.
    now rewrite tokens_app, continuations_app, T1, C1, finally_tokens, finally_continuations. }
  set (R2 := match experimental_onToolCall cb with
             | Some h => callToolHandler h payload response1 messages1
             | None => _ end) in H.
  assert (Q2 : tokens (fst R2) = [] /\ continuations (fst R2) = []).
  { subst R2. destruct (experimental_onToolCall cb); [|split; reflexivity].
    split; [apply callToolHandler_tokens | apply callToolHandler_quiet]. }
  destruct R2 as [ev2 [e|[functionResponse messages2]]]; cbn [fst] in Q2; destruct Q2 as [T2 C2].
  { inversion H; subst; cbn. left.
    now rewrite !tokens_app, !continuations_app, T1, C1, T2, C2, finally_tokens,
      finally_continuations. }
  destruct functionResponse as [|s|res'].
  - inversion H; subst; cbn. left.
    now rewrite !tokens_app, !continuations_app, T1, C1, T2, C2, finally_tokens,
      finally_continuations.
  - destruct s as [|c s]; inversion H; subst; cbn; left;
      now rewrite !tokens_app, !continuations_app, T1, C1, T2, C2, finally_tokens,
        finally_continuations.
  - fold (filteredCallbacks cb messages2) in H.
    destruct (recur res' (filteredCallbacks cb messages2)) as [inner|] eqn:E; [|discriminate].
    inversion H; subst; clear H. cbn [trace]. right. exists res', messages2, inner.
    split; [exact E|].
    rewrite !tokens_app, !continuations_app, T1, C1, T2, C2.
    cbn [tokens continuations app].
    destruct (ending (out inner)); cbn [finally_ when andb tokens continuations];
      rewrite ?tokens_app, ?continuations_app, ?List.app_nil_r; cbn; rewrite ?List.app_nil_r; auto.
Qed.

(** X28.  [onToken], when set, is given every chunk of every leg of a
    run, those of a call included, leg after leg in the order of the
    nested calls; the handlers and [flush] add no token of their own. *)
Theorem onToken_is_given_every_chunk_of_every_leg (fuel : nat) :
  forall (res : OpenAIStreamInput) (cb : OpenAIStreamCallbacks) (r : Run),
  OpenAIStream' fuel res cb = Some r ->
  tokens (trace r) =
  (if onToken cb
   then flat_map (fun leg_res => chunks (leg' leg_res)) (res :: continuations (trace r))
   else []).
Proof.
  induction fuel as [|fuel IH]; intros res cb r H; [discriminate|].
  cbn [OpenAIStream] in H.
  pose proof (source_tokens res cb) as Tk.
  destruct (source_spec eventsource_parser as_OpenAIStreamReturnTypes res cb)
    as (evs & E & _ & _ & _ & R).
  rewrite E in *. cbn [fst] in Tk.
  destruct (hasHandler cb).
  2: { inversion H; subst; cbn [trace]. rewrite Tk, R. cbn [flat_map].
       now rewrite List.app_nil_r. }
  unfold createFunctionCallTransformer in H.
  destruct (transform_all _ _ _ _) as [st outs].
  assert (Z : forall r0, trace r0 = [] \/
                         flush formatStreamPart (OpenAIStream' fuel) cb st = Some r0 ->
              r = mkRun (evs ++ trace r0)%list (out r) (completion r) ->
              tokens (trace r) =
              (if onToken cb
               then flat_map (fun leg_res => chunks (leg' leg_res))
                      (res :: continuations (trace r))
               else [])).
  { intros r0 [T0|F0] ->; cbn [trace]; rewrite tokens_app, continuations_app, Tk, R.
    - rewrite T0. cbn [tokens continuations app flat_map].
      destruct (onToken cb); now rewrite ?List.app_nil_r.
    - destruct (flush_tokens _ _ _ _ F0) as [[T0 C0] | (res' & ms & inner & Rc & T0 & C0)].
      + rewrite T0, C0. cbn [app flat_map]. destruct (onToken cb); now rewrite ?List.app_nil_r.
      + rewrite T0, C0, (IH _ _ _ Rc). cbn [app flat_map filteredCallbacks onToken].
        destruct (onToken cb); reflexivity. }
  destruct (ending (leg' res)).
  - destruct (flush _ _ _ _) as [r0|] eqn:F0; [|discriminate].
    inversion H; subst. apply (Z r0); [right; reflexivity | reflexivity].
  - inversion H; subst. apply (Z (mkRun [] (mkStream outs (Errored e)) None));
      [left; reflexivity | reflexivity].
  - inversion H; subst. apply (Z (mkRun [] (mkStream outs Pending) None));
      [left; reflexivity | reflexivity].
Qed.
End TokenRuns.

Lemma onToken_is_given_every_chunk_of_every_leg_witness :
  tokens (trace continuedRun) =
  (if onToken (hooks (Present continues) None)
   then flat_map (fun leg_res => chunks (leg no_events no_cast leg_res))
          (FromAsyncIterable callOfF :: continuations (trace continuedRun))
   else []).
Proof.
  apply (onToken_is_given_every_chunk_of_every_leg no_events no_cast render pass_on 3
           (FromAsyncIterable callOfF) (hooks (Present continues) None) continuedRun).
  vm_compute. reflexivity.
Defined.

End TokenFacts.
